(** * SpeakFluent-AI: the real-time meeting orchestrator

    A shallow embedding of

    - [backend/app/websocket/manager.py]   (connection registry, fan-out),
    - [backend/app/websocket/handler.py]   (session lifecycle, utterance pipeline),
    - [backend/app/services/translation.py], [tts.py], [transcription.py]

    followed by the properties the specification states about them.

    The Python coroutines are embedded as computations of a state and
    exception monad over a [World]: the registry dict [_rooms], the store of
    [Participant] objects, and the trace of calls made to the outside world
    (transport, speech services, database, logger).  The outside world is
    a class of oracles, [Collaborators]; an oracle that stands for a
    service or a store takes the current length of the trace, so its answer
    may change from one call to the next.  One coroutine is followed at a
    time: nothing else runs between two of its steps. *)

From stdpp Require Import gmap strings list fin_maps.
From Stdlib Require Import QArith.

Local Close Scope Q_scope.
Local Open Scope string_scope.
Local Open Scope list_scope.
Local Open Scope nat_scope.

(** ** Python values *)

(** Free text (transcripts, translations, JSON frames) is a sequence of
    Unicode code points; identifiers that the code compares against ASCII
    literals (room codes, language codes, modes) are [string]. *)
Abbreviation pystr := (list N).

(** The code points for which [str.isspace] holds, which are the ones
    [str.strip()] removes. *)
Definition isspace (c : N) : bool :=
  ((9 <=? c) && (c <=? 13) || (28 <=? c) && (c <=? 32)
   || (c =? 133) || (c =? 160) || (c =? 5760)
   || (8192 <=? c) && (c <=? 8202)
   || (c =? 8232) || (c =? 8233) || (c =? 8239) || (c =? 8287)
   || (c =? 12288))%N.

Fixpoint lstrip (s : pystr) : pystr :=
  match s with
  | c :: s' => if isspace c then lstrip s' else s
  | [] => []
  end.

Definition rstrip (s : pystr) : pystr := reverse (lstrip (reverse s)).

Definition strip (s : pystr) : pystr := rstrip (lstrip s).

(** Truth value of a [str]: [not s] holds exactly for the empty string. *)
Definition truthy (s : pystr) : bool :=
  match s with [] => false | _ => true end.

(** [not text or not text.strip()] *)
Definition blank (s : pystr) : bool := negb (truthy s) || negb (truthy (strip s)).

(** ** Exceptions and the computation monad *)

Inductive exn :=
| WebSocketDisconnect
| Exception_ (cls : string)        (* any other subclass of Exception *)
| BaseException_ (cls : string).   (* CancelledError and the like *)

Global Instance exn_eq_dec : EqDecision exn.
Proof. solve_decision. Defined.

(** [isinstance(e, Exception)] *)
Definition is_Exception (e : exn) : bool :=
  match e with BaseException_ _ => false | _ => true end.

(** What a call into a collaborator does: return, or raise an instance of
    the subclass [cls] of [Exception]. *)
Inductive outcome (A : Type) :=
| Returns (a : A)
| Raises (cls : string).
Arguments Returns {A} a.
Arguments Raises {A} cls.

(** What a coroutine does from a given world: return, raise, or stay
    suspended in [receive()] because no further frame is available. *)
Inductive result (A : Type) :=
| Ok (a : A)
| Raise (e : exn)
| Blocked.
Arguments Ok {A} a.
Arguments Raise {A} e.
Arguments Blocked {A}.

(** ** Data model *)

Record Participant := {
  websocket : nat;            (* the WebSocket object, by identity *)
  user_id : Z;
  username : string;
  language_mode : string      (* "hi_to_en" or "en_to_hi" *)
}.

Global Instance Participant_inhabited : Inhabited Participant :=
  populate {| websocket := 0; user_id := 0; username := ""; language_mode := "" |}.

(** One element of the list [get_participant_list] returns. *)
Record RosterEntry := {
  re_user_id : Z;
  re_username : string;
  re_language_mode : string
}.

(** The outbound JSON events, one constructor per ["type"]. *)
Inductive Payload :=
| connection_established (uid : Z) (uname room_code mode : string)
                         (participants : list RosterEntry)
| user_joined (uid : Z) (uname mode : string) (participants : list RosterEntry)
| user_left (uid : Z) (uname : string) (participants : list RosterEntry)
| translation_result (uid : Z) (uname : string)
                     (original_text translated_text : pystr)
                     (source_language target_language audio_url : string)
                     (confidence : Q)
| mode_changed (mode : string)
| pong.

Record User := { id : Z; name : string }.

Record Room := { room_id : Z }.

Record MessageLog := {
  ml_room_id : Z;
  ml_user_id : Z;
  ml_original_text : pystr;
  ml_translated_text : pystr;
  ml_source_language : string;
  ml_target_language : string;
  ml_audio_url : string;
  ml_confidence : Q
}.

Record Transcription := {
  tr_text : pystr;
  tr_language : string;
  tr_confidence : Q
}.

(** Result dict of [model.transcribe]: ["text"], ["language"], and the
    confidence [round(max(0.0, min(1.0, 1.0 + avg_logprob)), 3)] of its
    segments ([None] when there are no segments). *)
Record WhisperResult := {
  wr_text : option pystr;
  wr_language : option string;
  wr_segments_confidence : option Q
}.

(** A frame as [websocket.receive()] returns it: a dict in which the keys
    ["bytes"] and ["text"] may be missing, or present with value [None]. *)
Record Message := {
  msg_bytes : option (option (list Byte.byte));
  msg_text : option (option pystr)
}.

(** What one [await websocket.receive()] does: hand over a frame, or raise
    (a disconnect, any other error, or the cancellation of the task). *)
Inductive received :=
| Frame (message : Message)
| ReceiveRaises (e : exn).

(** The result of [json.loads], as far as the handler looks into it. *)
Inductive jvalue := JString (s : string) | JOther.
Inductive json := JDict (fields : gmap string jvalue) | JNotDict.

Inductive LogLevel := INFO | WARNING | ERROR.

(** Calls that leave the process, in the order they are made. *)
Inductive Event :=
| EAccept (ws : nat)
| EClose (ws : nat) (code : Z) (reason : string)
| ESendJson (ws : nat) (data : Payload) (delivered : bool)
| ETranscribe (audio : list Byte.byte)
| ETranslate (source target : string) (t : pystr)
| ESynthesize (t : pystr) (voice filepath : string)
| EDbCommit (row : MessageLog) (committed : bool)
| ELog (level : LogLevel) (msg : string).

Global Instance byte_eq_dec : EqDecision Byte.byte.
Proof. intros x y. destruct (Byte.byte_eq_dec x y); [left | right]; done. Defined.
Global Instance Q_eq_dec : EqDecision Q.
Proof. solve_decision. Defined.
Global Instance RosterEntry_eq_dec : EqDecision RosterEntry.
Proof. solve_decision. Defined.
Global Instance Payload_eq_dec : EqDecision Payload.
Proof. solve_decision. Defined.
Global Instance MessageLog_eq_dec : EqDecision MessageLog.
Proof. solve_decision. Defined.
Global Instance LogLevel_eq_dec : EqDecision LogLevel.
Proof. solve_decision. Defined.
Global Instance Event_eq_dec : EqDecision Event.
Proof. solve_decision. Defined.

(** The state of the process.  [_rooms] holds references: a member of a
    room's set would be the identity of a [Participant] object, whose
    fields live in [objs].  The class is declared with a bare [@dataclass],
    which generates [__eq__] and sets [__hash__] to [None]: a
    [Participant] cannot be hashed, and [set.add] and [set.discard] raise
    [TypeError] on one, whatever the set holds.  So [connect] and
    [disconnect] raise where they touch a room's set, and no run of the
    code puts a session into one.  The type of [_rooms] still has sets
    with members; the loops of [broadcast_json] and [get_participant_list]
    are modelled on them as written, the members told apart by identity
    as in the [p is exclude] test. *)
Record World := {
  _rooms : gmap string (gset nat);
  objs : gmap nat Participant;
  next_obj : nat;
  trace : list Event
}.

Definition M (A : Type) : Type := World → World * result A.

Global Instance M_ret : MRet M := λ A a w, (w, Ok a).

Global Instance M_bind : MBind M := λ A B f m w,
  match m w with
  | (w', Ok a) => f a w'
  | (w', Raise e) => (w', Raise e)
  | (w', Blocked) => (w', Blocked)
  end.

Definition raise {A} (e : exn) : M A := λ w, (w, Raise e).

Definition blocked {A} : M A := λ w, (w, Blocked).

Definition lift_outcome {A} (o : outcome A) : M A :=
  match o with Returns a => mret a | Raises cls => raise (Exception_ cls) end.

(** [try: body / except ...: handler]; [handler e = None] when no except
    clause matches [e]. *)
Definition try_except {A} (body : M A) (handler : exn → option (M A)) : M A :=
  λ w, match body w with
       | (w', Raise e) =>
           match handler e with Some h => h w' | None => (w', Raise e) end
       | r => r
       end.

(** [except Exception:] *)
Definition except_Exception {A} (h : M A) : exn → option (M A) :=
  λ e, if is_Exception e then Some h else None.

(** [try: body / finally: fin].  A coroutine suspended inside [body] has
    not left the [try]. *)
Definition try_finally {A} (body : M A) (fin : M unit) : M A :=
  λ w, match body w with
       | (w', Blocked) => (w', Blocked)
       | (w', r) =>
           match fin w' with
           | (w'', Ok _) => (w'', r)
           | (w'', Raise e) => (w'', Raise e)
           | (w'', Blocked) => (w'', Blocked)
           end
       end.

Definition exec {A} (m : M A) (w : World) : World := (m w).1.
Definition returned {A} (m : M A) (w : World) : result A := (m w).2.

Definition now : M nat := λ w, (w, Ok (length (trace w))).

Definition emit (e : Event) : M unit := λ w,
  ({| _rooms := _rooms w; objs := objs w; next_obj := next_obj w;
      trace := trace w ++ [e] |}, Ok ()).

Definition log (level : LogLevel) (msg : string) : M unit := emit (ELog level msg).

Definition get_rooms : M (gmap string (gset nat)) := λ w, (w, Ok (_rooms w)).

Definition set_rooms (f : gmap string (gset nat) → gmap string (gset nat)) : M unit :=
  λ w, ({| _rooms := f (_rooms w); objs := objs w; next_obj := next_obj w;
           trace := trace w |}, Ok ()).

Definition get_obj (p : nat) : M Participant := λ w, (w, Ok (objs w !!! p)).

Definition set_obj (p : nat) (f : Participant → Participant) : M unit :=
  λ w, ({| _rooms := _rooms w; objs := alter f p (objs w); next_obj := next_obj w;
           trace := trace w |}, Ok ()).

(** Construct a [Participant]; the new object gets an identity no live
    object has. *)
Definition new_obj (o : Participant) : M nat := λ w,
  ({| _rooms := _rooms w; objs := <[next_obj w := o]> (objs w);
      next_obj := S (next_obj w); trace := trace w |}, Ok (next_obj w)).

(** ** The outside world *)

(** Everything the modelled code calls and does not define: the transport
    (Starlette), Whisper, langdetect, deep-translator, edge-tts, the
    database session, [uuid], [os.path], [json], [int], and
    [app.core.security.decode_access_token].  The first [nat] of an oracle
    is the length of the trace at the time of the call. *)
Class Collaborators := {
  (* transport *)
  ws_accept : nat → nat → outcome unit;
  ws_close : nat → nat → outcome unit;
  (* [true]: this [send_json] raises (RuntimeError, WebSocketDisconnect) *)
  ws_send_json_raises : nat → nat → Payload → bool;
  (* speech services *)
  whisper_transcribe : nat → list Byte.byte → outcome WhisperResult;
  langdetect_detect : nat → pystr → outcome string;
  GoogleTranslator_translate : nat → string → string → pystr → outcome (option pystr);
  edge_tts_save : nat → pystr → string → string → outcome unit;
  uuid4_hex : nat → string;
  AUDIO_DIR : string;
  os_path_join : string → string → string;
  (* identity and rooms *)
  decode_access_token : nat → string → option (gmap string string);
  py_int : string → option Z;
  db_user_by_id : nat → Z → outcome (option User);
  db_active_room : nat → string → outcome (option Room);
  db_room_by_code : nat → string → outcome (option Room);
  (* the RoomParticipant row of a user in a room, and the [.value] of its
     [language_mode] when it has one *)
  db_room_participant : nat → Z → string → outcome (option (option string));
  db_commit : nat → MessageLog → outcome unit;
  json_loads : pystr → option json
}.

Section Model.
Context `{Collaborators}.

(** ** services/transcription.py *)

Definition transcribe_audio (audio_bytes : list Byte.byte) : M Transcription :=
  try_except
    (t ← now;
     emit (ETranscribe audio_bytes);;
     result ← lift_outcome (whisper_transcribe t audio_bytes);
     let text := strip (default [] (wr_text result)) in
     let detected_lang := default "en" (wr_language result) in
     let confidence := default 0%Q (wr_segments_confidence result) in
     log INFO "Transcription complete";;
     mret {| tr_text := text; tr_language := detected_lang;
             tr_confidence := confidence |})
    (except_Exception
       (log ERROR "Transcription failed";;
        mret {| tr_text := []; tr_language := "en"; tr_confidence := 0%Q |})).

(** ** services/translation.py *)

Definition detect_language (text : pystr) : M string :=
  try_except
    (t ← now;
     lang ← lift_outcome (langdetect_detect t text);
     if bool_decide (lang ∈ ["hi"; "mr"; "ne"; "sa"]) then mret "hi" else mret "en")
    (λ e, if decide (e = Exception_ "LangDetectException")
          then Some (mret "en") else None).

Definition translate_text (text : pystr) (source_lang target_lang : string)
  : M (pystr * string * string) :=
  if blank text then mret ([], source_lang, target_lang) else
  source_lang ← (if decide (source_lang = "auto")
                 then detect_language text else mret source_lang);
  let target_lang :=
    if decide (source_lang = target_lang)
    then (if decide (source_lang = "hi") then "en" else "hi")
    else target_lang in
  try_except
    (t ← now;
     emit (ETranslate source_lang target_lang text);;
     translated ←
       (if decide (source_lang = "hi" ∧ target_lang = "en")
        then lift_outcome (GoogleTranslator_translate t "hi" "en" text)
        else if decide (source_lang = "en" ∧ target_lang = "hi")
        then lift_outcome (GoogleTranslator_translate t "en" "hi" text)
        else lift_outcome (GoogleTranslator_translate t source_lang target_lang text));
     let translated := default text translated in
     log INFO "Translation";;
     mret (translated, source_lang, target_lang))
    (except_Exception
       (log ERROR "Translation error";;
        mret (text, source_lang, target_lang))).

(** ** services/tts.py *)

Definition VOICES : gmap string string :=
  {[ "en" := "en-US-AriaNeural"; "hi" := "hi-IN-SwaraNeural" ]}.

Definition synthesize_speech (text : pystr) (language : string) : M string :=
  if blank text then mret "" else
  let voice := default (VOICES !!! "en") (VOICES !! language) in
  t ← now;
  let filename := uuid4_hex t +:+ ".mp3" in
  let filepath := os_path_join AUDIO_DIR filename in
  try_except
    (emit (ESynthesize text voice filepath);;
     lift_outcome (edge_tts_save t text voice filepath);;
     let relative_url := "/static/audio/" +:+ filename in
     log INFO "TTS generated";;
     mret relative_url)
    (except_Exception
       (log ERROR "TTS synthesis failed";;
        mret "")).

(** ** websocket/manager.py: ConnectionManager *)

(** [await p.websocket.send_json(data)] *)
Definition send_json (p : nat) (data : Payload) : M unit :=
  o ← get_obj p;
  t ← now;
  let raises := ws_send_json_raises t (websocket o) data in
  emit (ESendJson (websocket o) data (negb raises));;
  if raises then raise (Exception_ "RuntimeError") else mret ().

(** The first loop of [broadcast_json], over the members in iteration
    order, accumulating the list [disconnected]. *)
Fixpoint broadcast_loop (members : list nat) (data : Payload)
    (exclude : option nat) (disconnected : list nat) : M (list nat) :=
  match members with
  | [] => mret disconnected
  | p :: rest =>
      if decide (Some p = exclude) then
        broadcast_loop rest data exclude disconnected
      else
        disconnected ←
          try_except (send_json p data;; mret disconnected)
                     (except_Exception (mret (disconnected ++ [p])));
        broadcast_loop rest data exclude disconnected
  end.

(** The second loop: [self._rooms[room_code].discard(p)] for each. *)
Fixpoint discard_all (room_code : string) (disconnected : list nat) : M unit :=
  match disconnected with
  | [] => mret ()
  | p :: rest =>
      set_rooms (alter (λ s, s ∖ {[p]}) room_code);;
      discard_all room_code rest
  end.

Definition broadcast_json (room_code : string) (data : Payload)
    (exclude : option nat) : M unit :=
  rooms ← get_rooms;
  match rooms !! room_code with
  | None => mret ()
  | Some members =>
      disconnected ← broadcast_loop (elements members) data exclude [];
      discard_all room_code disconnected
  end.

Definition roster_entry (o : Participant) : RosterEntry :=
  {| re_user_id := user_id o; re_username := username o;
     re_language_mode := language_mode o |}.

Definition get_participant_list (room_code : string) : M (list RosterEntry) :=
  λ w, match _rooms w !! room_code with
       | None => (w, Ok [])
       | Some members =>
           (w, Ok ((λ p, roster_entry (objs w !!! p)) <$> elements members))
       end.

(** [self._rooms[room_code].add(participant)]: the set hashes its argument
    first, and [hash] of a [Participant] raises. *)
Definition set_add (room_code : string) (participant : nat) : M unit :=
  raise (Exception_ "TypeError").

(** [self._rooms[room_code].discard(participant)], likewise. *)
Definition set_discard (room_code : string) (participant : nat) : M unit :=
  raise (Exception_ "TypeError").

Definition connect (websocket : nat) (room_code : string) (user_id : Z)
    (username language_mode : string) : M nat :=
  t ← now;
  emit (EAccept websocket);;
  lift_outcome (ws_accept t websocket);;
  participant ← new_obj {| websocket := websocket; user_id := user_id;
                           username := username; language_mode := language_mode |};
  rooms ← get_rooms;
  (if decide (rooms !! room_code = None)
   then set_rooms (<[room_code := ∅]>) else mret ());;
  set_add room_code participant;;
  log INFO "WS connected";;
  roster ← get_participant_list room_code;
  broadcast_json room_code
    (user_joined user_id username language_mode roster) (Some participant);;
  mret participant.

Definition disconnect (room_code : string) (participant : nat) : M unit :=
  rooms ← get_rooms;
  (match rooms !! room_code with
   | Some _ =>
       set_discard room_code participant;;
       rooms ← get_rooms;
       if decide (rooms !! room_code = Some ∅)
       then set_rooms (delete room_code) else mret ()
   | None => mret ()
   end);;
  log INFO "WS disconnected".

Definition send_to_participant (participant : nat) (data : Payload) : M unit :=
  try_except (send_json participant data)
             (except_Exception (log WARNING "Failed to send")).

Definition get_room_count (w : World) : nat := size (_rooms w).

Definition get_total_connections (w : World) : nat :=
  map_fold (λ _ participants n, size participants + n) 0 (_rooms w).

(** ** websocket/handler.py *)

Definition _authenticate_ws (token : string) : M (option User) :=
  t ← now;
  match decode_access_token t token with
  | None => mret None
  | Some payload =>
      match payload !! "sub" with
      | None => mret None
      | Some user_id =>
          match py_int user_id with
          | None => raise (Exception_ "ValueError")
          | Some n => lift_outcome (db_user_by_id t n)
          end
      end
  end.

Definition _get_participant_mode (user_id : Z) (room_code : string) : M string :=
  t ← now;
  rp ← lift_outcome (db_room_participant t user_id room_code);
  match rp with
  | Some (Some mode) => mret mode
  | _ => mret "hi_to_en"
  end.

Definition _save_message (room_code : string) (user_id : Z)
    (original_text translated_text : pystr)
    (source_lang target_lang audio_url : string) (confidence : Q) : M unit :=
  t ← now;
  room ← lift_outcome (db_room_by_code t room_code);
  match room with
  | None => mret ()
  | Some room =>
      let msg := {| ml_room_id := room_id room; ml_user_id := user_id;
                    ml_original_text := original_text;
                    ml_translated_text := translated_text;
                    ml_source_language := source_lang;
                    ml_target_language := target_lang;
                    ml_audio_url := audio_url;
                    ml_confidence := confidence |} in
      match db_commit t msg with
      | Returns _ => emit (EDbCommit msg true)
      | Raises cls => emit (EDbCommit msg false);; raise (Exception_ cls)
      end
  end.

(** [await websocket.close(code=..., reason=...)] *)
Definition close (websocket : nat) (code : Z) (reason : string) : M unit :=
  t ← now;
  emit (EClose websocket code reason);;
  lift_outcome (ws_close t websocket).

(** [x < y] on the rationals, as a boolean. *)
Definition Qlt_bool (x y : Q) : bool := negb (Qle_bool y x).

(** Step 2 of the audio branch: source and target from the participant's
    mode, the source overridden by the detected language [if confidence > 0.5]. *)
Definition resolve_languages (language_mode detected_lang : string)
    (confidence : Q) : string * string :=
  let '(source_lang, target_lang) :=
    if decide (language_mode = "hi_to_en") then ("hi", "en") else ("en", "hi") in
  let source_lang :=
    if Qlt_bool (1 # 2) confidence then detected_lang else source_lang in
  (source_lang, target_lang).

(** The dict [result_data] of step 5. *)
Definition result_data (user : User) (original_text translated_text : pystr)
    (src tgt audio_url : string) (confidence : Q) : Payload :=
  translation_result (id user) (name user) original_text translated_text
                     src tgt audio_url confidence.

(** The branch [if "bytes" in message], from [audio_bytes = message["bytes"]]
    on; returning [()] is reaching the end of the loop body or [continue]. *)
Definition process_audio (room_code : string) (user : User) (participant : nat)
    (language_mode : string) (audio_bytes : list Byte.byte) : M unit :=
  if (length audio_bytes <? 100)%nat then mret () else
  transcription ← transcribe_audio audio_bytes;
  let original_text := tr_text transcription in
  let detected_lang := tr_language transcription in
  let confidence := tr_confidence transcription in
  if negb (truthy (strip original_text)) then mret () else
  let '(source_lang, target_lang) :=
    resolve_languages language_mode detected_lang confidence in
  '(translated_text, src, tgt) ←
    translate_text original_text source_lang target_lang;
  audio_url ← synthesize_speech translated_text tgt;
  let data := result_data user original_text translated_text src tgt
                          audio_url confidence in
  broadcast_json room_code data None;;
  send_to_participant participant data;;
  _save_message room_code (id user) original_text translated_text src tgt
                audio_url confidence.

Global Instance jvalue_eq_dec : EqDecision jvalue.
Proof. solve_decision. Defined.

Definition set_language_mode (new_mode : string) (o : Participant) : Participant :=
  {| websocket := websocket o; user_id := user_id o; username := username o;
     language_mode := new_mode |}.

(** The branch [elif "text" in message]; returns the local variable
    [language_mode] as the loop body leaves it. *)
Definition process_text (participant : nat) (language_mode : string)
    (text : option pystr) : M string :=
  match text with
  | None => raise (Exception_ "TypeError")
  | Some text =>
      match json_loads text with
      | None => mret language_mode
      | Some JNotDict => raise (Exception_ "AttributeError")
      | Some (JDict data) =>
          let msg_type := default (JString "") (data !! "type") in
          if decide (msg_type = JString "change_mode") then
            match default (JString language_mode) (data !! "mode") with
            | JString new_mode =>
                if bool_decide (new_mode ∈ ["hi_to_en"; "en_to_hi"]) then
                  set_obj participant (set_language_mode new_mode);;
                  send_to_participant participant (mode_changed new_mode);;
                  mret new_mode
                else mret language_mode
            | JOther => mret language_mode
            end
          else if decide (msg_type = JString "ping") then
            send_to_participant participant pong;;
            mret language_mode
          else mret language_mode
      end
  end.

(** One iteration of [while True], after [message = await websocket.receive()]. *)
Definition handle_message (room_code : string) (user : User) (participant : nat)
    (language_mode : string) (message : Message) : M string :=
  match msg_bytes message with
  | Some bytes =>
      match bytes with
      | None => raise (Exception_ "TypeError")
      | Some audio_bytes =>
          process_audio room_code user participant language_mode audio_bytes;;
          mret language_mode
      end
  | None =>
      match msg_text message with
      | Some text => process_text participant language_mode text
      | None => mret language_mode
      end
  end.

(** [while True: message = await websocket.receive(); ...], run against the
    frames the transport will hand over; [inbox] lists what each successive
    [receive()] does.  When the list is used up the coroutine stays
    suspended in [receive()]. *)
Fixpoint receive_loop (room_code : string) (user : User) (participant : nat)
    (inbox : list received) (language_mode : string) : M unit :=
  match inbox with
  | [] => blocked
  | received :: inbox' =>
      message ← (match received with
                 | Frame message => mret message
                 | ReceiveRaises e => raise e
                 end);
      language_mode ← handle_message room_code user participant language_mode message;
      receive_loop room_code user participant inbox' language_mode
  end.

(** The two [except] clauses of the handler. *)
Definition on_error : exn → option (M unit) :=
  λ e, match e with
       | WebSocketDisconnect => Some (log INFO "WS disconnected")
       | Exception_ _ => Some (log ERROR "WS error")
       | BaseException_ _ => None
       end.

(** The [finally] clause. *)
Definition teardown (room_code : string) (user : User) (participant : nat) : M unit :=
  disconnect room_code participant;;
  roster ← get_participant_list room_code;
  broadcast_json room_code (user_left (id user) (name user) roster) None.

(** The [try] statement of [websocket_meeting]. *)
Definition serve (room_code : string) (user : User) (participant : nat)
    (inbox : list received) (language_mode : string) : M unit :=
  try_finally
    (try_except (receive_loop room_code user participant inbox language_mode)
                on_error)
    (teardown room_code user participant).

Definition websocket_meeting (websocket : nat) (room_code token : string)
    (inbox : list received) : M unit :=
  user ← _authenticate_ws token;
  match user with
  | None => close websocket 4001 "Authentication failed"
  | Some user =>
      t ← now;
      room ← lift_outcome (db_active_room t room_code);
      match room with
      | None => close websocket 4002 "Room not found or ended"
      | Some _ =>
          language_mode ← _get_participant_mode (id user) room_code;
          participant ← connect websocket room_code (id user) (name user)
                                language_mode;
          roster ← get_participant_list room_code;
          send_to_participant participant
            (connection_established (id user) (name user) room_code
                                    language_mode roster);;
          serve room_code user participant inbox language_mode
      end
  end.

End Model.

(** ** A concrete deployment

    Three users, one active room, scripted collaborators.  The transport, the
    translator and the database write are left as parameters, to run the
    same meeting with a healthy and with a failing collaborator. *)

Definition empty_world : World :=
  {| _rooms := ∅; objs := ∅; next_obj := 0; trace := [] |}.

Definition asha : User := {| id := 1; name := "asha" |}.
Definition ben : User := {| id := 2; name := "ben" |}.
Definition chen : User := {| id := 3; name := "chen" |}.

(** An audio frame of 120 bytes starting with [b]. *)
Definition frame (b : Byte.byte) : list Byte.byte := b :: repeat Byte.x00 119.

Definition speech : list Byte.byte := frame Byte.x01.
Definition silence : list Byte.byte := frame Byte.x00.

(** "hello" and "namaste", as code points. *)
Definition hello : pystr := [104; 101; 108; 108; 111]%N.
Definition namaste : pystr := [110; 97; 109; 97; 115; 116; 101]%N.

Definition audio_frame (audio : list Byte.byte) : received :=
  Frame {| msg_bytes := Some (Some audio); msg_text := None |}.

Definition demo (send_raises : nat → nat → bool)
    (translation : outcome (option pystr)) (commit : outcome unit)
  : Collaborators :=
  {| ws_accept := λ _ _, Returns ();
     ws_close := λ _ _, Returns ();
     ws_send_json_raises := λ t ws _, send_raises t ws;
     whisper_transcribe := λ _ audio,
       match audio with
       | Byte.x01 :: _ =>
           Returns {| wr_text := Some hello; wr_language := Some "en";
                      wr_segments_confidence := Some (9 # 10)%Q |}
       | _ =>
           Returns {| wr_text := Some [32; 10]%N; wr_language := Some "en";
                      wr_segments_confidence := Some (1 # 10)%Q |}
       end;
     langdetect_detect := λ _ _, Returns "en";
     GoogleTranslator_translate := λ _ _ _ _, translation;
     edge_tts_save := λ _ _ _ _, Returns ();
     uuid4_hex := λ _, "0f";
     AUDIO_DIR := "static/audio";
     os_path_join := λ a b, a +:+ "/" +:+ b;
     decode_access_token := λ _ token,
       if decide (token = "token-asha") then Some {[ "sub" := "1" ]}
       else if decide (token = "token-ben") then Some {[ "sub" := "2" ]}
       else if decide (token = "token-chen") then Some {[ "sub" := "3" ]}
       else None;
     py_int := λ s,
       if decide (s = "1") then Some 1%Z
       else if decide (s = "2") then Some 2%Z
       else if decide (s = "3") then Some 3%Z else None;
     db_user_by_id := λ _ n,
       Returns (if decide (n = 1%Z) then Some asha
                else if decide (n = 2%Z) then Some ben
                else if decide (n = 3%Z) then Some chen else None);
     db_active_room := λ _ code,
       Returns (if decide (code = "ABCD-1234") then Some {| room_id := 7 |} else None);
     db_room_by_code := λ _ code,
       Returns (if decide (code = "ABCD-1234") then Some {| room_id := 7 |} else None);
     db_room_participant := λ _ _ _, Returns (Some (Some "hi_to_en"));
     db_commit := λ _ _, commit;
     json_loads := λ _, None |}.

(** Every collaborator answers. *)
Definition healthy : Collaborators :=
  demo (λ _ _, false) (Returns (Some namaste)) (Returns ()).

(** The translator raises. *)
Definition translator_down : Collaborators :=
  demo (λ _ _, false) (Raises "RequestError") (Returns ()).


Definition the_room : string := "ABCD-1234".

(** asha, then ben call the endpoint for the room.  Each handshake is
    accepted and ends in the [TypeError] of [connect]: the [Participant]
    objects 0 and 1 were built on the transports 10 and 11, and the room
    has an entry with no session in it. *)
Definition asha_called : World :=
  exec (@websocket_meeting healthy 10 the_room "token-asha" []) empty_world.
Definition both_called : World :=
  exec (@websocket_meeting healthy 11 the_room "token-ben" []) asha_called.

(** A frame sent by ben, and the end of the transport. *)
Definition utterance : received := audio_frame speech.

(** ** Observations on worlds and traces *)

(** The sessions registered in a room; a room without an entry has none. *)
Definition sessions (w : World) (room_code : string) : gset nat :=
  default ∅ (_rooms w !! room_code).

(** The world [w] after the calls [events]. *)
Definition after_events (w : World) (events : list Event) : World :=
  {| _rooms := _rooms w; objs := objs w; next_obj := next_obj w;
     trace := trace w ++ events |}.

(** The world [w] with the participants [ps] discarded from a room's set. *)
Definition pruned (w : World) (room_code : string) (ps : list nat) : World :=
  {| _rooms := alter (λ s, s ∖ list_to_set ps) room_code (_rooms w);
     objs := objs w; next_obj := next_obj w; trace := trace w |}.

(** No room's set has a session in it. *)
Definition unpopulated (w : World) : Prop :=
  ∀ room_code, sessions w room_code = ∅.

(** The roster entries of the sessions of a room, in iteration order. *)
Definition roster (w : World) (room_code : string) : list RosterEntry :=
  (λ p, roster_entry (objs w !!! p)) <$> elements (sessions w room_code).

(** The world where [connect] stops once the transport has accepted: the
    [Participant] is built and the room has its entry, an empty set when
    it had none. *)
Definition attempted (w : World) (ws : nat) (room_code : string) (uid : Z)
    (uname mode : string) : World :=
  {| _rooms := <[room_code := sessions w room_code]> (_rooms w);
     objs := <[next_obj w := {| websocket := ws; user_id := uid;
                                username := uname; language_mode := mode |}]>
               (objs w);
     next_obj := S (next_obj w);
     trace := trace w ++ [EAccept ws] |}.

(** The transport a participant object holds. *)
Definition ws_of (w : World) (p : nat) : nat := websocket (objs w !!! p).

(** The [send_json] call made for participant [p], and whether it returned. *)
Definition send_event (w : World) (data : Payload) (a : nat * bool) : Event :=
  ESendJson (ws_of w a.1) data a.2.

(** The participants among [attempts] whose [send_json] raised. *)
Definition failed (attempts : list (nat * bool)) : list nat :=
  (filter (λ a, a.2 = false) attempts).*1.


Definition is_send (e : Event) : bool :=
  match e with ESendJson _ _ _ => true | _ => false end.

(** The target [translate_text] settles on: the other language when source
    and target coincide. *)
Definition flipped_target (source_lang target_lang : string) : string :=
  if decide (source_lang = target_lang)
  then (if decide (source_lang = "hi") then "en" else "hi")
  else target_lang.

(** The text [translate_text] returns, given what the translator did. *)
Definition translation_of (text : pystr) (o : outcome (option pystr)) : pystr :=
  match o with Returns (Some translated) => translated | _ => text end.

(** The translator raised or returned [None]. *)
Definition translation_failed (o : outcome (option pystr)) : Prop :=
  match o with Returns (Some _) => False | _ => True end.

(** The log entry an exception leaving the receive loop gets. *)
Definition exit_log (e : exn) : list Event :=
  match e with
  | WebSocketDisconnect => [ELog INFO "WS disconnected"]
  | Exception_ _ => [ELog ERROR "WS error"]
  | BaseException_ _ => []
  end.

Section Observations.
Context `{Collaborators}.

(** The sends one pass of [broadcast_json] over [members] makes from time
    [t] on: who is sent to, in order, and whether the send returned. *)
Fixpoint attempts (w : World) (t : nat) (members : list nat) (data : Payload)
    (exclude : option nat) : list (nat * bool) :=
  match members with
  | [] => []
  | p :: rest =>
      if decide (Some p = exclude) then attempts w t rest data exclude
      else (p, negb (ws_send_json_raises t (ws_of w p) data))
             :: attempts w (S t) rest data exclude
  end.

(** The ways a token fails to resolve to a user: it does not decode, its
    payload has no subject, or no user has the subject's id. *)
Definition unresolved (token : string) (w : World) : Prop :=
  let t := length (trace w) in
  decode_access_token t token = None ∨
  (∃ payload, decode_access_token t token = Some payload ∧ payload !! "sub" = None) ∨
  (∃ payload sub n,
     decode_access_token t token = Some payload ∧ payload !! "sub" = Some sub ∧
     py_int sub = Some n ∧ db_user_by_id t n = Returns None).

(** The operations of the registry a session can trigger. *)
Inductive manager_op :=
| OpConnect (websocket : nat) (room_code : string) (user_id : Z)
            (username language_mode : string)
| OpDisconnect (room_code : string) (participant : nat)
| OpBroadcast (room_code : string) (data : Payload) (exclude : option nat)
| OpSend (participant : nat) (data : Payload).

Definition run_op (op : manager_op) : M unit :=
  match op with
  | OpConnect ws room_code uid uname mode =>
      connect ws room_code uid uname mode;; mret ()
  | OpDisconnect room_code p => disconnect room_code p
  | OpBroadcast room_code data exclude => broadcast_json room_code data exclude
  | OpSend p data => send_to_participant p data
  end.

(** Run the operations in order, going on after one that raises. *)
Fixpoint run_ops (ops : list manager_op) (w : World) : World :=
  match ops with
  | [] => w
  | op :: rest => run_ops rest (exec (run_op op) w)
  end.

End Observations.

(** ** Frames of the wire protocol *)

(** A text frame: the dict [receive()] returns has the key ["text"] only. *)
Definition text_frame (s : pystr) : Message :=
  {| msg_bytes := None; msg_text := Some (Some s) |}.

(** The modes [change_mode] accepts. *)
Definition legal_modes : list string := ["hi_to_en"; "en_to_hi"].

(** The world once [participant.language_mode = new_mode] has run. *)
Definition with_language_mode (w : World) (p : nat) (new_mode : string) : World :=
  {| _rooms := _rooms w; objs := alter (set_language_mode new_mode) p (objs w);
     next_obj := next_obj w; trace := trace w |}.

(** The mode [_get_participant_mode] reads off what the membership query
    returned: the row's mode, or hi_to_en without a row or a mode value. *)
Definition persisted_mode (rp : option (option string)) : string :=
  match rp with Some (Some mode) => mode | _ => "hi_to_en" end.

(** ** The deployment with other collaborators *)

(** The texts of six frames: a ping, a change of mode to en_to_hi, a
    change to a mode that does not exist (fr_to_en), a message of type
    typing, a JSON array, and a text that is not JSON. *)
Definition ping_text : pystr :=
  [123; 34; 116; 121; 112; 101; 34; 58; 32; 34; 112; 105; 110; 103; 34; 125]%N.
Definition change_mode_text : pystr :=
  [123; 34; 116; 121; 112; 101; 34; 58; 32; 34; 99; 104; 97; 110; 103; 101; 95;
   109; 111; 100; 101; 34; 44; 32; 34; 109; 111; 100; 101; 34; 58; 32; 34; 101;
   110; 95; 116; 111; 95; 104; 105; 34; 125]%N.
Definition bad_mode_text : pystr :=
  [123; 34; 116; 121; 112; 101; 34; 58; 32; 34; 99; 104; 97; 110; 103; 101; 95;
   109; 111; 100; 101; 34; 44; 32; 34; 109; 111; 100; 101; 34; 58; 32; 34; 102;
   114; 95; 116; 111; 95; 101; 110; 34; 125]%N.
Definition typing_text : pystr :=
  [123; 34; 116; 121; 112; 101; 34; 58; 32; 34; 116; 121; 112; 105; 110; 103;
   34; 125]%N.
Definition array_text : pystr := [91; 49; 93]%N.
Definition garbage_text : pystr := [111; 111; 112; 115]%N.

(** What [json.loads] makes of them. *)
Definition parse (s : pystr) : option json :=
  if decide (s = ping_text) then Some (JDict {[ "type" := JString "ping" ]})
  else if decide (s = change_mode_text)
  then Some (JDict {[ "type" := JString "change_mode"; "mode" := JString "en_to_hi" ]})
  else if decide (s = bad_mode_text)
  then Some (JDict {[ "type" := JString "change_mode"; "mode" := JString "fr_to_en" ]})
  else if decide (s = typing_text) then Some (JDict {[ "type" := JString "typing" ]})
  else if decide (s = array_text) then Some JNotDict
  else None.

(** [base] with another handshake, other answers of the two lookups the
    handshake makes, another Whisper, another langdetect and another
    parser. *)
Definition rescripted (base : Collaborators) (accept : outcome unit)
    (active_room : outcome (option Room))
    (participant : outcome (option (option string)))
    (whisper : outcome WhisperResult) (detect : outcome string)
    (loads : pystr → option json) : Collaborators :=
  {| ws_accept := λ _ _, accept;
     ws_close := @ws_close base;
     ws_send_json_raises := @ws_send_json_raises base;
     whisper_transcribe := λ _ _, whisper;
     langdetect_detect := λ _ _, detect;
     GoogleTranslator_translate := @GoogleTranslator_translate base;
     edge_tts_save := @edge_tts_save base;
     uuid4_hex := @uuid4_hex base;
     AUDIO_DIR := @AUDIO_DIR base;
     os_path_join := @os_path_join base;
     decode_access_token := @decode_access_token base;
     py_int := @py_int base;
     db_user_by_id := @db_user_by_id base;
     db_active_room := λ _ _, active_room;
     db_room_by_code := @db_room_by_code base;
     db_room_participant := λ _ _ _, participant;
     db_commit := @db_commit base;
     json_loads := loads |}.

Definition heard_hello : WhisperResult :=
  {| wr_text := Some hello; wr_language := Some "en";
     wr_segments_confidence := Some (9 # 10)%Q |}.

(** Whisper hears "hello" in en, sure of it at 0.3 only. *)
Definition heard_faintly : WhisperResult :=
  {| wr_text := Some hello; wr_language := Some "en";
     wr_segments_confidence := Some (3 # 10)%Q |}.

(** The healthy deployment, with clients that send control frames. *)
Definition control : Collaborators :=
  rescripted healthy (Returns ()) (Returns (Some {| room_id := 7 |}))
             (Returns (Some (Some "en_to_hi"))) (Returns heard_hello)
             (Returns "en") parse.

(** The transport refuses the handshake. *)
Definition accept_refused : Collaborators :=
  rescripted healthy (Raises "RuntimeError") (Returns (Some {| room_id := 7 |}))
             (Returns (Some (Some "hi_to_en"))) (Returns heard_hello)
             (Returns "en") parse.

(** The query for the room raises. *)
Definition rooms_query_fails : Collaborators :=
  rescripted healthy (Returns ()) (Raises "OperationalError")
             (Returns (Some (Some "hi_to_en"))) (Returns heard_hello)
             (Returns "en") parse.

(** The query for the membership raises. *)
Definition membership_query_fails : Collaborators :=
  rescripted healthy (Returns ()) (Returns (Some {| room_id := 7 |}))
             (Raises "OperationalError") (Returns heard_hello)
             (Returns "en") parse.

(** Whisper raises. *)
Definition whisper_down : Collaborators :=
  rescripted healthy (Returns ()) (Returns (Some {| room_id := 7 |}))
             (Returns (Some (Some "hi_to_en"))) (Raises "RuntimeError")
             (Returns "en") parse.

(** Whisper is not sure of what it heard. *)
Definition whisper_unsure : Collaborators :=
  rescripted healthy (Returns ()) (Returns (Some {| room_id := 7 |}))
             (Returns (Some (Some "hi_to_en"))) (Returns heard_faintly)
             (Returns "en") parse.

(** langdetect answers Marathi; gives up; breaks. *)
Definition detects_marathi : Collaborators :=
  rescripted healthy (Returns ()) (Returns (Some {| room_id := 7 |}))
             (Returns (Some (Some "hi_to_en"))) (Returns heard_hello)
             (Returns "mr") parse.
Definition detection_gives_up : Collaborators :=
  rescripted healthy (Returns ()) (Returns (Some {| room_id := 7 |}))
             (Returns (Some (Some "hi_to_en"))) (Returns heard_hello)
             (Raises "LangDetectException") parse.
Definition detection_breaks : Collaborators :=
  rescripted healthy (Returns ()) (Returns (Some {| room_id := 7 |}))
             (Returns (Some (Some "hi_to_en"))) (Returns heard_hello)
             (Raises "MemoryError") parse.


(** The healthy deployment, in which the token "token-forged" is a signed
    token whose subject is the text abc. *)
Definition forged_subject : Collaborators :=
  {| ws_accept := @ws_accept healthy;
     ws_close := @ws_close healthy;
     ws_send_json_raises := @ws_send_json_raises healthy;
     whisper_transcribe := @whisper_transcribe healthy;
     langdetect_detect := @langdetect_detect healthy;
     GoogleTranslator_translate := @GoogleTranslator_translate healthy;
     edge_tts_save := @edge_tts_save healthy;
     uuid4_hex := @uuid4_hex healthy;
     AUDIO_DIR := @AUDIO_DIR healthy;
     os_path_join := @os_path_join healthy;
     decode_access_token := λ t token,
       if decide (token = "token-forged") then Some {[ "sub" := "abc" ]}
       else @decode_access_token healthy t token;
     py_int := @py_int healthy;
     db_user_by_id := @db_user_by_id healthy;
     db_active_room := @db_active_room healthy;
     db_room_by_code := @db_room_by_code healthy;
     db_room_participant := @db_room_participant healthy;
     db_commit := @db_commit healthy;
     json_loads := @json_loads healthy |}.

(** * services/room_service.py

    The module works on the two tables [rooms] and [room_participants]
    through the session of one request.  The session is modelled by the
    rows of the two tables as the session holds them, the sequences
    their primary keys come from, the number of statements sent so far
    (the time at which the clock and the random source are asked), and
    what was logged.

    PostgreSQL and SQLAlchemy are taken to do the following.  A [select]
    returns the rows that satisfy its [where]; [scalar_one_or_none] gives
    [None] for no row, the row for one, and raises MultipleResultsFound
    for more.  [db.add] followed by [flush] inserts the row with the next
    value of the sequence as its id and the column defaults it was not
    given; the insert raises IntegrityError, leaving the table as it was,
    when it would break a unique constraint ([rooms.room_code], and
    [uq_room_user] on [room_participants]); the value of the sequence is
    used up either way.  An attribute assigned on a loaded row changes
    the row the session holds at once, without a statement; the next
    [flush] sends it.  The table [users] is not modelled:
    the foreign keys to it are taken to hold.  [get_user_rooms], whose
    result is ordered by the database, is not modelled. *)

Module room_service.

Inductive RoomStatus := ACTIVE | ENDED.
Inductive LanguageMode := HINDI_TO_ENGLISH | ENGLISH_TO_HINDI.

Global Instance RoomStatus_eq_dec : EqDecision RoomStatus.
Proof. solve_decision. Defined.
Global Instance LanguageMode_eq_dec : EqDecision LanguageMode.
Proof. solve_decision. Defined.

(** [LanguageMode(value)] *)
Definition LanguageMode_of (value : string) : outcome LanguageMode :=
  if decide (value = "hi_to_en") then Returns HINDI_TO_ENGLISH
  else if decide (value = "en_to_hi") then Returns ENGLISH_TO_HINDI
  else Raises "ValueError".

Record Room := {
  r_id : Z;
  r_room_code : string;
  r_name : string;
  r_owner_id : Z;
  r_status : RoomStatus;
  r_max_participants : Z;
  r_created_at : Z;
  r_ended_at : option Z
}.

Record RoomParticipant := {
  rp_id : Z;
  rp_room_id : Z;
  rp_user_id : Z;
  rp_language_mode : LanguageMode;
  rp_joined_at : Z;
  rp_is_active : bool
}.

Global Instance Room_eq_dec : EqDecision Room.
Proof. solve_decision. Defined.
Global Instance RoomParticipant_eq_dec : EqDecision RoomParticipant.
Proof. solve_decision. Defined.

Record AsyncSession := {
  rooms : list Room;
  room_participants : list RoomParticipant;
  rooms_id_seq : Z;
  room_participants_id_seq : Z;
  statements : nat;
  logged : list string
}.

(** A coroutine of the module: it returns or raises, and leaves a session. *)
Definition Tx (A : Type) : Type := AsyncSession → AsyncSession * outcome A.

#[local] Instance Tx_ret : MRet Tx := λ A a db, (db, Returns a).

#[local] Instance Tx_bind : MBind Tx := λ A B f m db,
  match m db with
  | (db', Returns a) => f a db'
  | (db', Raises cls) => (db', Raises cls)
  end.

Definition lift {A} (o : outcome A) : Tx A := λ db, (db, o).

Definition ran {A} (m : Tx A) (db : AsyncSession) : AsyncSession := (m db).1.
Definition answer {A} (m : Tx A) (db : AsyncSession) : outcome A := (m db).2.

(** The session once one more statement has gone to the database. *)
Definition sent (db : AsyncSession) : AsyncSession :=
  {| rooms := rooms db; room_participants := room_participants db;
     rooms_id_seq := rooms_id_seq db;
     room_participants_id_seq := room_participants_id_seq db;
     statements := S (statements db); logged := logged db |}.

(** The time a call that is no statement is made at. *)
Definition clock : Tx nat := λ db, (db, Returns (statements db)).

Definition logger_info (msg : string) : Tx unit := λ db,
  ({| rooms := rooms db; room_participants := room_participants db;
      rooms_id_seq := rooms_id_seq db;
      room_participants_id_seq := room_participants_id_seq db;
      statements := statements db; logged := logged db ++ [msg] |},
   Returns ()).

(** [result.scalar_one_or_none()] *)
Definition scalar_one_or_none {A} (rows : list A) : outcome (option A) :=
  match rows with
  | [] => Returns None
  | [row] => Returns (Some row)
  | _ => Raises "MultipleResultsFound"
  end.

(** [(await db.execute(select(Room).where(P))).scalar_one_or_none()] *)
Definition select_room (P : Room → Prop) `{∀ r, Decision (P r)} : Tx (option Room) :=
  λ db, (sent db, scalar_one_or_none (filter P (rooms db))).

(** [(await db.execute(select(RoomParticipant).where(P))).scalar_one_or_none()] *)
Definition select_participant (P : RoomParticipant → Prop) `{∀ rp, Decision (P rp)}
  : Tx (option RoomParticipant) :=
  λ db, (sent db, scalar_one_or_none (filter P (room_participants db))).

(** [(await db.execute(select(func.count(RoomParticipant.id)).where(P))).scalar() or 0] *)
Definition count_participants (P : RoomParticipant → Prop) `{∀ rp, Decision (P rp)}
  : Tx Z :=
  λ db, (sent db, Returns (Z.of_nat (length (filter P (room_participants db))))).

(** The key of [uq_room_user]. *)
Definition room_user (rp : RoomParticipant) : Z * Z := (rp_room_id rp, rp_user_id rp).

(** The clock and the random source: [datetime.now(timezone.utc)] asked at
    a time, and the [i]-th [secrets.choice] of the call made at a time. *)
Class Host := {
  datetime_now : nat → Z;
  secrets_choice : nat → nat → list Ascii.ascii → Ascii.ascii
}.

Section Service.
Context `{Host}.

(** [string.ascii_uppercase + string.digits] *)
Definition chars : list Ascii.ascii :=
  String.list_ascii_of_string "ABCDEFGHIJKLMNOPQRSTUVWXYZ0123456789".

(** The draws [first], ..., [first + n - 1] of the call made at [t], joined. *)
Definition choices (t first n : nat) : list Ascii.ascii :=
  (λ i, secrets_choice t i chars) <$> seq first n.

Definition _generate_room_code (t : nat) (length : Z) : string :=
  let part1 := String.string_of_list_ascii (choices t 0 (Z.to_nat (length / 2))) in
  let part2 := String.string_of_list_ascii
                 (choices t (Z.to_nat (length / 2)) (Z.to_nat (length / 2))) in
  part1 +:+ "-" +:+ part2.

(** [db.add(Room(...)); await db.flush()] *)
Definition add_room (room_code name : string) (owner_id : Z) (status : RoomStatus)
    (max_participants : Z) : Tx Room :=
  λ db,
    let room := {| r_id := rooms_id_seq db; r_room_code := room_code; r_name := name;
                   r_owner_id := owner_id; r_status := status;
                   r_max_participants := max_participants;
                   r_created_at := datetime_now (statements db); r_ended_at := None |} in
    if decide (room_code ∈ r_room_code <$> rooms db)
    then ({| rooms := rooms db; room_participants := room_participants db;
             rooms_id_seq := (rooms_id_seq db + 1)%Z;
             room_participants_id_seq := room_participants_id_seq db;
             statements := S (statements db); logged := logged db |},
          Raises "IntegrityError")
    else ({| rooms := rooms db ++ [room]; room_participants := room_participants db;
             rooms_id_seq := (rooms_id_seq db + 1)%Z;
             room_participants_id_seq := room_participants_id_seq db;
             statements := S (statements db); logged := logged db |},
          Returns room).

(** [db.add(RoomParticipant(...)); await db.flush()] *)
Definition add_participant (room_id user_id : Z) (language_mode : LanguageMode)
    (is_active : bool) : Tx RoomParticipant :=
  λ db,
    let participant := {| rp_id := room_participants_id_seq db; rp_room_id := room_id;
                          rp_user_id := user_id; rp_language_mode := language_mode;
                          rp_joined_at := datetime_now (statements db);
                          rp_is_active := is_active |} in
    if decide ((room_id, user_id) ∈ room_user <$> room_participants db)
    then ({| rooms := rooms db; room_participants := room_participants db;
             rooms_id_seq := rooms_id_seq db;
             room_participants_id_seq := (room_participants_id_seq db + 1)%Z;
             statements := S (statements db); logged := logged db |},
          Raises "IntegrityError")
    else ({| rooms := rooms db;
             room_participants := room_participants db ++ [participant];
             rooms_id_seq := rooms_id_seq db;
             room_participants_id_seq := (room_participants_id_seq db + 1)%Z;
             statements := S (statements db); logged := logged db |},
          Returns participant).

(** Assignments to attributes of the loaded row [pk], then [await db.flush()]. *)
Definition update_participant (pk : Z) (f : RoomParticipant → RoomParticipant)
  : Tx unit :=
  λ db,
    ({| rooms := rooms db;
        room_participants :=
          (λ rp, if decide (rp_id rp = pk) then f rp else rp) <$> room_participants db;
        rooms_id_seq := rooms_id_seq db;
        room_participants_id_seq := room_participants_id_seq db;
        statements := S (statements db); logged := logged db |},
     Returns ()).

(** Assignments to attributes of the loaded row [pk], not yet flushed. *)
Definition assign_participant (pk : Z) (f : RoomParticipant → RoomParticipant)
  : Tx unit :=
  λ db,
    ({| rooms := rooms db;
        room_participants :=
          (λ rp, if decide (rp_id rp = pk) then f rp else rp) <$> room_participants db;
        rooms_id_seq := rooms_id_seq db;
        room_participants_id_seq := room_participants_id_seq db;
        statements := statements db; logged := logged db |},
     Returns ()).

(** [await db.flush()] *)
Definition flush : Tx unit := λ db, (sent db, Returns ()).

Definition update_room (pk : Z) (f : Room → Room) : Tx unit :=
  λ db,
    ({| rooms := (λ r, if decide (r_id r = pk) then f r else r) <$> rooms db;
        room_participants := room_participants db;
        rooms_id_seq := rooms_id_seq db;
        room_participants_id_seq := room_participants_id_seq db;
        statements := S (statements db); logged := logged db |},
     Returns ()).

Definition rejoined (mode : LanguageMode) (rp : RoomParticipant) : RoomParticipant :=
  {| rp_id := rp_id rp; rp_room_id := rp_room_id rp; rp_user_id := rp_user_id rp;
     rp_language_mode := mode; rp_joined_at := rp_joined_at rp; rp_is_active := true |}.

(** [participant.is_active = True] *)
Definition activated (rp : RoomParticipant) : RoomParticipant :=
  {| rp_id := rp_id rp; rp_room_id := rp_room_id rp; rp_user_id := rp_user_id rp;
     rp_language_mode := rp_language_mode rp; rp_joined_at := rp_joined_at rp;
     rp_is_active := true |}.

(** [participant.language_mode = mode] *)
Definition in_mode (mode : LanguageMode) (rp : RoomParticipant) : RoomParticipant :=
  {| rp_id := rp_id rp; rp_room_id := rp_room_id rp; rp_user_id := rp_user_id rp;
     rp_language_mode := mode; rp_joined_at := rp_joined_at rp;
     rp_is_active := rp_is_active rp |}.

Definition departed (rp : RoomParticipant) : RoomParticipant :=
  {| rp_id := rp_id rp; rp_room_id := rp_room_id rp; rp_user_id := rp_user_id rp;
     rp_language_mode := rp_language_mode rp; rp_joined_at := rp_joined_at rp;
     rp_is_active := false |}.

Definition ended (at_ : Z) (r : Room) : Room :=
  {| r_id := r_id r; r_room_code := r_room_code r; r_name := r_name r;
     r_owner_id := r_owner_id r; r_status := ENDED;
     r_max_participants := r_max_participants r; r_created_at := r_created_at r;
     r_ended_at := Some at_ |}.

Definition create_room (owner : User) (name : string) (max_participants : Z) : Tx Room :=
  t ← clock;
  let room_code := _generate_room_code t 8 in
  room ← add_room room_code name (id owner) ACTIVE max_participants;
  add_participant (r_id room) (id owner) HINDI_TO_ENGLISH true;;
  logger_info "Room created";;
  mret room.

Definition join_room (user : User) (room_code language_mode : string)
  : Tx (option Room) :=
  found ← select_room (λ r, r_room_code r = room_code ∧ r_status r = ACTIVE);
  match found with
  | None => mret None
  | Some room =>
      existing ← select_participant
                   (λ rp, rp_room_id rp = r_id room ∧ rp_user_id rp = id user);
      match existing with
      | Some participant =>
          assign_participant (rp_id participant) activated;;
          mode ← lift (LanguageMode_of language_mode);
          assign_participant (rp_id participant) (in_mode mode);;
          flush;;
          logger_info "User joined room";;
          mret (Some room)
      | None =>
          active_count ← count_participants
                           (λ rp, rp_room_id rp = r_id room ∧ rp_is_active rp = true);
          if decide (r_max_participants room ≤ active_count)%Z
          then mret None
          else
            mode ← lift (LanguageMode_of language_mode);
            add_participant (r_id room) (id user) mode true;;
            logger_info "User joined room";;
            mret (Some room)
      end
  end.

Definition get_room_by_code (room_code : string) : Tx (option Room) :=
  select_room (λ r, r_room_code r = room_code).

Definition leave_room (user_id : Z) (room_code : string) : Tx bool :=
  found ← get_room_by_code room_code;
  match found with
  | None => mret false
  | Some room =>
      existing ← select_participant
                   (λ rp, rp_room_id rp = r_id room ∧ rp_user_id rp = user_id);
      match existing with
      | Some participant =>
          update_participant (rp_id participant) departed;;
          mret true
      | None => mret false
      end
  end.

Definition end_room (room : Room) : Tx Room :=
  t ← clock;
  update_room (r_id room) (ended (datetime_now t));;
  mret (ended (datetime_now t) room).

End Service.

(** The unique constraints, the primary keys and their sequences, and the
    foreign key from [room_participants] to [rooms]. *)
Definition constraints_hold (db : AsyncSession) : Prop :=
  NoDup (r_room_code <$> rooms db) ∧
  NoDup (r_id <$> rooms db) ∧
  NoDup (room_user <$> room_participants db) ∧
  NoDup (rp_id <$> room_participants db) ∧
  Forall (λ r, r_id r < rooms_id_seq db)%Z (rooms db) ∧
  Forall (λ rp, rp_id rp < room_participants_id_seq db)%Z (room_participants db) ∧
  Forall (λ rp, rp_room_id rp ∈ r_id <$> rooms db) (room_participants db).

Global Instance constraints_hold_dec db : Decision (constraints_hold db).
Proof. unfold constraints_hold. apply _. Defined.

(** The membership rows of a room that count against its capacity. *)
Definition active_in (db : AsyncSession) (room_id : Z) : list RoomParticipant :=
  filter (λ rp, rp_room_id rp = room_id ∧ rp_is_active rp = true) (room_participants db).

(** The membership row of a user in a room. *)
Definition membership (db : AsyncSession) (room_id user_id : Z)
  : list RoomParticipant :=
  filter (λ rp, rp_room_id rp = room_id ∧ rp_user_id rp = user_id) (room_participants db).

End room_service.

(** ** A database for the deployment *)

(** A clock that shows the number of statements sent so far, and a random
    source that walks through the alphabet. *)
Definition wall_clock : room_service.Host :=
  {| room_service.datetime_now := λ t, (1700000000 + Z.of_nat t)%Z;
     room_service.secrets_choice := λ t i l,
       default (Ascii.ascii_of_nat 65) (l !! ((t + i) mod length l)) |}.

(** The room of the deployment, which takes two participants. *)
Definition the_room_row : room_service.Room :=
  {| room_service.r_id := 7; room_service.r_room_code := "ABCD-1234";
     room_service.r_name := "standup"; room_service.r_owner_id := 1;
     room_service.r_status := room_service.ACTIVE;
     room_service.r_max_participants := 2;
     room_service.r_created_at := 1699990000; room_service.r_ended_at := None |}.

Definition member_row (pk uid : Z) (mode : room_service.LanguageMode) (active : bool)
  : room_service.RoomParticipant :=
  {| room_service.rp_id := pk; room_service.rp_room_id := 7;
     room_service.rp_user_id := uid; room_service.rp_language_mode := mode;
     room_service.rp_joined_at := 1699990000; room_service.rp_is_active := active |}.

(** asha owns the room and is in it; ben has been in it and has left. *)
Definition two_rows : room_service.AsyncSession :=
  {| room_service.rooms := [the_room_row];
     room_service.room_participants :=
       [member_row 1 1 room_service.HINDI_TO_ENGLISH true;
        member_row 2 2 room_service.ENGLISH_TO_HINDI false];
     room_service.rooms_id_seq := 8;
     room_service.room_participants_id_seq := 3;
     room_service.statements := 0;
     room_service.logged := [] |}.

(** The same once chen has joined: the room is full. *)
Definition three_rows : room_service.AsyncSession :=
  {| room_service.rooms := [the_room_row];
     room_service.room_participants :=
       [member_row 1 1 room_service.HINDI_TO_ENGLISH true;
        member_row 2 2 room_service.ENGLISH_TO_HINDI false;
        member_row 3 3 room_service.ENGLISH_TO_HINDI true];
     room_service.rooms_id_seq := 8;
     room_service.room_participants_id_seq := 4;
     room_service.statements := 3;
     room_service.logged := ["User joined room"] |}.

(** * Properties *)

(** ** Text *)

Lemma lstrip_nil_iff (s : pystr) : lstrip s = [] ↔ forallb isspace s = true.
Proof.
  induction s as [|c s IH]; simpl; [done|].
  destruct (isspace c); simpl; [done|]. split; discriminate.
Qed.

Lemma lstrip_head (s : pystr) c s' : lstrip s = c :: s' → isspace c = false.
Proof.
  induction s as [|d s IH]; simpl; [discriminate|].
  destruct (isspace d) eqn:E; [done|]. by intros [= <- _].
Qed.

Lemma forallb_isspace_reverse (s : pystr) :
  forallb isspace (reverse s) = forallb isspace s.
Proof.
  apply eq_true_iff_eq. rewrite !forallb_forall.
  split; intros Hs x Hx; apply Hs; apply list_elem_of_In;
    apply list_elem_of_In in Hx; by apply elem_of_reverse.
Qed.

(** [s.strip()] is empty exactly when [s] is empty or all whitespace. *)
Lemma strip_nil_iff (s : pystr) : strip s = [] ↔ forallb isspace s = true.
Proof.
  unfold strip, rstrip. split.
  - intros Hs. apply (f_equal reverse) in Hs.
    rewrite reverse_involutive in Hs. change (reverse []) with (@nil N) in Hs.
    apply lstrip_nil_iff in Hs. rewrite forallb_isspace_reverse in Hs.
    destruct (lstrip s) as [|c s'] eqn:E; [by apply lstrip_nil_iff|].
    apply lstrip_head in E. simpl in Hs. by rewrite E in Hs.
  - intros Hs. apply lstrip_nil_iff in Hs. by rewrite Hs.
Qed.

Lemma truthy_strip (s : pystr) :
  truthy (strip s) = negb (forallb isspace s).
Proof.
  destruct (forallb isspace s) eqn:E.
  - apply strip_nil_iff in E. by rewrite E.
  - destruct (strip s) eqn:E'; [|done].
    apply strip_nil_iff in E'. congruence.
Qed.

Lemma blank_forallb (s : pystr) : blank s = forallb isspace s.
Proof.
  unfold blank. rewrite truthy_strip, negb_involutive.
  destruct s; simpl; [done|]. done.
Qed.

(** ** The monad *)

Section Properties.
Context `{Collaborators}.

Lemma bind_Ok {A B} (m : M A) (f : A → M B) w w' a :
  m w = (w', Ok a) → (m ≫= f) w = f a w'.
Proof. intros Hm. unfold mbind, M_bind. by rewrite Hm. Qed.

Lemma bind_Raise {A B} (m : M A) (f : A → M B) w w' e :
  m w = (w', Raise e) → (m ≫= f) w = (w', Raise e).
Proof. intros Hm. unfold mbind, M_bind. by rewrite Hm. Qed.

Ltac munfold :=
  unfold exec, returned, mbind, M_bind, mret, M_ret, lift_outcome, raise, blocked,
    try_except, except_Exception, try_finally, now, log, emit, get_rooms,
    set_rooms, get_obj, set_obj, new_obj in *.

(** ** services/transcription.py *)

(** [transcribe_audio] never raises; it calls Whisper once, logs once, and
    leaves the registry alone. *)
Lemma transcribe_audio_spec audio w :
  ∃ tr level msg,
    transcribe_audio audio w =
      ({| _rooms := _rooms w; objs := objs w; next_obj := next_obj w;
          trace := trace w ++ [ETranscribe audio; ELog level msg] |}, Ok tr).
Proof.
  unfold transcribe_audio. munfold. simpl.
  destruct (whisper_transcribe _ _) as [r|cls]; simpl;
    rewrite <- app_assoc; simpl; eauto.
Qed.

(** ** websocket/manager.py *)

Lemma after_events_nil w : after_events w [] = w.
Proof. destruct w. unfold after_events. simpl. by rewrite app_nil_r. Qed.

Lemma after_events_app w l1 l2 :
  after_events (after_events w l1) l2 = after_events w (l1 ++ l2).
Proof. unfold after_events. simpl. by rewrite app_assoc. Qed.

Lemma attempts_after_events w evs t members data exclude :
  attempts (after_events w evs) t members data exclude
  = attempts w t members data exclude.
Proof.
  revert t. induction members as [|p rest IH]; intros t; simpl; [done|].
  case_decide; [done|]. by rewrite IH.
Qed.

Lemma send_json_run p data w :
  send_json p data w =
    (after_events w
       [ESendJson (ws_of w p) data
                  (negb (ws_send_json_raises (length (trace w)) (ws_of w p) data))],
     if ws_send_json_raises (length (trace w)) (ws_of w p) data
     then Raise (Exception_ "RuntimeError") else Ok ()).
Proof.
  unfold send_json, after_events, ws_of. munfold. simpl.
  by destruct (ws_send_json_raises _ _ _).
Qed.

(** [send_to_participant] makes one send and never raises. *)
Lemma send_to_participant_run p data w :
  ∃ evs,
    send_to_participant p data w = (after_events w evs, Ok ()) ∧
    (evs = [ESendJson (ws_of w p) data true] ∧
       ws_send_json_raises (length (trace w)) (ws_of w p) data = false
     ∨ evs = [ESendJson (ws_of w p) data false; ELog WARNING "Failed to send"] ∧
       ws_send_json_raises (length (trace w)) (ws_of w p) data = true).
Proof.
  unfold send_to_participant, try_except. rewrite send_json_run.
  destruct (ws_send_json_raises _ _ _); simpl.
  - eexists. split; [|right; done]. unfold log, emit, after_events. simpl.
    by rewrite <- app_assoc.
  - eexists. split; [|left; done]. done.
Qed.

Lemma broadcast_loop_run members data exclude disconnected w :
  broadcast_loop members data exclude disconnected w =
    (after_events w (send_event w data <$> attempts w (length (trace w)) members data exclude),
     Ok (disconnected ++ failed (attempts w (length (trace w)) members data exclude))).
Proof.
  revert disconnected w.
  induction members as [|p rest IH]; intros disconnected w; simpl.
  - unfold failed. simpl. by rewrite after_events_nil, app_nil_r.
  - case_decide as Hex; [apply IH|].
    unfold mbind at 1, M_bind at 1, try_except.
    unfold mbind at 1, M_bind at 1. rewrite send_json_run.
    destruct (ws_send_json_raises _ _ _) eqn:Hraise; simpl; rewrite IH;
      rewrite attempts_after_events, after_events_app; simpl;
      rewrite length_app, Nat.add_1_r; unfold failed; simpl.
    + by rewrite <- app_assoc.
    + done.
Qed.

Lemma discard_all_run room_code ps w :
  discard_all room_code ps w = (pruned w room_code ps, Ok ()).
Proof.
  revert w. induction ps as [|p rest IH]; intros w; simpl.
  - unfold mret, M_ret, pruned. f_equal. destruct w; simpl. f_equal.
    symmetry. apply alter_id. intros s ?. set_solver.
  - unfold mbind, M_bind, set_rooms. rewrite IH. unfold pruned. simpl.
    do 2 f_equal. rewrite alter_alter_eq. apply alter_ext.
    intros s _. simpl. set_solver.
Qed.

Lemma broadcast_json_run room_code data exclude w s :
  _rooms w !! room_code = Some s →
  broadcast_json room_code data exclude w =
    (pruned (after_events w (send_event w data
               <$> attempts w (length (trace w)) (elements s) data exclude))
            room_code
            (failed (attempts w (length (trace w)) (elements s) data exclude)),
     Ok ()).
Proof.
  intros Hs. unfold broadcast_json, get_rooms, mbind at 1, M_bind at 1.
  rewrite Hs. unfold mbind, M_bind. rewrite broadcast_loop_run.
  by rewrite discard_all_run.
Qed.

Lemma broadcast_json_absent room_code data exclude w :
  _rooms w !! room_code = None →
  broadcast_json room_code data exclude w = (w, Ok ()).
Proof.
  intros Hs. unfold broadcast_json, get_rooms, mbind, M_bind. by rewrite Hs.
Qed.

Lemma attempts_fst w t members data exclude :
  (attempts w t members data exclude).*1 = filter (λ p, Some p ≠ exclude) members.
Proof.
  revert t. induction members as [|p rest IH]; intros t; simpl; [done|].
  case_decide.
  - rewrite filter_cons_False by naive_solver. apply IH.
  - rewrite filter_cons_True by done. simpl. by rewrite IH.
Qed.

Lemma get_participant_list_run room_code w :
  get_participant_list room_code w = (w, Ok (roster w room_code)).
Proof.
  unfold get_participant_list, roster, sessions.
  destruct (_rooms w !! room_code); simpl; [done|].
  by rewrite elements_empty.
Qed.

Lemma pruned_nil w room_code : pruned w room_code [] = w.
Proof.
  unfold pruned. destruct w; simpl. f_equal.
  apply alter_id. intros s ?. set_solver.
Qed.

Lemma sessions_pruned w room_code ps r :
  sessions (pruned w room_code ps) r =
    if decide (r = room_code) then sessions w room_code ∖ list_to_set ps
    else sessions w r.
Proof.
  unfold sessions, pruned. simpl. rewrite lookup_alter.
  case_decide; subst.
  - rewrite decide_True by done. destruct (_rooms w !! _); simpl; set_solver.
  - by rewrite decide_False by done.
Qed.

(** [broadcast_json] never raises; it only sends, and only discards. *)
Lemma broadcast_json_exec room_code data exclude w :
  ∃ att,
    broadcast_json room_code data exclude w =
      (pruned (after_events w (send_event w data <$> att)) room_code (failed att),
       Ok ()) ∧
    att.*1 ⊆ elements (sessions w room_code).
Proof.
  destruct (_rooms w !! room_code) as [s|] eqn:Hs.
  - eexists. split; [by apply broadcast_json_run|].
    rewrite attempts_fst. unfold sessions. rewrite Hs. simpl.
    intros q [_ ?]%list_elem_of_filter. done.
  - exists []. split; [|by intros ? ?%elem_of_nil].
    rewrite broadcast_json_absent by done. simpl.
    by rewrite after_events_nil, pruned_nil.
Qed.


(** ** The registry never gets a session *)

(** [connect] accepts the transport, builds the [Participant], gives the
    room an entry, and raises at [add]: what follows the [add] never
    runs. *)
Lemma connect_run ws room_code uid uname mode w :
  connect ws room_code uid uname mode w =
    match ws_accept (length (trace w)) ws with
    | Returns _ =>
        (attempted w ws room_code uid uname mode, Raise (Exception_ "TypeError"))
    | Raises cls => (after_events w [EAccept ws], Raise (Exception_ cls))
    end.
Proof.
  unfold connect, set_add. munfold. simpl.
  destruct (ws_accept _ _) as [[]|cls]; simpl; [|done].
  unfold attempted, sessions.
  case_decide as Hn; simpl; do 2 f_equal.
  - by rewrite Hn.
  - destruct (_rooms w !! room_code) as [s|] eqn:Hs; [|done]. simpl.
    symmetry. by apply insert_id.
Qed.

(** [disconnect] raises at [discard] when the room has an entry, before
    the entry could be deleted or anything logged. *)
Lemma disconnect_run room_code p w :
  disconnect room_code p w =
    match _rooms w !! room_code with
    | Some _ => (w, Raise (Exception_ "TypeError"))
    | None => (after_events w [ELog INFO "WS disconnected"], Ok ())
    end.
Proof.
  unfold disconnect, set_discard. munfold. simpl.
  by destruct (_rooms w !! room_code).
Qed.

Lemma sessions_attempted w ws room_code uid uname mode r :
  sessions (attempted w ws room_code uid uname mode) r = sessions w r.
Proof.
  unfold sessions at 1, attempted. simpl. rewrite lookup_insert.
  case_decide; subst; [|done]. done.
Qed.

Lemma attempted_entry w ws room_code uid uname mode :
  _rooms (attempted w ws room_code uid uname mode) !! room_code
  = Some (sessions w room_code).
Proof. unfold attempted. simpl. by rewrite lookup_insert_eq. Qed.


Lemma rooms_disconnect room_code p w :
  _rooms (exec (disconnect room_code p) w) = _rooms w.
Proof. unfold exec. rewrite disconnect_run. by destruct (_rooms w !! room_code). Qed.

(** No operation of the registry puts a session into a room's set. *)
Lemma run_op_sessions op w r :
  sessions (exec (run_op op) w) r ⊆ sessions w r.
Proof.
  destruct op as [ws room_code uid uname mode|room_code p|room_code data exclude|p data];
    unfold exec; simpl.
  - unfold mbind, M_bind. rewrite connect_run.
    destruct (ws_accept _ _) as [[]|cls]; simpl; [|done].
    by rewrite sessions_attempted.
  - fold (exec (disconnect room_code p) w). unfold sessions.
    by rewrite rooms_disconnect.
  - destruct (broadcast_json_exec room_code data exclude w) as (att & -> & _).
    simpl. rewrite sessions_pruned.
    change (sessions (after_events w ?e) ?x) with (sessions w x).
    case_decide; subst; set_solver.
  - destruct (send_to_participant_run p data w) as (evs & -> & _). done.
Qed.

Lemma run_ops_sessions ops w r :
  sessions (run_ops ops w) r ⊆ sessions w r.
Proof.
  revert w. induction ops as [|op ops IH]; intros w; simpl; [done|].
  etrans; [apply IH|apply run_op_sessions].
Qed.

Lemma run_ops_unpopulated ops w : unpopulated w → unpopulated (run_ops ops w).
Proof.
  intros Hw r. pose proof (run_ops_sessions ops w r) as Hsub.
  rewrite (Hw r) in Hsub. set_solver.
Qed.



(** C6, as the code has it.  Removing a session raises [TypeError]
    whenever the room has an entry, whether the session is in its set or
    not, and in particular in the room a connection was just accepted
    for; it returns, having logged, only when the room has no entry.
    Either way the registry is left as it was: no session is removed and
    no entry is deleted, not that of a room's last session either. *)
Theorem C6_removal_raises room_code p w :
  (∀ s, _rooms w !! room_code = Some s →
     disconnect room_code p w = (w, Raise (Exception_ "TypeError"))) ∧
  (_rooms w !! room_code = None →
     disconnect room_code p w
       = (after_events w [ELog INFO "WS disconnected"], Ok ())) ∧
  _rooms (exec (disconnect room_code p) w) = _rooms w ∧
  (∀ ws uid uname mode,
     ws_accept (length (trace w)) ws = Returns () →
     let w' := exec (connect ws room_code uid uname mode) w in
     disconnect room_code p w' = (w', Raise (Exception_ "TypeError"))).
Proof.
  split_and!.
  - intros s Hs. by rewrite disconnect_run, Hs.
  - intros Hs. by rewrite disconnect_run, Hs.
  - apply rooms_disconnect.
  - intros ws uid uname mode Haccept w'.
    unfold w', exec. rewrite connect_run, Haccept. cbn [fst].
    by rewrite disconnect_run, attempted_entry.
Qed.

(** ** services/translation.py, services/tts.py *)

Lemma translate_text_run text source_lang target_lang w :
  blank text = false →
  source_lang ≠ "auto" →
  ∃ level msg,
    translate_text text source_lang target_lang w =
      (after_events w [ETranslate source_lang (flipped_target source_lang target_lang) text;
                       ELog level msg],
       Ok (translation_of text
             (GoogleTranslator_translate (length (trace w)) source_lang
                (flipped_target source_lang target_lang) text),
           source_lang, flipped_target source_lang target_lang)).
Proof.
  intros Hblank Hauto. unfold translate_text. rewrite Hblank.
  rewrite decide_False by done.
  unfold flipped_target. munfold. simpl.
  match goal with
  | |- context [ETranslate source_lang ?t text] => generalize t
  end.
  intros tgt.
  destruct (decide (source_lang = "hi" ∧ tgt = "en")) as [[-> ->]|];
    [|destruct (decide (source_lang = "en" ∧ tgt = "hi")) as [[-> ->]|]];
    (destruct (GoogleTranslator_translate _ _ _ _) as [[translated|]|cls]; simpl;
     unfold after_events; simpl; rewrite <- ?app_assoc; simpl; eauto).
Qed.

Lemma synthesize_speech_run text language w :
  ∃ evs url,
    synthesize_speech text language w = (after_events w evs, Ok url) ∧
    Forall (λ e, is_send e = false) evs.
Proof.
  unfold synthesize_speech. destruct (blank text).
  - exists [], "". rewrite after_events_nil. by split.
  - munfold. simpl. destruct (edge_tts_save _ _ _ _) as [[]|cls]; simpl;
      unfold after_events; simpl; rewrite <- app_assoc; simpl;
      do 2 eexists; (split; [reflexivity|]); repeat constructor.
Qed.

(** The one call [synthesize_speech] makes for a text that is not blank,
    and the URL it returns. *)
Lemma synthesize_speech_calls text language w :
  blank text = false →
  let voice := default (VOICES !!! "en") (VOICES !! language) in
  let filename := uuid4_hex (length (trace w)) +:+ ".mp3" in
  let filepath := os_path_join AUDIO_DIR filename in
  ∃ level msg,
    synthesize_speech text language w
    = (after_events w [ESynthesize text voice filepath; ELog level msg],
       Ok (match edge_tts_save (length (trace w)) text voice filepath with
           | Returns _ => "/static/audio/" +:+ filename
           | Raises _ => ""
           end)).
Proof.
  intros Hb voice filename filepath. unfold synthesize_speech. rewrite Hb.
  fold voice. munfold. simpl. fold filename filepath.
  destruct (edge_tts_save _ _ _ _) as [[]|cls]; simpl;
    unfold after_events; simpl; rewrite <- ?app_assoc; simpl; eauto.
Qed.

(** ** websocket/handler.py *)

Lemma _save_message_run room_code uid original translated src tgt url conf w :
  ∃ evs r,
    _save_message room_code uid original translated src tgt url conf w
      = (after_events w evs, r) ∧
    Forall (λ e, is_send e = false) evs ∧
    r ≠ Blocked.
Proof.
  unfold _save_message. munfold. simpl.
  destruct (db_room_by_code _ _) as [[room|]|cls]; simpl.
  - destruct (db_commit _ _) as [[]|cls]; simpl;
      eexists [_], _; split_and!; try done; repeat constructor.
  - exists [], (Ok ()). rewrite after_events_nil. by split_and!.
  - exists [], (Raise (Exception_ cls)). rewrite after_events_nil. by split_and!.
Qed.

Lemma process_audio_short room_code user p mode audio w :
  length audio < 100 →
  process_audio room_code user p mode audio w = (w, Ok ()).
Proof.
  intros Hlen. unfold process_audio.
  by rewrite (proj2 (Nat.ltb_lt _ _) Hlen).
Qed.

Lemma process_audio_blank room_code user p mode audio w w1 tr :
  transcribe_audio audio w = (w1, Ok tr) →
  forallb isspace (tr_text tr) = true →
  100 ≤ length audio →
  process_audio room_code user p mode audio w = (w1, Ok ()).
Proof.
  intros Htr Hblank Hlen. unfold process_audio.
  rewrite (proj2 (Nat.ltb_ge _ _) Hlen).
  rewrite (bind_Ok _ _ _ _ _ Htr). by rewrite truthy_strip, Hblank.
Qed.

(** The audio branch once transcription has produced text: translate,
    synthesize, then broadcast, send to the speaker, and save. *)
Lemma process_audio_run room_code user p mode audio w w1 tr w2 translated src tgt w3 url :
  100 ≤ length audio →
  transcribe_audio audio w = (w1, Ok tr) →
  forallb isspace (tr_text tr) = false →
  translate_text (tr_text tr)
    (resolve_languages mode (tr_language tr) (tr_confidence tr)).1
    (resolve_languages mode (tr_language tr) (tr_confidence tr)).2 w1
    = (w2, Ok (translated, src, tgt)) →
  synthesize_speech translated tgt w2 = (w3, Ok url) →
  process_audio room_code user p mode audio w =
    (let data := result_data user (tr_text tr) translated src tgt url
                             (tr_confidence tr) in
     broadcast_json room_code data None;;
     send_to_participant p data;;
     _save_message room_code (id user) (tr_text tr) translated src tgt url
                   (tr_confidence tr)) w3.
Proof.
  intros Hlen Htr Htext Htrans Hsynth. unfold process_audio.
  rewrite (proj2 (Nat.ltb_ge _ _) Hlen).
  rewrite (bind_Ok _ _ _ _ _ Htr). rewrite truthy_strip, Htext. simpl.
  destruct (resolve_languages _ _ _) as [source target]. simpl in Htrans.
  rewrite (bind_Ok _ _ _ _ _ Htrans). by rewrite (bind_Ok _ _ _ _ _ Hsynth).
Qed.

Lemma broadcast_json_sessions room_code data exclude w :
  broadcast_json room_code data exclude w =
    (pruned (after_events w
               (send_event w data
                  <$> attempts w (length (trace w))
                        (elements (sessions w room_code)) data exclude))
            room_code
            (failed (attempts w (length (trace w))
                       (elements (sessions w room_code)) data exclude)),
     Ok ()).
Proof.
  unfold sessions. destruct (_rooms w !! room_code) as [s|] eqn:Hs; simpl.
  - by apply broadcast_json_run.
  - rewrite broadcast_json_absent by done. rewrite elements_empty. simpl.
    by rewrite after_events_nil, pruned_nil.
Qed.

Lemma after_events_pruned w room_code ps evs :
  after_events (pruned w room_code ps) evs = pruned (after_events w evs) room_code ps.
Proof. done. Qed.

(** What the audio branch does with a transcript that is not blank: the
    calls it makes, in order, and the world it leaves. *)
Lemma process_audio_deliver room_code user p mode audio w w1 tr :
  100 ≤ length audio →
  transcribe_audio audio w = (w1, Ok tr) →
  forallb isspace (tr_text tr) = false →
  (resolve_languages mode (tr_language tr) (tr_confidence tr)).1 ≠ "auto" →
  ∃ w2 w3 translated src tgt url pre att direct wd post r,
    translate_text (tr_text tr)
      (resolve_languages mode (tr_language tr) (tr_confidence tr)).1
      (resolve_languages mode (tr_language tr) (tr_confidence tr)).2 w1
      = (w2, Ok (translated, src, tgt)) ∧
    src = (resolve_languages mode (tr_language tr) (tr_confidence tr)).1 ∧
    tgt = flipped_target src
            (resolve_languages mode (tr_language tr) (tr_confidence tr)).2 ∧
    translated = translation_of (tr_text tr)
                   (GoogleTranslator_translate (length (trace w1)) src tgt (tr_text tr)) ∧
    synthesize_speech translated tgt w2 = (w3, Ok url) ∧
    w3 = after_events w pre ∧
    Forall (λ e, is_send e = false) pre ∧
    let data := result_data user (tr_text tr) translated src tgt url (tr_confidence tr) in
    att = attempts w (length (trace w3)) (elements (sessions w room_code)) data None ∧
    (direct = [ESendJson (ws_of w p) data true] ∨
     direct = [ESendJson (ws_of w p) data false; ELog WARNING "Failed to send"] ∧
     ∃ t, ws_send_json_raises t (ws_of w p) data = true) ∧
    wd = pruned (after_events w (pre ++ (send_event w data <$> att) ++ direct))
                room_code (failed att) ∧
    _save_message room_code (id user) (tr_text tr) translated src tgt url
                  (tr_confidence tr) wd = (after_events wd post, r) ∧
    Forall (λ e, is_send e = false) post ∧
    r ≠ Blocked ∧
    process_audio room_code user p mode audio w = (after_events wd post, r).
Proof.
  intros Hlen Htr Htext Hauto.
  destruct (transcribe_audio_spec audio w) as (tr' & l1 & m1 & Htr').
  rewrite Htr in Htr'. injection Htr' as -> <-.
  assert (Hblank : blank (tr_text tr) = false) by by rewrite blank_forallb.
  set (wa := {| _rooms := _rooms w; objs := objs w; next_obj := next_obj w;
                trace := trace w ++ [ETranscribe audio; ELog l1 m1] |}) in *.
  destruct (translate_text_run (tr_text tr) _
              (resolve_languages mode (tr_language tr) (tr_confidence tr)).2
              wa Hblank Hauto) as (l2 & m2 & Htrans).
  set (src := (resolve_languages mode (tr_language tr) (tr_confidence tr)).1) in *.
  set (tgt := flipped_target src
                (resolve_languages mode (tr_language tr) (tr_confidence tr)).2) in *.
  set (translated := translation_of (tr_text tr)
                       (GoogleTranslator_translate (length (trace wa)) src tgt (tr_text tr))) in *.
  set (w2 := after_events wa [ETranslate src tgt (tr_text tr); ELog l2 m2]) in *.
  destruct (synthesize_speech_run translated tgt w2) as (e3 & url & Hsynth & He3).
  set (pre := [ETranscribe audio; ELog l1 m1] ++
              [ETranslate src tgt (tr_text tr); ELog l2 m2] ++ e3).
  assert (Hw3 : after_events w2 e3 = after_events w pre).
  { unfold w2, wa, pre, after_events. simpl. by rewrite <- !app_assoc. }
  set (data := result_data user (tr_text tr) translated src tgt url (tr_confidence tr)).
  set (att := attempts w (length (trace (after_events w pre)))
                (elements (sessions w room_code)) data None).
  set (wb := pruned (after_events w (pre ++ (send_event w data <$> att)))
                    room_code (failed att)).
  destruct (send_to_participant_run p data wb) as (direct & Hdirect & Hd).
  set (wd := pruned (after_events w (pre ++ (send_event w data <$> att) ++ direct))
                    room_code (failed att)).
  assert (Hwd : after_events wb direct = wd).
  { unfold wb, wd. rewrite after_events_pruned, after_events_app.
    by rewrite <- app_assoc. }
  rewrite Hwd in Hdirect.
  destruct (_save_message_run room_code (id user) (tr_text tr) translated src tgt
              url (tr_confidence tr) wd) as (post & r & Hsave & Hpost & Hr).
  exists w2, (after_events w pre), translated, src, tgt, url, pre, att, direct,
    wd, post, r.
  split; [done|]. split; [done|]. split; [done|]. split; [done|].
  split; [by rewrite <- Hw3|]. split; [done|].
  split; [unfold pre; repeat (apply Forall_cons; split; [done|]); done|].
  cbv zeta. fold data. split; [done|].
  split.
  { change (ws_of wb p) with (ws_of w p) in Hd.
    destruct Hd as [[-> _]|[-> Hraise]]; [by left|right]. split; [done|]. eauto. }
  split; [done|]. split; [done|]. split; [done|]. split; [done|].
  rewrite (process_audio_run _ _ _ _ _ _ _ _ _ _ _ _ _ _ Hlen Htr Htext Htrans Hsynth).
  rewrite Hw3. cbv zeta. fold data.
  erewrite bind_Ok; last first.
  { rewrite broadcast_json_sessions.
    change (sessions (after_events w pre) room_code) with (sessions w room_code).
    rewrite attempts_after_events. fold att.
    rewrite after_events_app. reflexivity. }
  fold wb. erewrite bind_Ok by exact Hdirect. exact Hsave.
Qed.

Lemma Qlt_bool_iff (x y : Q) : Qlt_bool x y = true ↔ (x < y)%Q.
Proof.
  unfold Qlt_bool. rewrite negb_true_iff, <- not_true_iff_false, Qle_bool_iff.
  split; [apply Qnot_le_lt|apply Qlt_not_le].
Qed.

Lemma attempts_fst_None w t members data :
  (attempts w t members data None).*1 = members.
Proof.
  rewrite attempts_fst. induction members as [|q rest IH]; [done|].
  rewrite filter_cons_True by done. by rewrite IH.
Qed.

Lemma resolve_languages_source mode detected c :
  (resolve_languages mode detected c).1 =
    if Qlt_bool (1 # 2) c then detected
    else if decide (mode = "hi_to_en") then "hi" else "en".
Proof. unfold resolve_languages. by repeat case_decide; destruct (Qlt_bool _ _). Qed.

Lemma resolve_languages_not_auto mode detected c :
  detected ≠ "auto" → (resolve_languages mode detected c).1 ≠ "auto".
Proof.
  intros Hd. rewrite resolve_languages_source.
  destruct (Qlt_bool _ _); [done|]. by case_decide.
Qed.

(** C8. A binary frame of fewer than 100 bytes is dropped: handling it
    returns at once with the world as it was (no call to any collaborator,
    nothing sent, nothing written, the registry untouched), and the
    receive loop goes on with the next frame as if the segment had not
    arrived. *)
Theorem C8_tiny_frame_discarded room_code user p mode audio other w :
  length audio < 100 →
  let message := {| msg_bytes := Some (Some audio); msg_text := other |} in
  handle_message room_code user p mode message w = (w, Ok mode) ∧
  ∀ inbox,
    receive_loop room_code user p (Frame message :: inbox) mode w
    = receive_loop room_code user p inbox mode w.
Proof.
  intros Hlen message.
  assert (Hm : handle_message room_code user p mode message w = (w, Ok mode)).
  { unfold handle_message. simpl.
    unfold mbind, M_bind. by rewrite process_audio_short. }
  split; [done|]. intros inbox. simpl.
  unfold mbind at 1, M_bind at 1, mret at 1, M_ret at 1.
  by rewrite (bind_Ok _ _ _ _ _ Hm).
Qed.

(** C7. When the transcript of a segment is empty or all whitespace, the
    iteration ends right after the transcription call: the only calls made
    are the one to Whisper and its log entry, so there is no translation,
    no synthesis, no send and no database write, and the registry is
    untouched; the loop goes on with the next frame. *)
Theorem C7_blank_transcript_aborts room_code user p mode audio other w w1 tr :
  100 ≤ length audio →
  transcribe_audio audio w = (w1, Ok tr) →
  forallb isspace (tr_text tr) = true →
  let message := {| msg_bytes := Some (Some audio); msg_text := other |} in
  handle_message room_code user p mode message w = (w1, Ok mode) ∧
  (∃ level msg, w1 = after_events w [ETranscribe audio; ELog level msg]) ∧
  ∀ inbox,
    receive_loop room_code user p (Frame message :: inbox) mode w
    = receive_loop room_code user p inbox mode w1.
Proof.
  intros Hlen Htr Hblank message.
  assert (Hm : handle_message room_code user p mode message w = (w1, Ok mode)).
  { unfold handle_message. simpl. unfold mbind, M_bind.
    by rewrite (process_audio_blank _ _ _ _ _ _ _ _ Htr Hblank Hlen). }
  split_and!; [done| |].
  - destruct (transcribe_audio_spec audio w) as (tr' & level & msg & Hspec).
    rewrite Htr in Hspec. injection Hspec as -> _. by exists level, msg.
  - intros inbox. simpl.
    unfold mbind at 1, M_bind at 1, mret at 1, M_ret at 1.
    by rewrite (bind_Ok _ _ _ _ _ Hm).
Qed.

Lemma _authenticate_ws_exec token w : exec (_authenticate_ws token) w = w.
Proof.
  unfold _authenticate_ws. munfold. simpl.
  destruct (decode_access_token _ _) as [payload|]; [|done].
  destruct (payload !! "sub") as [sub|]; [|done].
  destruct (py_int sub); [|done].
  by destruct (db_user_by_id _ _).
Qed.

Lemma _authenticate_ws_None_iff token w :
  returned (_authenticate_ws token) w = Ok None ↔ unresolved token w.
Proof.
  unfold unresolved, _authenticate_ws. munfold. simpl. split.
  - destruct (decode_access_token _ _) as [payload|] eqn:Hd; [|by left].
    destruct (payload !! "sub") as [sub|] eqn:Hs; [|right; left; eauto].
    destruct (py_int sub) as [n|] eqn:Hn; simpl; [|done].
    destruct (db_user_by_id _ _) as [[user|]|cls] eqn:Hu; simpl; try done.
    intros _. right. right. exists payload, sub, n. done.
  - intros [Hd|[(payload & Hd & Hs)|(payload & sub & n & Hd & Hs & Hn & Hu)]];
      rewrite Hd; [done|by rewrite Hs|].
    rewrite Hs, Hn. simpl. by rewrite Hu.
Qed.

(** C9, as the code has it.  A connection whose token does not decode,
    has no subject, or names no user is closed with code 4001, and one
    whose room code resolves to no active room with code 4002; in both
    cases the close is the only call made and the registry and the object
    store are as they were.  A token that decodes with a subject that is
    not a number resolves to no user either, but is not closed: [int]
    raises [ValueError] inside [_authenticate_ws], nothing catches it, and
    the endpoint raises with no call made to the transport, neither close
    nor accept; the world is as it was. *)
Theorem C9_bad_subject_is_not_closed ws room_code token inbox w :
  let w' := exec (websocket_meeting ws room_code token inbox) w in
  (∀ payload sub,
     decode_access_token (length (trace w)) token = Some payload →
     payload !! "sub" = Some sub →
     py_int sub = None →
     websocket_meeting ws room_code token inbox w
       = (w, Raise (Exception_ "ValueError"))) ∧
  (returned (_authenticate_ws token) w = Ok None →
     trace w' = trace w ++ [EClose ws 4001 "Authentication failed"] ∧
     _rooms w' = _rooms w ∧ objs w' = objs w ∧
     returned (websocket_meeting ws room_code token inbox) w ≠ Blocked) ∧
  (∀ user,
     returned (_authenticate_ws token) w = Ok (Some user) →
     db_active_room (length (trace w)) room_code = Returns None →
     trace w' = trace w ++ [EClose ws 4002 "Room not found or ended"] ∧
     _rooms w' = _rooms w ∧ objs w' = objs w ∧
     returned (websocket_meeting ws room_code token inbox) w ≠ Blocked) ∧
  EClose ws 4001 "Authentication failed" ≠ EClose ws 4002 "Room not found or ended".
Proof.
  intros w'. subst w'.
  assert (Hauth_eq : ∀ r, returned (_authenticate_ws token) w = r →
                          _authenticate_ws token w = (w, r)).
  { intros r <-. pose proof (_authenticate_ws_exec token w) as Hexec.
    unfold exec, returned in *. destruct (_authenticate_ws token w). simpl in *.
    by subst. }
  split_and!; [| | |done].
  - intros payload sub Hd Hs Hint. unfold websocket_meeting.
    erewrite bind_Raise; [done|].
    unfold _authenticate_ws. munfold. simpl. by rewrite Hd, Hs, Hint.
  - unfold exec at 1 2 3. unfold returned at 2. unfold websocket_meeting.
    intros Hauth. rewrite (bind_Ok _ _ _ _ _ (Hauth_eq _ Hauth)).
    unfold close. munfold. simpl. by destruct (ws_close _ _) as [[]|].
  - unfold exec at 1 2 3. unfold returned at 2. unfold websocket_meeting.
    intros user Hauth Hroom. rewrite (bind_Ok _ _ _ _ _ (Hauth_eq _ Hauth)).
    unfold close. munfold. simpl. rewrite Hroom. simpl.
    by destruct (ws_close _ _) as [[]|].
Qed.

(** The calls an utterance with a transcript makes, as a trace: first
    the calls of [pre] (transcription, translation, synthesis), none of
    them a send; then one send of the result to every session of the room;
    then the send to the speaker; then what saving does. *)
Lemma process_audio_trace room_code user p mode audio w w1 tr :
  100 ≤ length audio →
  transcribe_audio audio w = (w1, Ok tr) →
  forallb isspace (tr_text tr) = false →
  (resolve_languages mode (tr_language tr) (tr_confidence tr)).1 ≠ "auto" →
  ∃ w2 w3 url pre att ok rest,
    let src := (resolve_languages mode (tr_language tr) (tr_confidence tr)).1 in
    let tgt := flipped_target src
                 (resolve_languages mode (tr_language tr) (tr_confidence tr)).2 in
    let translated :=
      translation_of (tr_text tr)
        (GoogleTranslator_translate (length (trace w1)) src tgt (tr_text tr)) in
    let data := result_data user (tr_text tr) translated src tgt url
                            (tr_confidence tr) in
    translate_text (tr_text tr) src
      (resolve_languages mode (tr_language tr) (tr_confidence tr)).2 w1
      = (w2, Ok (translated, src, tgt)) ∧
    synthesize_speech translated tgt w2 = (w3, Ok url) ∧
    trace (exec (process_audio room_code user p mode audio) w)
      = trace w ++ pre ++ (send_event w data <$> att)
          ++ ESendJson (ws_of w p) data ok :: rest ∧
    trace w3 = trace w ++ pre ∧
    Forall (λ e, is_send e = false) pre ∧
    att = attempts w (length (trace w3)) (elements (sessions w room_code)) data None ∧
    ((∀ t, ws_send_json_raises t (ws_of w p) data = false) → ok = true) ∧
    Forall (λ e, is_send e = false) rest ∧
    returned (process_audio room_code user p mode audio) w ≠ Blocked.
Proof.
  intros Hlen Htr Htext Hauto.
  destruct (process_audio_deliver room_code user p mode audio w w1 tr
              Hlen Htr Htext Hauto)
    as (w2 & w3 & translated & src & tgt & url & pre & att & direct & wd & post
        & r & Htrans & -> & -> & -> & Hsynth & -> & Hpre & Hatt & Hdirect & ->
        & Hsave & Hpost & Hr & Hrun).
  cbv zeta in Hatt.
  destruct Hdirect as [->|[-> [t Ht]]].
  - exists w2, (after_events w pre), url, pre, att, true, post. cbv zeta.
    unfold exec, returned. rewrite Hrun. simpl.
    split_and!; try done. by rewrite <- !app_assoc.
  - exists w2, (after_events w pre), url, pre, att, false,
      (ELog WARNING "Failed to send" :: post). cbv zeta.
    unfold exec, returned. rewrite Hrun. simpl.
    split_and!; try done.
    + by rewrite <- !app_assoc.
    + intros Hhealthy. by rewrite Hhealthy in Ht.
    + by apply Forall_cons.
Qed.

(** C3. With a confidence above 0.5 the source language is the detected
    one, whatever the mode of the session says: [translate_text] is called
    with the detected language as source and the target of the mode, the
    translator is asked to translate from the detected language, and every
    send the utterance causes, to each session of the room and to the
    speaker, carries a [translation_result] whose source_language is the
    detected language.  The target is the one [translate_text] settled on:
    the target of the mode, or, when the detected language is that very
    target, hi for any detected language but hi and en for hi.  So a
    session in mode hi_to_en whose utterance is detected as en with
    confidence 0.9 delivers source en and target hi.  (The detected
    language is a language code, not the literal "auto", which
    [translate_text] would replace by what langdetect answers.) *)
Theorem C3_detected_language_overrides room_code user p mode audio w w1 tr :
  100 ≤ length audio →
  transcribe_audio audio w = (w1, Ok tr) →
  forallb isspace (tr_text tr) = false →
  (1 # 2 < tr_confidence tr)%Q →
  tr_language tr ≠ "auto" →
  let detected := tr_language tr in
  let mode_target := if decide (mode = "hi_to_en") then "en" else "hi" in
  ∃ w2 w3 translated tgt url att ok rest level msg,
    let data := translation_result (id user) (name user) (tr_text tr) translated
                                   detected tgt url (tr_confidence tr) in
    translate_text (tr_text tr) detected mode_target w1
      = (w2, Ok (translated, detected, tgt)) ∧
    trace w2 = trace w1 ++ [ETranslate detected tgt (tr_text tr); ELog level msg] ∧
    tgt = (if decide (detected = mode_target)
           then (if decide (detected = "hi") then "en" else "hi")
           else mode_target) ∧
    synthesize_speech translated tgt w2 = (w3, Ok url) ∧
    trace (exec (process_audio room_code user p mode audio) w)
      = trace w3 ++ (send_event w data <$> att)
          ++ ESendJson (ws_of w p) data ok :: rest ∧
    Forall (λ e, is_send e = false) rest ∧
    att.*1 = elements (sessions w room_code).
Proof.
  intros Hlen Htr Htext Hc Hlang detected mode_target.
  assert (Hres : resolve_languages mode (tr_language tr) (tr_confidence tr)
                 = (detected, mode_target)).
  { unfold resolve_languages, mode_target.
    rewrite (proj2 (Qlt_bool_iff _ _) Hc). by case_decide. }
  destruct (process_audio_trace room_code user p mode audio w w1 tr
              Hlen Htr Htext) as (w2 & w3 & url & pre & att & ok & rest & Hall).
  { by rewrite Hres. }
  cbv zeta in Hall. rewrite Hres in Hall. cbn [fst snd] in Hall.
  destruct Hall as (Htrans & Hsynth & Htrace & Hw3 & _ & Hatt & _ & Hrest & _).
  assert (Hblank : blank (tr_text tr) = false) by by rewrite blank_forallb.
  destruct (translate_text_run (tr_text tr) detected mode_target w1 Hblank Hlang)
    as (level & msg & Hcall).
  rewrite Hcall in Htrans. injection Htrans as Hw2.
  eexists w2, w3, _, (flipped_target detected mode_target), url, att, ok, rest,
    level, msg.
  cbv zeta. split_and!.
  - by rewrite Hcall, Hw2.
  - by rewrite <- Hw2.
  - done.
  - exact Hsynth.
  - rewrite Htrace, Hw3. by rewrite <- !app_assoc.
  - done.
  - rewrite Hatt. apply attempts_fst_None.
Qed.

(** C4. When the call [translate_text] makes to the translator raises or
    returns [None], [translate_text] returns the transcript itself and the
    utterance is delivered all the same: its [translated_text] is the
    transcript verbatim, the synthesizer is called on that very text, in
    the voice of the target language, and the audio reference delivered is
    the URL of the file that call wrote, or the empty one when the
    synthesizer raised.  (The detected language is a language code, not
    the literal "auto", which would send [translate_text] through
    langdetect first.) *)
Theorem C4_translation_failure_passthrough room_code user p mode audio w w1 tr :
  100 ≤ length audio →
  transcribe_audio audio w = (w1, Ok tr) →
  forallb isspace (tr_text tr) = false →
  tr_language tr ≠ "auto" →
  let text := tr_text tr in
  let source := (resolve_languages mode (tr_language tr) (tr_confidence tr)).1 in
  let target := (resolve_languages mode (tr_language tr) (tr_confidence tr)).2 in
  (∀ w2 translated src tgt,
     translate_text text source target w1 = (w2, Ok (translated, src, tgt)) →
     translation_failed (GoogleTranslator_translate (length (trace w1)) src tgt text)) →
  ∃ w2 w3 src tgt url att ok rest level msg,
    let voice := default (VOICES !!! "en") (VOICES !! tgt) in
    let filename := uuid4_hex (length (trace w2)) +:+ ".mp3" in
    let filepath := os_path_join AUDIO_DIR filename in
    let data := translation_result (id user) (name user) text text
                                   src tgt url (tr_confidence tr) in
    translate_text text source target w1 = (w2, Ok (text, src, tgt)) ∧
    synthesize_speech text tgt w2 = (w3, Ok url) ∧
    trace w3 = trace w2 ++ [ESynthesize text voice filepath; ELog level msg] ∧
    url = match edge_tts_save (length (trace w2)) text voice filepath with
          | Returns _ => "/static/audio/" +:+ filename
          | Raises _ => ""
          end ∧
    trace (exec (process_audio room_code user p mode audio) w)
      = trace w3 ++ (send_event w data <$> att)
          ++ ESendJson (ws_of w p) data ok :: rest ∧
    Forall (λ e, is_send e = false) rest ∧
    att.*1 = elements (sessions w room_code).
Proof.
  intros Hlen Htr Htext Hlang text source target Hfail.
  destruct (process_audio_trace room_code user p mode audio w w1 tr
              Hlen Htr Htext (resolve_languages_not_auto _ _ _ Hlang))
    as (w2 & w3 & url & pre & att & ok & rest & Hall).
  cbv zeta in Hall. fold text source target in Hall.
  destruct Hall as (Htrans & Hsynth & Htrace & Hw3 & _ & Hatt & _ & Hrest & _).
  pose proof (Hfail _ _ _ _ Htrans) as Hfailed.
  assert (Hsame : translation_of text
                    (GoogleTranslator_translate (length (trace w1)) source
                       (flipped_target source target) text) = text).
  { by destruct (GoogleTranslator_translate _ _ _ _) as [[?|]|]. }
  rewrite Hsame in Htrans, Hsynth, Htrace.
  assert (Hblank : blank text = false) by (unfold text; by rewrite blank_forallb).
  destruct (synthesize_speech_calls text (flipped_target source target) w2 Hblank)
    as (level & msg & Hcall).
  cbv zeta in Hcall. rewrite Hcall in Hsynth. injection Hsynth as Hw3' Hurl.
  eexists w2, w3, source, (flipped_target source target), url, att, ok, rest,
    level, msg.
  cbv zeta. split_and!.
  - exact Htrans.
  - by rewrite Hcall, Hw3', Hurl.
  - by rewrite <- Hw3'.
  - by rewrite <- Hurl.
  - rewrite Htrace, Hw3. by rewrite <- !app_assoc.
  - done.
  - rewrite Hatt. apply attempts_fst_None.
Qed.

(** ** Leaving the receive loop *)

(** The [finally] clause stops at [disconnect] when the room has an
    entry; when it has none, [disconnect] logs and the broadcast finds no
    room to send to. *)
Lemma teardown_run room_code user p w :
  teardown room_code user p w =
    match _rooms w !! room_code with
    | Some _ => (w, Raise (Exception_ "TypeError"))
    | None => (after_events w [ELog INFO "WS disconnected"], Ok ())
    end.
Proof.
  unfold teardown. destruct (_rooms w !! room_code) as [s|] eqn:Hs.
  - erewrite bind_Raise; [done|]. by rewrite disconnect_run, Hs.
  - erewrite bind_Ok; [|by rewrite disconnect_run, Hs].
    rewrite (bind_Ok _ _ _ _ _ (get_participant_list_run _ _)).
    by rewrite broadcast_json_absent.
Qed.

(** Whatever exception ends the receive loop, the [finally] clause runs,
    after the log entry of the matching [except] clause if there is one;
    an exception of the [finally] clause replaces what the [try] had
    come to. *)
Lemma serve_exit room_code user p inbox mode w w1 e :
  receive_loop room_code user p inbox mode w = (w1, Raise e) →
  serve room_code user p inbox mode w =
    match _rooms w1 !! room_code with
    | Some _ => (after_events w1 (exit_log e), Raise (Exception_ "TypeError"))
    | None =>
        (after_events w1 (exit_log e ++ [ELog INFO "WS disconnected"]),
         if is_Exception e then Ok () else Raise e)
    end.
Proof.
  intros Hloop. unfold serve, try_finally, try_except. rewrite Hloop.
  assert (Hfin : ∀ evs,
            teardown room_code user p (after_events w1 evs) =
              match _rooms w1 !! room_code with
              | Some _ => (after_events w1 evs, Raise (Exception_ "TypeError"))
              | None => (after_events w1 (evs ++ [ELog INFO "WS disconnected"]), Ok ())
              end).
  { intros evs. rewrite teardown_run.
    change (_rooms (after_events w1 evs)) with (_rooms w1).
    destruct (_rooms w1 !! room_code); [done|]. by rewrite after_events_app. }
  destruct e as [|cls|cls]; simpl.
  - unfold log, emit. fold (after_events w1 [ELog INFO "WS disconnected"]).
    rewrite Hfin. by destruct (_rooms w1 !! room_code).
  - unfold log, emit. fold (after_events w1 [ELog ERROR "WS error"]).
    rewrite Hfin. by destruct (_rooms w1 !! room_code).
  - pose proof (Hfin []) as Hf. rewrite after_events_nil in Hf. rewrite Hf.
    destruct (_rooms w1 !! room_code); [|done]. by rewrite after_events_nil.
Qed.


(** ** Counting deliveries *)





(** ** Saving the message *)



End Properties.

(** * The properties at work in the concrete deployment *)



(** C3 for ben, in mode hi_to_en, saying "hello", detected as en with
    confidence 0.9: the result goes out with source en and target hi. *)
Lemma C3_detected_language_overrides_witness :
  100 ≤ length speech ∧
  @transcribe_audio healthy speech both_called
    = (exec (@transcribe_audio healthy speech) both_called,
       Ok {| tr_text := hello; tr_language := "en"; tr_confidence := (9 # 10)%Q |}) ∧
  forallb isspace hello = false ∧
  (1 # 2 < 9 # 10)%Q ∧
  ∃ w2 translated url ok,
    @translate_text healthy hello "en" "en"
       (exec (@transcribe_audio healthy speech) both_called)
      = (w2, Ok (translated, "en", "hi")) ∧
    ESendJson (ws_of both_called 1)
              (translation_result 2 "ben" hello translated "en" "hi" url (9 # 10)%Q) ok
    ∈ trace (exec (@process_audio healthy the_room ben 1 "hi_to_en" speech) both_called).
Proof.
  assert (H1 : 100 ≤ length speech) by (vm_compute; lia).
  assert (H2 : @transcribe_audio healthy speech both_called
               = (exec (@transcribe_audio healthy speech) both_called,
                  Ok {| tr_text := hello; tr_language := "en";
                        tr_confidence := (9 # 10)%Q |}))
    by (vm_compute; reflexivity).
  assert (H3 : forallb isspace hello = false) by reflexivity.
  assert (H4 : (1 # 2 < 9 # 10)%Q) by reflexivity.
  assert (H5 : "en" ≠ "auto") by discriminate.
  destruct (@C3_detected_language_overrides healthy the_room ben 1 "hi_to_en" speech
              both_called _ _ H1 H2 H3 H4 H5)
    as (w2 & w3 & translated & tgt & url & att & ok & rest & level & msg
        & Htrans & _ & Htgt & _ & Htrace & _).
  cbn [tr_text tr_language tr_confidence] in Htrans, Htgt, Htrace.
  change tgt with tgt in Htgt. vm_compute in Htgt. subst tgt.
  split_and!; [exact H1|exact H2|exact H3|exact H4|].
  exists w2, translated, url, ok. split; [exact Htrans|].
  rewrite Htrace. rewrite !elem_of_app. right. right. left.
Defined.

(** C4 for the same utterance when the translator raises. *)
Lemma C4_translation_failure_passthrough_witness :
  100 ≤ length speech ∧
  forallb isspace hello = false ∧
  ∃ src tgt voice filepath url ok,
    ESynthesize hello voice filepath
    ∈ trace (exec (@process_audio translator_down the_room ben 1 "hi_to_en" speech)
                  both_called) ∧
    ESendJson (ws_of both_called 1)
              (translation_result 2 "ben" hello hello src tgt url (9 # 10)%Q) ok
    ∈ trace (exec (@process_audio translator_down the_room ben 1 "hi_to_en" speech)
                  both_called).
Proof.
  assert (H1 : 100 ≤ length speech) by (vm_compute; lia).
  assert (H2 : @transcribe_audio translator_down speech both_called
               = (exec (@transcribe_audio translator_down speech) both_called,
                  Ok {| tr_text := hello; tr_language := "en";
                        tr_confidence := (9 # 10)%Q |}))
    by (vm_compute; reflexivity).
  assert (H3 : forallb isspace hello = false) by reflexivity.
  assert (H4 : "en" ≠ "auto") by discriminate.
  split; [exact H1|]. split; [exact H3|].
  destruct (@C4_translation_failure_passthrough translator_down the_room ben 1
              "hi_to_en" speech both_called _ _ H1 H2 H3 H4)
    as (w2 & w3 & src & tgt & url & att & ok & rest & level & msg
        & _ & _ & Hw3 & _ & Htrace & _).
  { intros; exact I. }
  cbn [tr_text tr_confidence] in Hw3, Htrace.
  eexists src, tgt, _, _, url, ok. split.
  - rewrite Htrace, Hw3. rewrite !elem_of_app. left. right. left.
  - rewrite Htrace. rewrite !elem_of_app. right. right. left.
Defined.


(** C6 when asha's session is removed from the room asha called the
    endpoint for. *)
Lemma C6_removal_raises_witness :
  _rooms asha_called !! the_room = Some ∅ ∧
  disconnect the_room 0 asha_called = (asha_called, Raise (Exception_ "TypeError")) ∧
  disconnect the_room 0 (exec (@connect healthy 10 the_room 1 "asha" "hi_to_en")
                              empty_world)
    = (exec (@connect healthy 10 the_room 1 "asha" "hi_to_en") empty_world,
       Raise (Exception_ "TypeError")).
Proof.
  assert (H1 : _rooms asha_called !! the_room = Some ∅) by (vm_compute; reflexivity).
  destruct (@C6_removal_raises healthy the_room 0 asha_called) as (Hentry & _).
  destruct (@C6_removal_raises healthy the_room 0 empty_world) as (_ & _ & _ & Hnew).
  split_and!; [exact H1|exact (Hentry ∅ H1)|].
  exact (Hnew 10 1%Z "asha" "hi_to_en" eq_refl).
Defined.

(** C7 for a frame of silence, which Whisper transcribes as whitespace. *)
Lemma C7_blank_transcript_aborts_witness :
  100 ≤ length silence ∧
  @transcribe_audio healthy silence both_called
    = (exec (@transcribe_audio healthy silence) both_called,
       Ok {| tr_text := []; tr_language := "en"; tr_confidence := (1 # 10)%Q |}) ∧
  forallb isspace [] = true ∧
  @handle_message healthy the_room ben 1 "hi_to_en"
     {| msg_bytes := Some (Some silence); msg_text := None |} both_called
    = (exec (@transcribe_audio healthy silence) both_called, Ok "hi_to_en").
Proof.
  assert (H1 : 100 ≤ length silence) by (vm_compute; lia).
  assert (H2 : @transcribe_audio healthy silence both_called
               = (exec (@transcribe_audio healthy silence) both_called,
                  Ok {| tr_text := []; tr_language := "en";
                        tr_confidence := (1 # 10)%Q |}))
    by (vm_compute; reflexivity).
  assert (H3 : forallb isspace [] = true) by reflexivity.
  split_and!; [exact H1|exact H2|exact H3|].
  exact (proj1 (@C7_blank_transcript_aborts healthy the_room ben 1 "hi_to_en"
                  silence None both_called _ _ H1 H2 H3)).
Defined.

(** C8 for a frame of three bytes. *)
Lemma C8_tiny_frame_discarded_witness :
  length [Byte.x01; Byte.x02; Byte.x03] < 100 ∧
  @handle_message healthy the_room ben 1 "hi_to_en"
     {| msg_bytes := Some (Some [Byte.x01; Byte.x02; Byte.x03]); msg_text := None |}
     both_called
    = (both_called, Ok "hi_to_en").
Proof.
  assert (H1 : length [Byte.x01; Byte.x02; Byte.x03] < 100) by (simpl; lia).
  split; [exact H1|].
  exact (proj1 (@C8_tiny_frame_discarded healthy the_room ben 1 "hi_to_en"
                  [Byte.x01; Byte.x02; Byte.x03] None both_called H1)).
Defined.

(** C9 for a signed token whose subject is the text abc, for a token
    nobody issued, and for chen asking for a room that does not exist. *)
Lemma C9_bad_subject_is_not_closed_witness :
  @decode_access_token forged_subject (length (trace asha_called)) "token-forged"
    = Some {[ "sub" := "abc" ]} ∧
  @py_int forged_subject "abc" = None ∧
  @websocket_meeting forged_subject 12 the_room "token-forged" [utterance] asha_called
    = (asha_called, Raise (Exception_ "ValueError")) ∧
  returned (@_authenticate_ws healthy "forged") asha_called = Ok None ∧
  trace (exec (@websocket_meeting healthy 12 the_room "forged" [utterance]) asha_called)
    = trace asha_called ++ [EClose 12 4001 "Authentication failed"] ∧
  returned (@_authenticate_ws healthy "token-chen") asha_called = Ok (Some chen) ∧
  @db_active_room healthy (length (trace asha_called)) "WXYZ-0000" = Returns None ∧
  trace (exec (@websocket_meeting healthy 12 "WXYZ-0000" "token-chen" [utterance])
              asha_called)
    = trace asha_called ++ [EClose 12 4002 "Room not found or ended"].
Proof.
  assert (H0 : @decode_access_token forged_subject (length (trace asha_called))
                 "token-forged" = Some {[ "sub" := "abc" ]}) by reflexivity.
  assert (H0' : ({[ "sub" := "abc" ]} : gmap string string) !! "sub" = Some "abc")
    by (vm_compute; reflexivity).
  assert (H0'' : @py_int forged_subject "abc" = None) by reflexivity.
  assert (H1 : returned (@_authenticate_ws healthy "forged") asha_called = Ok None)
    by (vm_compute; reflexivity).
  assert (H2 : returned (@_authenticate_ws healthy "token-chen") asha_called
               = Ok (Some chen)) by (vm_compute; reflexivity).
  assert (H3 : @db_active_room healthy (length (trace asha_called)) "WXYZ-0000"
               = Returns None) by (vm_compute; reflexivity).
  destruct (@C9_bad_subject_is_not_closed forged_subject 12 the_room "token-forged"
              [utterance] asha_called) as (Hbad & _).
  destruct (@C9_bad_subject_is_not_closed healthy 12 the_room "forged" [utterance]
              asha_called) as (_ & Hauth & _).
  destruct (@C9_bad_subject_is_not_closed healthy 12 "WXYZ-0000" "token-chen"
              [utterance] asha_called) as (_ & _ & Hroom & _).
  destruct (Hauth H1) as (Ht1 & _).
  destruct (Hroom chen H2 H3) as (Ht2 & _).
  split_and!; [exact H0|exact H0''|exact (Hbad _ _ H0 H0' H0'')|exact H1|exact Ht1|
               exact H2|exact H3|exact Ht2].
Defined.


(** * Further properties of the registry, the handler and the services *)

Section Further.
Context `{Collaborators}.

Ltac mrun :=
  unfold exec, returned, mbind, M_bind, mret, M_ret, lift_outcome, raise, blocked,
    try_except, except_Exception, try_finally, now, log, emit, get_rooms,
    set_rooms, get_obj, set_obj, new_obj in *.

(** ** websocket/manager.py: connect *)

(** X1. [connect] never registers a session.  When the transport
    accepts, the call raises [TypeError] at the [add]: by then it has
    accepted the transport, built the [Participant] and given the room an
    entry, an empty set (which [get_room_count] counts), if it had none.
    It has logged nothing, sent no user_joined, and put no session into
    any room's set. *)
Theorem X1_connect_never_registers ws room_code uid uname mode w :
  ws_accept (length (trace w)) ws = Returns () →
  let w' := exec (connect ws room_code uid uname mode) w in
  returned (connect ws room_code uid uname mode) w = Raise (Exception_ "TypeError") ∧
  trace w' = trace w ++ [EAccept ws] ∧
  objs w' !! next_obj w = Some {| websocket := ws; user_id := uid; username := uname;
                                  language_mode := mode |} ∧
  next_obj w' = S (next_obj w) ∧
  _rooms w' !! room_code = Some (sessions w room_code) ∧
  (_rooms w !! room_code = None →
     _rooms w' !! room_code = Some ∅ ∧ get_room_count w' = S (get_room_count w)) ∧
  (∀ r, sessions w' r = sessions w r) ∧
  (∀ r, r ≠ room_code → _rooms w' !! r = _rooms w !! r).
Proof.
  intros Hacc w'.
  assert (Hw' : w' = attempted w ws room_code uid uname mode).
  { unfold w', exec. by rewrite connect_run, Hacc. }
  split_and!.
  - unfold returned. by rewrite connect_run, Hacc.
  - by rewrite Hw'.
  - rewrite Hw'. simpl. apply lookup_insert_eq.
  - by rewrite Hw'.
  - rewrite Hw'. apply attempted_entry.
  - intros Hnone. rewrite Hw'. split.
    + rewrite attempted_entry. unfold sessions. by rewrite Hnone.
    + unfold get_room_count, attempted. simpl. by rewrite map_size_insert_None.
  - intros r. rewrite Hw'. apply sessions_attempted.
  - intros r Hr. rewrite Hw'. simpl. by rewrite lookup_insert_ne.
Qed.

Lemma _authenticate_ws_run token w r :
  returned (_authenticate_ws token) w = r → _authenticate_ws token w = (w, r).
Proof.
  intros <-. pose proof (_authenticate_ws_exec token w) as Hexec.
  unfold exec, returned in *. destruct (_authenticate_ws token w). simpl in *.
  by subst.
Qed.

Lemma _get_participant_mode_run uid room_code w :
  _get_participant_mode uid room_code w =
    match db_room_participant (length (trace w)) uid room_code with
    | Returns rp => (w, Ok (persisted_mode rp))
    | Raises cls => (w, Raise (Exception_ cls))
    end.
Proof.
  unfold _get_participant_mode. mrun. simpl.
  by destruct (db_room_participant _ _ _) as [[[?|]|]|].
Qed.

(** X2. After authentication, an error of the handshake leaves the
    handler as it is raised: when the room lookup or the mode lookup
    raises nothing at all has happened, and when [accept] raises the
    attempt to accept is the only call made.  No close code is sent, no
    participant is built or registered, and no teardown runs. *)
Theorem X2_handshake_errors_propagate ws room_code token inbox w user :
  returned (_authenticate_ws token) w = Ok (Some user) →
  (∀ cls,
     db_active_room (length (trace w)) room_code = Raises cls →
     websocket_meeting ws room_code token inbox w = (w, Raise (Exception_ cls))) ∧
  (∀ room cls,
     db_active_room (length (trace w)) room_code = Returns (Some room) →
     db_room_participant (length (trace w)) (id user) room_code = Raises cls →
     websocket_meeting ws room_code token inbox w = (w, Raise (Exception_ cls))) ∧
  (∀ room rp cls,
     db_active_room (length (trace w)) room_code = Returns (Some room) →
     db_room_participant (length (trace w)) (id user) room_code = Returns rp →
     ws_accept (length (trace w)) ws = Raises cls →
     websocket_meeting ws room_code token inbox w
       = (after_events w [EAccept ws], Raise (Exception_ cls))).
Proof.
  intros Hauth. apply _authenticate_ws_run in Hauth.
  unfold websocket_meeting. rewrite (bind_Ok _ _ _ _ _ Hauth).
  split_and!.
  - intros cls Hroom. mrun. simpl. by rewrite Hroom.
  - intros room cls Hroom Hmode.
    unfold mbind at 1, M_bind at 1, now. unfold mbind at 1, M_bind at 1.
    rewrite Hroom. unfold lift_outcome, mret at 1, M_ret at 1.
    erewrite bind_Raise; [done|]. by rewrite _get_participant_mode_run, Hmode.
  - intros room rp cls Hroom Hmode Hacc.
    unfold mbind at 1, M_bind at 1, now. unfold mbind at 1, M_bind at 1.
    rewrite Hroom. unfold lift_outcome, mret at 1, M_ret at 1.
    erewrite bind_Ok; last first.
    { rewrite _get_participant_mode_run, Hmode. reflexivity. }
    erewrite bind_Raise; [done|]. rewrite connect_run, Hacc. done.
Qed.

(** ** websocket/manager.py: the counters of the health check *)

Lemma run_op_dom op w :
  dom (_rooms w) ⊆ dom (_rooms (exec (run_op op) w)).
Proof.
  destruct op as [ws room_code uid uname mode|room_code p|room_code data exclude|p data];
    unfold exec; simpl.
  - unfold mbind, M_bind. rewrite connect_run.
    destruct (ws_accept _ _) as [[]|cls]; simpl; [|done].
    rewrite dom_insert_L. set_solver.
  - fold (exec (disconnect room_code p) w). by rewrite rooms_disconnect.
  - destruct (broadcast_json_exec room_code data exclude w) as (att & -> & _).
    simpl. by rewrite dom_alter_L.
  - destruct (send_to_participant_run p data w) as (evs & -> & _). done.
Qed.

Lemma run_ops_dom ops w :
  dom (_rooms w) ⊆ dom (_rooms (run_ops ops w)).
Proof.
  revert w. induction ops as [|op ops IH]; intros w; simpl; [done|].
  etrans; [apply run_op_dom|apply IH].
Qed.

Lemma total_connections_unpopulated w :
  unpopulated w → get_total_connections w = 0.
Proof.
  intros Hw. unfold get_total_connections.
  assert (Hall : ∀ r s, _rooms w !! r = Some s → s = ∅).
  { intros r s Hs. specialize (Hw r). unfold sessions in Hw. by rewrite Hs in Hw. }
  revert Hall. generalize (_rooms w). intros rooms.
  apply (map_fold_weak_ind
           (λ n (m : gmap string (gset nat)),
              (∀ r s, m !! r = Some s → s = ∅) → n = 0)); [done|].
  intros r s m n Hr IH Hall.
  rewrite (Hall r s) by apply lookup_insert_eq.
  rewrite size_empty. simpl. apply IH. intros r' s' Hs'.
  apply (Hall r'). rewrite lookup_insert_ne; [done|]. intros ->. congruence.
Qed.

(** X3. No entry of the registry is ever deleted, and no session ever
    counted.  After any sequence of registry operations every room that
    had an entry still has one, so the number of rooms the health check
    reports never goes down; no room has gained a session; and from a
    registry without sessions the number of connections it reports is 0
    throughout. *)
Theorem X3_entries_never_deleted ops w :
  let w' := run_ops ops w in
  dom (_rooms w) ⊆ dom (_rooms w') ∧
  get_room_count w ≤ get_room_count w' ∧
  (∀ r, sessions w' r ⊆ sessions w r) ∧
  (unpopulated w → unpopulated w' ∧ get_total_connections w' = 0).
Proof.
  intros w'. split_and!.
  - apply run_ops_dom.
  - unfold get_room_count. rewrite <- !size_dom.
    apply subseteq_size, run_ops_dom.
  - intros r. apply run_ops_sessions.
  - intros Hw. pose proof (run_ops_unpopulated ops w Hw) as Hw'.
    split; [done|]. by apply total_connections_unpopulated.
Qed.

(** ** websocket/manager.py: broadcast_json *)




(** ** websocket/handler.py: control messages *)

Lemma receive_loop_frame room_code user p mode message inbox w w' mode' :
  handle_message room_code user p mode message w = (w', Ok mode') →
  receive_loop room_code user p (Frame message :: inbox) mode w
  = receive_loop room_code user p inbox mode' w'.
Proof.
  intros Hm. simpl. unfold mbind at 1, M_bind at 1, mret at 1, M_ret at 1.
  by rewrite (bind_Ok _ _ _ _ _ Hm).
Qed.

Lemma receive_loop_frame_raises room_code user p mode message inbox w w' e :
  handle_message room_code user p mode message w = (w', Raise e) →
  receive_loop room_code user p (Frame message :: inbox) mode w = (w', Raise e).
Proof.
  intros Hm. simpl. unfold mbind at 1, M_bind at 1, mret at 1, M_ret at 1.
  by rewrite (bind_Raise _ _ _ _ _ Hm).
Qed.

(** What a direct send appends: the send, and a warning if it raised. *)
Lemma send_to_participant_events p data w :
  ∃ ok warn,
    send_to_participant p data w
      = (after_events w (ESendJson (ws_of w p) data ok :: warn), Ok ()) ∧
    Forall (λ e, is_send e = false) warn ∧
    ok = negb (ws_send_json_raises (length (trace w)) (ws_of w p) data).
Proof.
  destruct (send_to_participant_run p data w) as (evs & Hrun & [[-> Hr]|[-> Hr]]).
  - exists true, []. rewrite Hr. by split_and!.
  - exists false, [ELog WARNING "Failed to send"]. rewrite Hr.
    split_and!; [done| |done]. by repeat constructor.
Qed.

(** X7. A change_mode message naming a legal mode (or naming none, when
    the session's current mode is legal) rewrites the mode of the
    participant object itself, so that every roster built afterwards
    shows it, and the loop carries the new mode into the following
    frames.  The change is acknowledged to the sender alone: mode_changed
    is the only send, nothing is broadcast, and the registry and the
    other participant objects are untouched. *)
Theorem X7_change_mode room_code user p mode s data new_mode w :
  json_loads s = Some (JDict data) →
  data !! "type" = Some (JString "change_mode") →
  default (JString mode) (data !! "mode") = JString new_mode →
  new_mode ∈ legal_modes →
  ∃ ok warn,
    let w' := after_events (with_language_mode w p new_mode)
                (ESendJson (ws_of w p) (mode_changed new_mode) ok :: warn) in
    handle_message room_code user p mode (text_frame s) w = (w', Ok new_mode) ∧
    Forall (λ e, is_send e = false) warn ∧
    _rooms w' = _rooms w ∧
    (∀ o, objs w !! p = Some o →
          objs w' !! p = Some (set_language_mode new_mode o)) ∧
    (∀ q, q ≠ p → objs w' !! q = objs w !! q) ∧
    (∀ r o, p ∈ sessions w r → objs w !! p = Some o →
            {| re_user_id := user_id o; re_username := username o;
               re_language_mode := new_mode |} ∈ roster w' r) ∧
    ∀ inbox,
      receive_loop room_code user p (Frame (text_frame s) :: inbox) mode w
      = receive_loop room_code user p inbox new_mode w'.
Proof.
  intros Hjson Htype Hmode Hlegal.
  destruct (send_to_participant_events p (mode_changed new_mode)
              (with_language_mode w p new_mode)) as (ok & warn & Hsend & Hwarn & _).
  assert (Hws : ws_of (with_language_mode w p new_mode) p = ws_of w p).
  { unfold ws_of, with_language_mode. simpl.
    destruct (objs w !! p) as [o|] eqn:Ho.
    - rewrite (lookup_total_correct _ _ _ Ho).
      by erewrite lookup_total_correct by (rewrite lookup_alter_eq, Ho; done).
    - rewrite !lookup_total_alt. by rewrite lookup_alter_eq, Ho. }
  rewrite Hws in Hsend.
  exists ok, warn. cbv zeta.
  assert (Hm : handle_message room_code user p mode (text_frame s) w
               = (after_events (with_language_mode w p new_mode)
                    (ESendJson (ws_of w p) (mode_changed new_mode) ok :: warn),
                  Ok new_mode)).
  { unfold handle_message, text_frame. simpl. unfold process_text.
    rewrite Hjson, Htype. simpl. rewrite ?decide_True by done. rewrite Hmode.
    rewrite bool_decide_eq_true_2 by done.
    unfold mbind at 1, M_bind at 1, set_obj.
    fold (with_language_mode w p new_mode).
    by rewrite (bind_Ok _ _ _ _ _ Hsend). }
  split_and!; try done.
  - intros o Ho. simpl. by rewrite lookup_alter_eq, Ho.
  - intros q Hq. simpl. by rewrite lookup_alter_ne.
  - intros r o Hp Ho. unfold roster. apply list_elem_of_fmap. exists p. split.
    + simpl. erewrite lookup_total_correct by (rewrite lookup_alter_eq, Ho; done).
      done.
    + by apply elem_of_elements.
  - intros inbox. by apply receive_loop_frame.
Qed.

(** X8. Frames the loop passes over: a frame with neither bytes nor
    text, text that is not JSON, an object whose type is neither
    change_mode nor ping (or is missing), and a change_mode whose mode is
    not a legal one.  Each leaves the world and the session's mode as
    they were, with nothing sent back. *)
Theorem X8_ignored_frames room_code user p mode w :
  handle_message room_code user p mode {| msg_bytes := None; msg_text := None |} w
    = (w, Ok mode) ∧
  (∀ s, json_loads s = None →
        handle_message room_code user p mode (text_frame s) w = (w, Ok mode)) ∧
  (∀ s data,
     json_loads s = Some (JDict data) →
     default (JString "") (data !! "type") ≠ JString "change_mode" →
     default (JString "") (data !! "type") ≠ JString "ping" →
     handle_message room_code user p mode (text_frame s) w = (w, Ok mode)) ∧
  (∀ s data,
     json_loads s = Some (JDict data) →
     data !! "type" = Some (JString "change_mode") →
     (∀ m, default (JString mode) (data !! "mode") = JString m → m ∉ legal_modes) →
     handle_message room_code user p mode (text_frame s) w = (w, Ok mode)).
Proof.
  split_and!.
  - done.
  - intros s Hjson. unfold handle_message, text_frame. simpl.
    unfold process_text. by rewrite Hjson.
  - intros s data Hjson Hc Hp. unfold handle_message, text_frame. simpl.
    unfold process_text. rewrite Hjson. simpl.
    by rewrite ?decide_False by done.
  - intros s data Hjson Htype Hmode. unfold handle_message, text_frame. simpl.
    unfold process_text. rewrite Hjson, Htype. simpl.
    rewrite ?decide_True by done.
    destruct (default (JString mode) (data !! "mode")) as [m|] eqn:Hm; [|done].
    by rewrite bool_decide_eq_false_2 by (by apply Hmode).
Qed.

(** X9. A ping is answered with one pong, sent to the sender alone; the
    mode, the registry and the participant objects stay as they were, and
    a pong that cannot be sent costs a warning, not the session. *)
Theorem X9_ping_pong room_code user p mode s data w :
  json_loads s = Some (JDict data) →
  data !! "type" = Some (JString "ping") →
  ∃ ok warn,
    handle_message room_code user p mode (text_frame s) w
      = (after_events w (ESendJson (ws_of w p) pong ok :: warn), Ok mode) ∧
    Forall (λ e, is_send e = false) warn ∧
    ok = negb (ws_send_json_raises (length (trace w)) (ws_of w p) pong).
Proof.
  intros Hjson Htype.
  destruct (send_to_participant_events p pong w) as (ok & warn & Hsend & Hwarn & Hok).
  exists ok, warn. split_and!; [|done..].
  unfold handle_message, text_frame. simpl. unfold process_text.
  rewrite Hjson, Htype. simpl. rewrite ?decide_False by done.
  rewrite ?decide_True by done. by rewrite (bind_Ok _ _ _ _ _ Hsend).
Qed.

(** X10. Frames that end the session.  A frame whose dict has the key
    bytes with value [None] raises TypeError at [len], whatever its text;
    a frame with the key text and value [None] raises TypeError in
    [json.loads]; text that is JSON but not an object raises
    AttributeError at [data.get].  None of the three is caught in the
    loop, and the frames behind it stay unread: the handler logs the
    error and teardown runs, which raises TypeError at the [discard] when
    the room has an entry and logs the disconnect when it has none. *)
Theorem X10_fatal_frames room_code user p mode inbox w :
  let ends m cls :=
    handle_message room_code user p mode m w = (w, Raise (Exception_ cls)) ∧
    receive_loop room_code user p (Frame m :: inbox) mode w
      = (w, Raise (Exception_ cls)) ∧
    serve room_code user p (Frame m :: inbox) mode w
      = match _rooms w !! room_code with
        | Some _ =>
            (after_events w [ELog ERROR "WS error"], Raise (Exception_ "TypeError"))
        | None =>
            (after_events w [ELog ERROR "WS error"; ELog INFO "WS disconnected"],
             Ok ())
        end in
  (∀ other, ends {| msg_bytes := Some None; msg_text := other |} "TypeError") ∧
  ends {| msg_bytes := None; msg_text := Some None |} "TypeError" ∧
  (∀ s, json_loads s = Some JNotDict → ends (text_frame s) "AttributeError").
Proof.
  intros ends.
  assert (Hends : ∀ m cls,
            handle_message room_code user p mode m w = (w, Raise (Exception_ cls)) →
            ends m cls).
  { intros m cls Hm.
    pose proof (receive_loop_frame_raises _ _ _ _ _ inbox _ _ _ Hm) as Hloop.
    split_and!; [done..|].
    by rewrite (serve_exit _ _ _ _ _ _ _ _ Hloop). }
  split_and!.
  - intros other. by apply Hends.
  - by apply Hends.
  - intros s Hjson. apply Hends. unfold handle_message, text_frame. simpl.
    unfold process_text. by rewrite Hjson.
Qed.

(** ** websocket/handler.py: the handshake *)

(** X11. A connection whose token resolves to a user, whose room is
    active and whose transport accepts does not reach the receive loop:
    the endpoint raises [TypeError] out of [connect], before its [try].
    The transport has been accepted and nothing else was done with it: no
    connection_established, no close, no frame read, no teardown.  The
    [Participant] was built under the mode stored for the user in that
    room (hi_to_en when none is stored), and no room has gained a
    session. *)
Theorem X11_handshake_ends_in_TypeError ws room_code token inbox w user room rp :
  returned (_authenticate_ws token) w = Ok (Some user) →
  db_active_room (length (trace w)) room_code = Returns (Some room) →
  db_room_participant (length (trace w)) (id user) room_code = Returns rp →
  ws_accept (length (trace w)) ws = Returns () →
  let w' := exec (websocket_meeting ws room_code token inbox) w in
  websocket_meeting ws room_code token inbox w
    = (attempted w ws room_code (id user) (name user) (persisted_mode rp),
       Raise (Exception_ "TypeError")) ∧
  trace w' = trace w ++ [EAccept ws] ∧
  objs w' !! next_obj w
    = Some {| websocket := ws; user_id := id user; username := name user;
              language_mode := persisted_mode rp |} ∧
  (∀ r, sessions w' r = sessions w r).
Proof.
  intros Hauth Hroom Hmode Hacc w'.
  apply _authenticate_ws_run in Hauth.
  assert (Hrun : websocket_meeting ws room_code token inbox w
                 = (attempted w ws room_code (id user) (name user) (persisted_mode rp),
                    Raise (Exception_ "TypeError"))).
  { unfold websocket_meeting. rewrite (bind_Ok _ _ _ _ _ Hauth).
    unfold mbind at 1, M_bind at 1, now. unfold mbind at 1, M_bind at 1.
    rewrite Hroom. unfold lift_outcome, mret at 1, M_ret at 1.
    erewrite bind_Ok; last first.
    { rewrite _get_participant_mode_run, Hmode. reflexivity. }
    erewrite bind_Raise; [reflexivity|].
    by rewrite connect_run, Hacc. }
  unfold w', exec. rewrite Hrun. cbn [fst]. split_and!.
  - done.
  - done.
  - simpl. apply lookup_insert_eq.
  - intros r. apply sessions_attempted.
Qed.

(** ** websocket/handler.py: saving and delivering *)

Lemma _save_message_commits room_code uid original translated src tgt url conf w room :
  db_room_by_code (length (trace w)) room_code = Returns (Some room) →
  (∀ row, db_commit (length (trace w)) row = Returns ()) →
  _save_message room_code uid original translated src tgt url conf w
    = (after_events w
         [EDbCommit {| ml_room_id := room_id room; ml_user_id := uid;
                       ml_original_text := original;
                       ml_translated_text := translated;
                       ml_source_language := src; ml_target_language := tgt;
                       ml_audio_url := url; ml_confidence := conf |} true],
       Ok ()).
Proof.
  intros Hroom Hcommit. unfold _save_message. mrun. simpl.
  rewrite Hroom. simpl. by rewrite Hcommit.
Qed.

Lemma _save_message_no_room room_code uid original translated src tgt url conf w :
  db_room_by_code (length (trace w)) room_code = Returns None →
  _save_message room_code uid original translated src tgt url conf w = (w, Ok ()).
Proof.
  intros Hroom. unfold _save_message. mrun. simpl. by rewrite Hroom.
Qed.

(** X12. What is saved is what was delivered: when the room is found and
    the write goes through, the last call of the utterance is the commit
    of one row carrying the room's id, the speaker's id and exactly the
    texts, languages, audio reference and confidence of the
    [translation_result] that was sent.  When the room code is no longer
    in the database the utterance is delivered all the same and nothing
    is written, without an error. *)
Theorem X12_saved_as_delivered room_code user p mode audio w w1 tr :
  100 ≤ length audio →
  transcribe_audio audio w = (w1, Ok tr) →
  forallb isspace (tr_text tr) = false →
  tr_language tr ≠ "auto" →
  ∃ translated src tgt url pre att ok warn,
    let data := translation_result (id user) (name user) (tr_text tr) translated
                                   src tgt url (tr_confidence tr) in
    let delivered := pre ++ (send_event w data <$> att)
                       ++ [ESendJson (ws_of w p) data ok] ++ warn in
    Forall (λ e, is_send e = false) pre ∧
    Forall (λ e, is_send e = false) warn ∧
    att.*1 = elements (sessions w room_code) ∧
    (∀ room,
       (∀ t, db_room_by_code t room_code = Returns (Some room)) →
       (∀ t row, db_commit t row = Returns ()) →
       returned (process_audio room_code user p mode audio) w = Ok () ∧
       trace (exec (process_audio room_code user p mode audio) w)
         = trace w ++ delivered
             ++ [EDbCommit {| ml_room_id := room_id room; ml_user_id := id user;
                              ml_original_text := tr_text tr;
                              ml_translated_text := translated;
                              ml_source_language := src;
                              ml_target_language := tgt;
                              ml_audio_url := url;
                              ml_confidence := tr_confidence tr |} true]) ∧
    ((∀ t, db_room_by_code t room_code = Returns None) →
       returned (process_audio room_code user p mode audio) w = Ok () ∧
       trace (exec (process_audio room_code user p mode audio) w)
         = trace w ++ delivered).
Proof.
  intros Hlen Htr Htext Hlang.
  destruct (process_audio_deliver room_code user p mode audio w w1 tr
              Hlen Htr Htext (resolve_languages_not_auto _ _ _ Hlang))
    as (w2 & w3 & translated & src & tgt & url & pre & att & direct & wd & post
        & r & _ & _ & _ & _ & _ & -> & Hpre & Hatt & Hdirect & Hwd
        & Hsave & _ & _ & Hrun).
  cbv zeta in Hatt, Hdirect. rewrite <- Hsave in Hrun. clear Hsave.
  set (data := result_data user (tr_text tr) translated src tgt url
                           (tr_confidence tr)) in *.
  assert (∃ ok warn, direct = [ESendJson (ws_of w p) data ok] ++ warn ∧
                     Forall (λ e, is_send e = false) warn)
    as (ok & warn & -> & Hwarn).
  { destruct Hdirect as [->|[-> _]].
    - by exists true, [].
    - exists false, [ELog WARNING "Failed to send"]. split; [done|].
      by repeat constructor. }
  exists translated, src, tgt, url, pre, att, ok, warn. cbv zeta.
  change (translation_result _ _ _ _ _ _ _ _) with data.
  split_and!; try done.
  - rewrite Hatt. apply attempts_fst_None.
  - intros room Hroom Hcommit. unfold returned, exec. rewrite Hrun.
    rewrite (_save_message_commits _ _ _ _ _ _ _ _ _ room) by done.
    rewrite Hwd. simpl. split; [done|]. by rewrite <- ?app_assoc.
  - intros Hroom. unfold returned, exec. rewrite Hrun.
    rewrite _save_message_no_room by done.
    rewrite Hwd. simpl. split; [done|]. by rewrite <- ?app_assoc.
Qed.

(** ** services/transcription.py *)

Lemma lstrip_suffix (s : pystr) : ∃ pre, s = pre ++ lstrip s.
Proof.
  induction s as [|c s [pre IH]]; simpl; [by exists []|].
  destruct (isspace c); [|by exists []].
  exists (c :: pre). simpl. by rewrite <- IH.
Qed.

Lemma lstrip_idemp (s : pystr) : lstrip (lstrip s) = lstrip s.
Proof.
  induction s as [|c s IH]; simpl; [done|].
  destruct (isspace c) eqn:Hc; [done|]. simpl. by rewrite Hc.
Qed.

(** [strip] leaves what it returns alone: a stripped text has no
    whitespace at either end. *)
Lemma strip_idemp (s : pystr) : strip (strip s) = strip s.
Proof.
  unfold strip, rstrip.
  remember (lstrip s) as a eqn:Ha.
  remember (lstrip (reverse a)) as b eqn:Hb.
  assert (lstrip (reverse b) = reverse b) as Hfix.
  { destruct (lstrip_suffix (reverse a)) as [pre Hpre]. rewrite <- Hb in Hpre.
    assert (a = reverse b ++ reverse pre) as Hrev
      by (by rewrite <- reverse_app, <- Hpre, reverse_involutive).
    destruct (reverse b) as [|c t]; [done|]. simpl.
    symmetry in Ha. rewrite Hrev in Ha. simpl in Ha.
    by rewrite (lstrip_head _ _ _ Ha). }
  rewrite Hfix, reverse_involutive. subst b. by rewrite lstrip_idemp.
Qed.

(** X14. [transcribe_audio] always returns, and the text it returns is
    stripped already, so the handler's test of [original_text.strip()]
    is a test for the empty string.  When Whisper raises, the result is
    the empty text in language en with confidence 0, and the segment is
    dropped by the handler like a silent one: no call follows the failed
    transcription and the loop goes on. *)
Theorem X14_transcription_never_raises room_code user p mode audio w :
  ∃ w1 tr,
    transcribe_audio audio w = (w1, Ok tr) ∧
    strip (tr_text tr) = tr_text tr ∧
    truthy (strip (tr_text tr)) = truthy (tr_text tr) ∧
    (∀ res, whisper_transcribe (length (trace w)) audio = Returns res →
       tr = {| tr_text := strip (default [] (wr_text res));
               tr_language := default "en" (wr_language res);
               tr_confidence := default 0%Q (wr_segments_confidence res) |}) ∧
    (∀ cls, whisper_transcribe (length (trace w)) audio = Raises cls →
       tr = {| tr_text := []; tr_language := "en"; tr_confidence := 0%Q |} ∧
       w1 = after_events w [ETranscribe audio; ELog ERROR "Transcription failed"] ∧
       (100 ≤ length audio →
        process_audio room_code user p mode audio w = (w1, Ok ()))).
Proof.
  destruct (transcribe_audio audio w) as [w1 r] eqn:Hrun.
  assert (Hcases :
    (∃ res, whisper_transcribe (length (trace w)) audio = Returns res ∧
       r = Ok {| tr_text := strip (default [] (wr_text res));
                 tr_language := default "en" (wr_language res);
                 tr_confidence := default 0%Q (wr_segments_confidence res) |}) ∨
    (∃ cls, whisper_transcribe (length (trace w)) audio = Raises cls ∧
       r = Ok {| tr_text := []; tr_language := "en"; tr_confidence := 0%Q |} ∧
       w1 = after_events w [ETranscribe audio; ELog ERROR "Transcription failed"])).
  { revert Hrun. unfold transcribe_audio. mrun. simpl.
    destruct (whisper_transcribe _ _) as [res|cls]; simpl; intros [= <- <-].
    - left. eauto.
    - right. exists cls. split_and!; [done..|].
      unfold after_events. simpl. by rewrite <- app_assoc. }
  destruct Hcases as [(res & Hres & ->)|(cls & Hcls & -> & Hw1)].
  - eexists w1, _. split; [done|]. simpl. rewrite strip_idemp.
    split_and!; [done|done| |].
    + intros res' Hres'. rewrite Hres in Hres'. by injection Hres' as <-.
    + intros cls Hcls. by rewrite Hres in Hcls.
  - eexists w1, _. split; [done|]. simpl. split_and!; [done|done| |].
    + intros res Hres. by rewrite Hcls in Hres.
    + intros cls' _. split_and!; [done|done|]. intros Hlen.
      by apply (process_audio_blank _ _ _ _ _ _ _ _ Hrun).
Qed.

(** ** services/translation.py *)

(** X15. [detect_language] answers hi or en and nothing else: hi for the
    four codes of the Devanagari family, en for every other code and when
    langdetect gives up with a LangDetectException.  Any other exception
    of langdetect is not caught and leaves the function.  It calls
    nothing else and changes nothing. *)
Theorem X15_detect_language text w :
  exec (detect_language text) w = w ∧
  (∀ lang, langdetect_detect (length (trace w)) text = Returns lang →
     returned (detect_language text) w
       = Ok (if bool_decide (lang ∈ ["hi"; "mr"; "ne"; "sa"]) then "hi" else "en")) ∧
  (langdetect_detect (length (trace w)) text = Raises "LangDetectException" →
     returned (detect_language text) w = Ok "en") ∧
  (∀ cls, cls ≠ "LangDetectException" →
     langdetect_detect (length (trace w)) text = Raises cls →
     returned (detect_language text) w = Raise (Exception_ cls)) ∧
  (∀ lang, returned (detect_language text) w = Ok lang → lang = "hi" ∨ lang = "en") ∧
  returned (detect_language text) w ≠ Blocked.
Proof.
  unfold detect_language. mrun. simpl.
  destruct (langdetect_detect _ _) as [lang|cls] eqn:Hd; simpl.
  - destruct (bool_decide _) eqn:Hb; simpl;
      (split_and!; [done| |done|done| |done]).
    + intros lang' [= <-]. by rewrite Hb.
    + intros ? [= <-]. by left.
    + intros lang' [= <-]. by rewrite Hb.
    + intros ? [= <-]. by right.
  - destruct (decide (Exception_ cls = Exception_ "LangDetectException"))
      as [[= ->]|Hne]; simpl.
    + split_and!; try done.
      * intros cls Hcls [= <-]. done.
      * intros ? [= <-]. by right.
    + split_and!; try done.
      * intros [= ->]. done.
      * by intros cls' _ [= <-].
Qed.

Lemma detect_language_run text w :
  ∃ r, detect_language text w = (w, r) ∧ r ≠ Blocked ∧
       ∀ lang, r = Ok lang → lang = "hi" ∨ lang = "en".
Proof.
  unfold detect_language. mrun. simpl.
  destruct (langdetect_detect _ _) as [lang|cls]; simpl.
  - destruct (bool_decide _); eexists; (split; [done|]); split; try done;
      intros ? [= <-]; auto.
  - destruct (decide _); simpl; eexists; (split; [done|]); split; try done.
    intros ? [= <-]; auto.
Qed.

Lemma flipped_target_differs source target :
  flipped_target source target ≠ source.
Proof.
  unfold flipped_target. repeat case_decide; subst; try done; congruence.
Qed.

(** X16. [translate_text] never returns a pair of equal languages for a
    text that is not blank: when source and target coincide the target
    becomes en for source hi and hi for any other source.  The source it
    returns is the one given, or for "auto" the hi or en that
    [detect_language] answered, never "auto" itself; a target that
    differs from the source is kept.  With a source other than "auto" it
    always returns, whatever the translator does.  For a blank text it
    returns the empty text and the languages as given, with no call. *)
Theorem X16_translate_text_languages text source target w :
  (blank text = true →
     translate_text text source target w = (w, Ok ([], source, target))) ∧
  (blank text = false →
     returned (translate_text text source target) w ≠ Blocked ∧
     (source ≠ "auto" →
        ∃ translated, returned (translate_text text source target) w
                      = Ok (translated, source, flipped_target source target)) ∧
     (∀ translated src tgt,
        returned (translate_text text source target) w = Ok (translated, src, tgt) →
        src ≠ tgt ∧ src ≠ "auto" ∧
        (source = "auto" → src = "hi" ∨ src = "en") ∧
        tgt = flipped_target src target ∧
        (src ≠ target → tgt = target))).
Proof.
  split.
  { intros Hb. unfold translate_text. by rewrite Hb. }
  intros Hb.
  assert (Hknown : ∀ src, src ≠ "auto" →
            ∃ translated, returned (translate_text text src target) w
                          = Ok (translated, src, flipped_target src target)).
  { intros src Hsrc.
    destruct (translate_text_run text src target w Hb Hsrc) as (level & msg & Hrun).
    unfold returned. rewrite Hrun. eauto. }
  assert (Hflip : ∀ src, src ≠ target → flipped_target src target = target).
  { intros src Hne. unfold flipped_target. by rewrite decide_False. }
  destruct (decide (source = "auto")) as [->|Hsrc].
  - assert (Hauto : translate_text text "auto" target w =
                    match detect_language text w with
                    | (_, Ok lang) => translate_text text lang target w
                    | (w', Raise e) => (w', Raise e)
                    | (w', Blocked) => (w', Blocked)
                    end).
    { destruct (detect_language_run text w) as (r & Hdet & Hnb & Hlang).
      rewrite Hdet. unfold translate_text at 1. rewrite Hb.
      rewrite decide_True by done. unfold mbind at 1, M_bind at 1. rewrite Hdet.
      destruct r as [lang| |]; [|done|done].
      unfold translate_text. rewrite Hb.
      destruct (Hlang lang eq_refl) as [-> | ->];
        (destruct (decide (_ = "auto")) as [Hx|_]; [discriminate Hx|reflexivity]). }
    destruct (detect_language_run text w) as (r & Hdet & Hnb & Hlang).
    rewrite Hdet in Hauto. unfold returned. rewrite Hauto.
    destruct r as [lang|e|]; [|by split_and!|by split_and!].
    assert (lang ≠ "auto") as Hl by (destruct (Hlang lang eq_refl) as [-> | ->]; done).
    destruct (Hknown lang Hl) as (translated & Hret). unfold returned in Hret.
    rewrite Hret. split_and!; try done.
    intros translated' src tgt [= <- <- <-].
    split_and!; [|done| |done|apply Hflip].
    + intros Heq. by apply (flipped_target_differs lang target).
    + intros _. by apply Hlang.
  - destruct (Hknown source Hsrc) as (translated & Hret).
    rewrite Hret. split_and!; [done|eauto|].
    intros translated' src tgt [= <- <- <-].
    split_and!; [|done|done|done|apply Hflip].
    intros Heq. by apply (flipped_target_differs source target).
Qed.

(** ** services/tts.py *)

Lemma VOICES_get language :
  default (VOICES !!! "en") (VOICES !! language)
  = if decide (language = "hi") then "hi-IN-SwaraNeural" else "en-US-AriaNeural".
Proof.
  unfold VOICES.
  destruct (decide (language = "en")) as [->|Hen].
  { by rewrite lookup_insert. }
  rewrite lookup_insert_ne by done.
  destruct (decide (language = "hi")) as [->|Hhi].
  - by rewrite lookup_singleton.
  - by rewrite lookup_singleton_ne.
Qed.

(** X17. [synthesize_speech] never raises.  For a blank text it returns
    the empty URL and calls nothing.  Otherwise it makes one call to
    edge-tts, with the Hindi voice for language hi and the English voice
    for every other language, known or not, and a file name made of a
    fresh uuid; the URL it returns is "/static/audio/" followed by that
    very file name when the call returns, and the empty string when it
    raises. *)
Theorem X17_synthesize_speech text language w :
  let voice := if decide (language = "hi")
               then "hi-IN-SwaraNeural" else "en-US-AriaNeural" in
  let filename := uuid4_hex (length (trace w)) +:+ ".mp3" in
  let filepath := os_path_join AUDIO_DIR filename in
  (blank text = true → synthesize_speech text language w = (w, Ok "")) ∧
  (blank text = false →
     ∃ level msg,
       synthesize_speech text language w
       = (after_events w [ESynthesize text voice filepath; ELog level msg],
          Ok (match edge_tts_save (length (trace w)) text voice filepath with
              | Returns _ => "/static/audio/" +:+ filename
              | Raises _ => ""
              end))).
Proof.
  intros voice filename filepath. split; intros Hb.
  - unfold synthesize_speech. by rewrite Hb.
  - unfold synthesize_speech. rewrite Hb, VOICES_get.
    fold voice. mrun. simpl. fold filename filepath.
    destruct (edge_tts_save _ _ _ _) as [[]|cls]; simpl;
      unfold after_events; simpl; rewrite <- ?app_assoc; simpl; eauto.
Qed.

(** ** websocket/handler.py: the language pair of an utterance *)

(** X18. A confidence of 0.5 or less, 0.5 itself included, leaves the
    detected language out of it: the pair is hi to en for a session in
    mode hi_to_en and en to hi for a session in any other mode, whatever
    string that mode is.  These two languages are the ones the translator
    is asked for and the ones every [translation_result] of the utterance
    carries, to the room and to the speaker. *)
Theorem X18_low_confidence_follows_mode room_code user p mode audio w w1 tr :
  100 ≤ length audio →
  transcribe_audio audio w = (w1, Ok tr) →
  forallb isspace (tr_text tr) = false →
  (tr_confidence tr <= 1 # 2)%Q →
  let src := if decide (mode = "hi_to_en") then "hi" else "en" in
  let tgt := if decide (mode = "hi_to_en") then "en" else "hi" in
  resolve_languages mode (tr_language tr) (tr_confidence tr) = (src, tgt) ∧
  ∃ w2 url pre att ok rest,
    let translated :=
      translation_of (tr_text tr)
        (GoogleTranslator_translate (length (trace w1)) src tgt (tr_text tr)) in
    let data := translation_result (id user) (name user) (tr_text tr) translated
                                   src tgt url (tr_confidence tr) in
    translate_text (tr_text tr) src tgt w1 = (w2, Ok (translated, src, tgt)) ∧
    trace (exec (process_audio room_code user p mode audio) w)
      = trace w ++ pre ++ (send_event w data <$> att)
          ++ ESendJson (ws_of w p) data ok :: rest ∧
    Forall (λ e, is_send e = false) pre ∧
    Forall (λ e, is_send e = false) rest ∧
    att.*1 = elements (sessions w room_code).
Proof.
  intros Hlen Htr Htext Hc src tgt.
  assert (Hq : Qlt_bool (1 # 2) (tr_confidence tr) = false).
  { apply not_true_iff_false. rewrite Qlt_bool_iff. by apply Qle_not_lt. }
  assert (Hres : resolve_languages mode (tr_language tr) (tr_confidence tr)
                 = (src, tgt)).
  { unfold resolve_languages, src, tgt. rewrite Hq. by case_decide. }
  split; [done|].
  assert (Hflip : flipped_target src tgt = tgt).
  { unfold flipped_target, src, tgt.
    destruct (decide (mode = "hi_to_en")); reflexivity. }
  destruct (process_audio_trace room_code user p mode audio w w1 tr
              Hlen Htr Htext) as (w2 & w3 & url & pre & att & ok & rest & Hall).
  { rewrite Hres. simpl. unfold src. by case_decide. }
  cbv zeta in Hall. rewrite Hres in Hall. cbn [fst snd] in Hall.
  rewrite Hflip in Hall.
  destruct Hall as (Htrans & _ & Htrace & _ & Hpre & Hatt & _ & Hrest & _).
  exists w2, url, pre, att, ok, rest. cbv zeta.
  split_and!; [exact Htrans|exact Htrace|done|done|].
  rewrite Hatt. apply attempts_fst_None.
Qed.

End Further.

(** * Properties of the room service *)

Section RoomService.
Import room_service.
Context `{Host}.

Ltac txunfold :=
  unfold get_room_by_code in *;
  unfold mbind, Tx_bind, mret, Tx_ret, lift, clock, logger_info, select_room,
    select_participant, count_participants, update_participant, update_room,
    assign_participant, flush in *.

(** ** Queries on a table with a unique key *)

Lemma filter_unique_none {A K} (key : A → K) (P : A → Prop) `{∀ x, Decision (P x)}
    (k : K) (l : list A) :
  (∀ x, P x → key x = k) → k ∉ key <$> l → filter P l = [].
Proof.
  intros HP Hk. induction l as [|a l IH]; [done|].
  rewrite fmap_cons, not_elem_of_cons in Hk. destruct Hk as [Hka Hk].
  rewrite filter_cons_False; [by apply IH|].
  intros Ha. apply Hka. symmetry. by apply HP.
Qed.

Lemma filter_unique_elem {A K} (key : A → K) (P : A → Prop) `{∀ x, Decision (P x)}
    (l : list A) (x : A) :
  NoDup (key <$> l) → x ∈ l → P x → (∀ y, P y → key y = key x) → filter P l = [x].
Proof.
  intros Hnd Hx HPx HP. induction l as [|a l IH]; [by apply elem_of_nil in Hx|].
  rewrite fmap_cons in Hnd. apply NoDup_cons in Hnd as [Ha Hnd].
  apply elem_of_cons in Hx as [->|Hx].
  - rewrite filter_cons_True by done.
    by rewrite (filter_unique_none key P (key a) l HP Ha).
  - rewrite filter_cons_False; [by apply IH|].
    intros HPa. apply Ha. rewrite (HP a HPa). by apply list_elem_of_fmap_2.
Qed.

(** On a table with a unique key, a query that fixes the key finds no row
    or one row: [scalar_one_or_none] does not raise. *)
Lemma filter_unique {A K} (key : A → K) (P : A → Prop) `{∀ x, Decision (P x)}
    (k : K) (l : list A) :
  NoDup (key <$> l) → (∀ x, P x → key x = k) →
  filter P l = [] ∨ ∃ x, filter P l = [x] ∧ x ∈ l ∧ P x.
Proof.
  intros Hnd HP. destruct (filter P l) as [|x rest] eqn:Hf; [by left|right].
  assert (x ∈ filter P l) as Hx by (rewrite Hf; apply list_elem_of_here).
  apply list_elem_of_filter in Hx as [HPx Hx].
  exists x. split_and!; [|done..].
  rewrite <- Hf. apply (filter_unique_elem key P l x Hnd Hx HPx).
  intros y HPy. by rewrite (HP y HPy), (HP x HPx).
Qed.

(** Writing to the row with primary key [pk] changes that row alone. *)
Lemma update_unique {A} (pk : A → Z) (f : A → A) (l : list A) (x : A) :
  NoDup (pk <$> l) → x ∈ l →
  ∃ l1 l2, l = l1 ++ x :: l2 ∧
    (λ y, if decide (pk y = pk x) then f y else y) <$> l = l1 ++ f x :: l2.
Proof.
  intros Hnd Hx. apply list_elem_of_split in Hx as (l1 & l2 & ->).
  exists l1, l2. split; [done|].
  rewrite fmap_app, fmap_cons in Hnd.
  apply NoDup_app in Hnd as (_ & Hl1 & Hnd). apply NoDup_cons in Hnd as [Hl2 _].
  rewrite fmap_app, fmap_cons. rewrite decide_True by done.
  f_equal; [|f_equal].
  - rewrite <- (list_fmap_id l1) at 2. apply list_fmap_ext. intros i y Hy. simpl.
    rewrite decide_False; [done|]. intros Heq.
    apply (Hl1 (pk x)); [|apply list_elem_of_here].
    rewrite <- Heq. apply list_elem_of_fmap_2. by eapply list_elem_of_lookup_2.
  - rewrite <- (list_fmap_id l2) at 2. apply list_fmap_ext. intros i y Hy. simpl.
    rewrite decide_False; [done|]. intros Heq. apply Hl2.
    rewrite <- Heq. apply list_elem_of_fmap_2. by eapply list_elem_of_lookup_2.
Qed.

(** ** _generate_room_code *)

Lemma list_ascii_of_string_app (s1 s2 : string) :
  String.list_ascii_of_string (s1 +:+ s2)
  = String.list_ascii_of_string s1 ++ String.list_ascii_of_string s2.
Proof. induction s1 as [|c s1 IH]; simpl; [done|]. by rewrite IH. Qed.

Lemma length_choices t first n : length (choices t first n) = n.
Proof. unfold choices. by rewrite length_fmap, length_seq. Qed.

Lemma lookup_choices t first n i :
  i < n → choices t first n !! i = Some (secrets_choice t (first + i) chars).
Proof.
  intros Hi. unfold choices. rewrite list_lookup_fmap, lookup_seq_lt by done. done.
Qed.

Lemma room_code_chars t (length : Z) :
  String.list_ascii_of_string (_generate_room_code t length)
  = choices t 0 (Z.to_nat (length / 2)) ++ [Ascii.ascii_of_nat 45]
      ++ choices t (Z.to_nat (length / 2)) (Z.to_nat (length / 2)).
Proof.
  unfold _generate_room_code. cbv zeta.
  rewrite !list_ascii_of_string_app, !String.list_ascii_of_string_of_list_ascii.
  done.
Qed.

(** X19. A room code has a dash in the middle and [length // 2] draws of
    the random source on either side of it, each draw used once and in
    order: it is [2 * (length // 2) + 1] characters long, nine for the
    length 8 that [create_room] asks for, and one, the dash alone, for a
    length below 2.  When the random source draws from the sequence it is
    given, every character but the dash is an upper-case letter or a
    digit. *)
Theorem X19_room_code_format t (length : Z) :
  let n := Z.to_nat (length / 2) in
  let code := String.list_ascii_of_string (_generate_room_code t length) in
  List.length code = 2 * n + 1 ∧
  code !! n = Some (Ascii.ascii_of_nat 45) ∧
  (∀ i, i < n →
     code !! i = Some (secrets_choice t i chars) ∧
     code !! (n + 1 + i) = Some (secrets_choice t (n + i) chars)) ∧
  ((∀ i, secrets_choice t i chars ∈ chars) →
   ∀ i c, code !! i = Some c → i ≠ n → c ∈ chars) ∧
  (length = 8%Z → List.length code = 9) ∧
  ((length < 2)%Z → _generate_room_code t length = "-").
Proof.
  intros n code.
  assert (Hcode : code = choices t 0 n ++ [Ascii.ascii_of_nat 45] ++ choices t n n)
    by apply room_code_chars.
  assert (Hlen : List.length code = 2 * n + 1).
  { rewrite Hcode, !length_app, !length_choices. simpl. lia. }
  assert (Hdash : code !! n = Some (Ascii.ascii_of_nat 45)).
  { rewrite Hcode, lookup_app_r by (rewrite length_choices; lia).
    by rewrite length_choices, Nat.sub_diag. }
  assert (Hdraws : ∀ i, i < n →
            code !! i = Some (secrets_choice t i chars) ∧
            code !! (n + 1 + i) = Some (secrets_choice t (n + i) chars)).
  { intros i Hi. split.
    - rewrite Hcode, lookup_app_l by (rewrite length_choices; lia).
      by rewrite lookup_choices.
    - rewrite Hcode, lookup_app_r by (rewrite length_choices; lia).
      rewrite length_choices. replace (n + 1 + i - n) with (S i) by lia. simpl.
      by rewrite lookup_choices. }
  split_and!; [done|done|done| | |].
  - intros Hsound i c Hi Hne.
    assert (i < 2 * n + 1) as Hlt by (rewrite <- Hlen; by eapply lookup_lt_Some).
    destruct (decide (i < n)) as [Hfirst|Hsecond].
    + destruct (Hdraws i Hfirst) as [Hd _]. rewrite Hd in Hi.
      injection Hi as <-. apply Hsound.
    + destruct (Hdraws (i - n - 1)) as [_ Hd]; [lia|].
      replace (n + 1 + (i - n - 1)) with i in Hd by lia. rewrite Hd in Hi.
      injection Hi as <-. apply Hsound.
  - intros ->. rewrite Hlen. subst n. reflexivity.
  - intros Hsmall. unfold _generate_room_code.
    assert (Z.to_nat (length / 2) = 0) as ->.
    { assert (length / 2 ≤ 0)%Z; [|lia].
      apply Z.lt_succ_r. apply Z.div_lt_upper_bound; lia. }
    reflexivity.
Qed.

(** ** join_room *)

Lemma LanguageMode_of_legal language_mode :
  (language_mode ∈ legal_modes → ∃ mode, LanguageMode_of language_mode = Returns mode) ∧
  (language_mode ∉ legal_modes → LanguageMode_of language_mode = Raises "ValueError").
Proof.
  unfold LanguageMode_of, legal_modes. split.
  - intros Hin. repeat case_decide; eauto.
    apply list_elem_of_In in Hin. simpl in Hin. naive_solver.
  - intros Hout. repeat case_decide; subst; try done; exfalso; apply Hout;
      apply list_elem_of_In; simpl; auto.
Qed.

Lemma no_membership_no_key (l : list RoomParticipant) room_id user_id :
  filter (λ rp, rp_room_id rp = room_id ∧ rp_user_id rp = user_id) l = [] →
  (room_id, user_id) ∉ room_user <$> l.
Proof.
  intros Hf Hin. apply list_elem_of_fmap in Hin as (rp & Heq & Hrp).
  injection Heq as Hr Hu.
  assert (rp ∈ filter (λ rp, rp_room_id rp = room_id ∧ rp_user_id rp = user_id) l)
    as Hin by (apply list_elem_of_filter; split; [split|]; done).
  rewrite Hf in Hin. by apply elem_of_nil in Hin.
Qed.

(** The paths through [join_room], by what its queries find. *)
Lemma join_room_no_room user room_code language_mode db :
  filter (λ r, r_room_code r = room_code ∧ r_status r = ACTIVE) (rooms db) = [] →
  join_room user room_code language_mode db = (sent db, Returns None).
Proof. intros Hroom. unfold join_room. txunfold. by rewrite Hroom. Qed.

Lemma join_room_member user room_code language_mode room rp db :
  filter (λ r, r_room_code r = room_code ∧ r_status r = ACTIVE) (rooms db) = [room] →
  membership db (r_id room) (id user) = [rp] →
  join_room user room_code language_mode db =
    match LanguageMode_of language_mode with
    | Returns mode =>
        ({| rooms := rooms db;
            room_participants :=
              (λ x, if decide (rp_id x = rp_id rp) then rejoined mode x else x)
                <$> room_participants db;
            rooms_id_seq := rooms_id_seq db;
            room_participants_id_seq := room_participants_id_seq db;
            statements := S (S (S (statements db)));
            logged := logged db ++ ["User joined room"] |},
         Returns (Some room))
    | Raises cls =>
        ({| rooms := rooms db;
            room_participants :=
              (λ x, if decide (rp_id x = rp_id rp) then activated x else x)
                <$> room_participants db;
            rooms_id_seq := rooms_id_seq db;
            room_participants_id_seq := room_participants_id_seq db;
            statements := S (S (statements db));
            logged := logged db |},
         Raises cls)
    end.
Proof.
  unfold membership. intros Hroom Hrp. unfold join_room. txunfold.
  rewrite Hroom. simpl. rewrite Hrp. simpl.
  destruct (LanguageMode_of language_mode) as [mode|cls]; [|done].
  simpl. do 2 f_equal. rewrite <- list_fmap_compose. apply list_fmap_ext.
  intros i x _. simpl. by repeat case_decide.
Qed.

Lemma join_room_newcomer user room_code language_mode room db :
  filter (λ r, r_room_code r = room_code ∧ r_status r = ACTIVE) (rooms db) = [room] →
  membership db (r_id room) (id user) = [] →
  join_room user room_code language_mode db =
    if decide (r_max_participants room ≤ Z.of_nat (length (active_in db (r_id room))))%Z
    then (sent (sent (sent db)), Returns None)
    else match LanguageMode_of language_mode with
         | Returns mode =>
             ({| rooms := rooms db;
                 room_participants :=
                   room_participants db ++
                     [{| rp_id := room_participants_id_seq db;
                         rp_room_id := r_id room; rp_user_id := id user;
                         rp_language_mode := mode;
                         rp_joined_at := datetime_now (S (S (S (statements db))));
                         rp_is_active := true |}];
                 rooms_id_seq := rooms_id_seq db;
                 room_participants_id_seq := (room_participants_id_seq db + 1)%Z;
                 statements := S (S (S (S (statements db))));
                 logged := logged db ++ ["User joined room"] |},
              Returns (Some room))
         | Raises cls => (sent (sent (sent db)), Raises cls)
         end.
Proof.
  unfold membership, active_in. intros Hroom Hrp. unfold join_room. txunfold.
  rewrite Hroom. simpl. rewrite Hrp. simpl.
  case_decide; [done|].
  destruct (LanguageMode_of language_mode) as [mode|cls]; [|done].
  unfold add_participant. simpl.
  rewrite decide_False by by apply no_membership_no_key. done.
Qed.

(** In a database that meets its constraints the two lookups of
    [join_room] and [leave_room] find the row there is. *)
Lemma active_room_found room db :
  constraints_hold db → room ∈ rooms db → r_status room = ACTIVE →
  filter (λ r, r_room_code r = r_room_code room ∧ r_status r = ACTIVE) (rooms db)
  = [room].
Proof.
  intros (Hcodes & _) Hin Hactive.
  apply (filter_unique_elem r_room_code _ _ _ Hcodes Hin); [done|].
  by intros y [? _].
Qed.

Lemma room_found room db :
  constraints_hold db → room ∈ rooms db →
  filter (λ r, r_room_code r = r_room_code room) (rooms db) = [room].
Proof.
  intros (Hcodes & _) Hin.
  by apply (filter_unique_elem r_room_code _ _ _ Hcodes Hin).
Qed.

Lemma membership_found rp db :
  constraints_hold db → rp ∈ room_participants db →
  membership db (rp_room_id rp) (rp_user_id rp) = [rp].
Proof.
  intros (_ & _ & Hkeys & _) Hin. unfold membership.
  apply (filter_unique_elem room_user _ _ _ Hkeys Hin); [done|].
  intros y [Hr Hu]. unfold room_user. by rewrite Hr, Hu.
Qed.

(** The rows that count against the capacity, around one row. *)
Lemma active_in_split db l1 rp l2 room_id :
  room_participants db = l1 ++ rp :: l2 →
  length (active_in db room_id)
  = length (filter (λ x, rp_room_id x = room_id ∧ rp_is_active x = true) l1)
    + (if decide (rp_room_id rp = room_id ∧ rp_is_active rp = true) then 1 else 0)
    + length (filter (λ x, rp_room_id x = room_id ∧ rp_is_active x = true) l2).
Proof.
  intros Hl. unfold active_in. rewrite Hl, filter_app, filter_cons, length_app.
  case_decide; simpl; lia.
Qed.

(** X22. Someone who has a membership row in an active room, active or
    not, joins it again whatever the number of its active participants:
    the capacity is not looked at.  The row is made active and takes the
    mode asked for; no other row changes and none is added.  When the row
    was inactive the room has one more active participant than before, so
    that a full room ends up above its [max_participants]. *)
Theorem X22_rejoin_skips_capacity user language_mode mode room rp db :
  constraints_hold db →
  room ∈ rooms db → r_status room = ACTIVE →
  rp ∈ room_participants db → rp_room_id rp = r_id room → rp_user_id rp = id user →
  LanguageMode_of language_mode = Returns mode →
  let db' := ran (join_room user (r_room_code room) language_mode) db in
  answer (join_room user (r_room_code room) language_mode) db = Returns (Some room) ∧
  rooms db' = rooms db ∧
  (∃ l1 l2, room_participants db = l1 ++ rp :: l2 ∧
            room_participants db' = l1 ++ rejoined mode rp :: l2) ∧
  length (active_in db' (r_id room))
    = length (active_in db (r_id room)) + (if rp_is_active rp then 0 else 1) ∧
  (rp_is_active rp = false →
   (r_max_participants room ≤ Z.of_nat (length (active_in db (r_id room))))%Z →
   (r_max_participants room < Z.of_nat (length (active_in db' (r_id room))))%Z).
Proof.
  intros Hok Hroom Hactive Hrp Hrid Huid Hmode db'.
  pose proof (active_room_found room db Hok Hroom Hactive) as Hfound.
  pose proof (membership_found rp db Hok Hrp) as Hmember.
  rewrite Hrid, Huid in Hmember.
  pose proof (join_room_member user _ language_mode room rp db Hfound Hmember) as Hrun.
  rewrite Hmode in Hrun.
  destruct Hok as (_ & _ & _ & Hids & _).
  destruct (update_unique rp_id (rejoined mode) _ rp Hids Hrp)
    as (l1 & l2 & Hsplit & Hupdate).
  assert (Hrows : room_participants db' = l1 ++ rejoined mode rp :: l2).
  { unfold db', ran. rewrite Hrun. simpl. exact Hupdate. }
  assert (Hcount : length (active_in db' (r_id room))
                   = length (active_in db (r_id room))
                     + (if rp_is_active rp then 0 else 1)).
  { rewrite (active_in_split db' l1 (rejoined mode rp) l2 _ Hrows).
    rewrite (active_in_split db l1 rp l2 _ Hsplit). simpl.
    rewrite decide_True by done.
    destruct (rp_is_active rp); [rewrite decide_True by done|
                                 rewrite decide_False by naive_solver]; lia. }
  split_and!.
  - unfold answer. by rewrite Hrun.
  - unfold db', ran. by rewrite Hrun.
  - by exists l1, l2.
  - done.
  - intros Hinactive Hfull. rewrite Hcount, Hinactive. lia.
Qed.

(** X21. Someone without a membership row joins an active room when it
    has fewer active participants than [max_participants], and is
    refused with [None], nothing written, when it has as many or more;
    a full room refuses before the language mode is looked at.  On
    joining, one row is appended, active and in the mode asked for, and
    the room's active participants are one more, at most
    [max_participants]; a mode that is neither hi_to_en nor en_to_hi
    raises ValueError and writes nothing. *)
Theorem X21_newcomer_capacity user language_mode room db :
  constraints_hold db →
  room ∈ rooms db → r_status room = ACTIVE →
  membership db (r_id room) (id user) = [] →
  let db' := ran (join_room user (r_room_code room) language_mode) db in
  let result := answer (join_room user (r_room_code room) language_mode) db in
  let active := Z.of_nat (length (active_in db (r_id room))) in
  rooms db' = rooms db ∧
  ((r_max_participants room ≤ active)%Z →
     result = Returns None ∧ room_participants db' = room_participants db) ∧
  ((active < r_max_participants room)%Z →
     (∀ mode, LanguageMode_of language_mode = Returns mode →
        result = Returns (Some room) ∧
        room_participants db'
          = room_participants db ++
              [{| rp_id := room_participants_id_seq db; rp_room_id := r_id room;
                  rp_user_id := id user; rp_language_mode := mode;
                  rp_joined_at := datetime_now (S (S (S (statements db))));
                  rp_is_active := true |}] ∧
        Z.of_nat (length (active_in db' (r_id room))) = (active + 1)%Z ∧
        (Z.of_nat (length (active_in db' (r_id room))) ≤ r_max_participants room)%Z) ∧
     (language_mode ∉ legal_modes →
        result = Raises "ValueError" ∧ room_participants db' = room_participants db)).
Proof.
  intros Hok Hroom Hactive Hnone db' result active.
  pose proof (active_room_found room db Hok Hroom Hactive) as Hfound.
  pose proof (join_room_newcomer user _ language_mode room db Hfound Hnone) as Hrun.
  fold active in Hrun.
  split_and!.
  - unfold db', ran. rewrite Hrun. case_decide; [done|].
    by destruct (LanguageMode_of language_mode).
  - intros Hfull. unfold result, answer, db', ran. rewrite Hrun.
    by rewrite decide_True by done.
  - intros Hfree. rewrite decide_False in Hrun by lia. split.
    + intros mode Hmode. rewrite Hmode in Hrun.
      assert (Hrows : room_participants db'
                = room_participants db ++
                    [{| rp_id := room_participants_id_seq db; rp_room_id := r_id room;
                        rp_user_id := id user; rp_language_mode := mode;
                        rp_joined_at := datetime_now (S (S (S (statements db))));
                        rp_is_active := true |}])
        by (unfold db', ran; by rewrite Hrun).
      assert (Hcount : Z.of_nat (length (active_in db' (r_id room))) = (active + 1)%Z).
      { unfold active, active_in. rewrite Hrows, filter_app, length_app.
        rewrite filter_cons_True by done. simpl. lia. }
      split_and!; [|done|done|lia].
      unfold result, answer. by rewrite Hrun.
    + intros Hillegal.
      rewrite (proj2 (LanguageMode_of_legal language_mode) Hillegal) in Hrun.
      unfold result, answer, db', ran. by rewrite Hrun.
Qed.


(** X23. Without an active room of that code (no room at all, or one
    that has ended), [join_room] returns [None] after the one query for
    the room: nothing is written, for a member of the ended room as for
    anyone else, and the language mode is not looked at. *)
Theorem X23_join_needs_active_room user room_code language_mode db :
  (∀ room, room ∈ rooms db → r_room_code room = room_code → r_status room = ENDED) →
  join_room user room_code language_mode db = (sent db, Returns None).
Proof.
  intros Hended. apply join_room_no_room.
  apply elem_of_nil_inv. intros r Hr. apply list_elem_of_filter in Hr as [[Hc Hs] Hr].
  by rewrite (Hended r Hr Hc) in Hs.
Qed.

(** X24. A language mode that is neither hi_to_en nor en_to_hi.  For
    someone who has a membership row in the room [join_room] raises
    ValueError after it has set [is_active] on the loaded row: the
    session is left holding the row activated, under its old mode, and
    not flushed (two statements, the two queries, were sent).  For a
    newcomer both tables stay as they were: ValueError when the room has
    a free place, [None] when it is full, the capacity being tested
    first.  The table of rooms is never touched and nothing is logged. *)
Theorem X24_illegal_mode user language_mode room db :
  constraints_hold db →
  room ∈ rooms db → r_status room = ACTIVE →
  language_mode ∉ legal_modes →
  let db' := ran (join_room user (r_room_code room) language_mode) db in
  let result := answer (join_room user (r_room_code room) language_mode) db in
  let active := Z.of_nat (length (active_in db (r_id room))) in
  rooms db' = rooms db ∧
  logged db' = logged db ∧
  (∀ rp, membership db (r_id room) (id user) = [rp] →
     result = Raises "ValueError" ∧
     statements db' = S (S (statements db)) ∧
     ∃ l1 l2, room_participants db = l1 ++ rp :: l2 ∧
              room_participants db' = l1 ++ activated rp :: l2) ∧
  (membership db (r_id room) (id user) = [] →
     room_participants db' = room_participants db ∧
     result = if decide (r_max_participants room ≤ active)%Z
              then Returns None else Raises "ValueError").
Proof.
  intros Hok Hroom Hactive Hillegal db' result active.
  pose proof (active_room_found room db Hok Hroom Hactive) as Hfound.
  pose proof (proj2 (LanguageMode_of_legal language_mode) Hillegal) as Hmode.
  assert (Hkeys : NoDup (room_user <$> room_participants db)) by apply Hok.
  assert (Hids : NoDup (rp_id <$> room_participants db)) by apply Hok.
  destruct (filter_unique room_user
              (λ rp, rp_room_id rp = r_id room ∧ rp_user_id rp = id user)
              (r_id room, id user) (room_participants db) Hkeys)
    as [Hnone|(rp & Hone & Hrp & _)].
  { intros x [Hr Hu]. unfold room_user. by rewrite Hr, Hu. }
  - pose proof (join_room_newcomer user _ language_mode room db Hfound Hnone) as Hrun.
    rewrite Hmode in Hrun. fold active in Hrun.
    unfold db', result, ran, answer. rewrite Hrun.
    split_and!; [by case_decide|by case_decide| |].
    + intros rp. unfold membership. by rewrite Hnone.
    + intros _. split; by case_decide.
  - pose proof (join_room_member user _ language_mode room rp db Hfound Hone) as Hrun.
    rewrite Hmode in Hrun.
    unfold db', result, ran, answer. rewrite Hrun.
    split_and!; [done|done| |].
    + intros rp'. unfold membership. rewrite Hone. intros [= <-].
      split_and!; [done|done|].
      destruct (update_unique rp_id activated _ rp Hids Hrp) as (l1 & l2 & Hsplit & Hupd).
      exists l1, l2. by split.
    + unfold membership. by rewrite Hone.
Qed.

(** ** The constraints are kept *)

Lemma fmap_update_key {A K} (key : A → K) (pk : A → Z) (k : Z) (f : A → A)
    (l : list A) :
  (∀ x, key (f x) = key x) →
  key <$> ((λ x, if decide (pk x = k) then f x else x) <$> l) = key <$> l.
Proof.
  intros Hkey. rewrite <- list_fmap_compose. apply list_fmap_ext.
  intros i x _. simpl. by case_decide.
Qed.

Lemma constraints_hold_ext db db' :
  rooms db' = rooms db → room_participants db' = room_participants db →
  rooms_id_seq db' = rooms_id_seq db →
  room_participants_id_seq db' = room_participants_id_seq db →
  constraints_hold db → constraints_hold db'.
Proof.
  unfold constraints_hold. intros -> -> -> ->. done.
Qed.

Lemma constraints_update_participant db db' pk f :
  rooms db' = rooms db →
  room_participants db'
    = (λ x, if decide (rp_id x = pk) then f x else x) <$> room_participants db →
  rooms_id_seq db' = rooms_id_seq db →
  room_participants_id_seq db' = room_participants_id_seq db →
  (∀ x, rp_id (f x) = rp_id x) → (∀ x, room_user (f x) = room_user x) →
  constraints_hold db → constraints_hold db'.
Proof.
  unfold constraints_hold.
  intros -> -> -> -> Hid Hkey (H1 & H2 & H3 & H4 & H5 & H6 & H7).
  rewrite !fmap_update_key by done.
  split_and!; [done..| |].
  - apply Forall_fmap. eapply Forall_impl; [exact H6|].
    intros x Hx. simpl. case_decide; [by rewrite Hid|done].
  - apply Forall_fmap. eapply Forall_impl; [exact H7|].
    intros x Hx. simpl. case_decide; [|done].
    assert (rp_room_id (f x) = rp_room_id x) as ->; [|done].
    specialize (Hkey x). unfold room_user in Hkey. by injection Hkey.
Qed.

Lemma constraints_update_room db db' pk f :
  rooms db' = (λ r, if decide (r_id r = pk) then f r else r) <$> rooms db →
  room_participants db' = room_participants db →
  rooms_id_seq db' = rooms_id_seq db →
  room_participants_id_seq db' = room_participants_id_seq db →
  (∀ r, r_id (f r) = r_id r) → (∀ r, r_room_code (f r) = r_room_code r) →
  constraints_hold db → constraints_hold db'.
Proof.
  unfold constraints_hold.
  intros -> -> -> -> Hid Hcode (H1 & H2 & H3 & H4 & H5 & H6 & H7).
  rewrite !fmap_update_key by done.
  split_and!; [done..| |done|done].
  apply Forall_fmap. eapply Forall_impl; [exact H5|].
  intros x Hx. simpl. case_decide; [by rewrite Hid|done].
Qed.

Lemma constraints_seq db db' :
  rooms db' = rooms db → room_participants db' = room_participants db →
  (rooms_id_seq db ≤ rooms_id_seq db')%Z →
  (room_participants_id_seq db ≤ room_participants_id_seq db')%Z →
  constraints_hold db → constraints_hold db'.
Proof.
  unfold constraints_hold.
  intros -> -> Hr Hp (H1 & H2 & H3 & H4 & H5 & H6 & H7).
  split_and!; [done..| | |done].
  - eapply Forall_impl; [exact H5|]. intros x Hx. simpl in *. lia.
  - eapply Forall_impl; [exact H6|]. intros x Hx. simpl in *. lia.
Qed.

Lemma constraints_add_participant db db' rp :
  rooms db' = rooms db →
  room_participants db' = room_participants db ++ [rp] →
  rooms_id_seq db' = rooms_id_seq db →
  room_participants_id_seq db' = (room_participants_id_seq db + 1)%Z →
  rp_id rp = room_participants_id_seq db →
  room_user rp ∉ room_user <$> room_participants db →
  rp_room_id rp ∈ r_id <$> rooms db →
  constraints_hold db → constraints_hold db'.
Proof.
  unfold constraints_hold.
  intros -> -> -> -> Hid Hkey Hfk (H1 & H2 & H3 & H4 & H5 & H6 & H7).
  rewrite !fmap_app. simpl.
  split_and!; [done|done| | |done| |].
  - apply NoDup_app. split_and!; [done| |apply NoDup_singleton].
    intros k Hk Hk'. apply list_elem_of_singleton in Hk'. by subst k.
  - apply NoDup_app. split_and!; [done| |apply NoDup_singleton].
    intros k Hk Hk'. apply list_elem_of_singleton in Hk'. subst k.
    apply list_elem_of_fmap in Hk as (x & Hx & Hin).
    rewrite Forall_forall in H6. specialize (H6 x Hin). simpl in H6. lia.
  - apply Forall_app. split.
    + eapply Forall_impl; [exact H6|]. intros x Hx. simpl in *. lia.
    + apply Forall_singleton. lia.
  - apply Forall_app. split; [done|]. by apply Forall_singleton.
Qed.

Lemma constraints_add_room db db' room :
  rooms db' = rooms db ++ [room] →
  room_participants db' = room_participants db →
  rooms_id_seq db' = (rooms_id_seq db + 1)%Z →
  room_participants_id_seq db' = room_participants_id_seq db →
  r_id room = rooms_id_seq db →
  r_room_code room ∉ r_room_code <$> rooms db →
  constraints_hold db → constraints_hold db'.
Proof.
  unfold constraints_hold.
  intros -> -> -> -> Hid Hcode (H1 & H2 & H3 & H4 & H5 & H6 & H7).
  rewrite !fmap_app. simpl.
  split_and!; [| |done|done| |done|].
  - apply NoDup_app. split_and!; [done| |apply NoDup_singleton].
    intros k Hk Hk'. apply list_elem_of_singleton in Hk'. by subst k.
  - apply NoDup_app. split_and!; [done| |apply NoDup_singleton].
    intros k Hk Hk'. apply list_elem_of_singleton in Hk'. subst k.
    apply list_elem_of_fmap in Hk as (x & Hx & Hin).
    rewrite Forall_forall in H5. specialize (H5 x Hin). simpl in H5. lia.
  - apply Forall_app. split.
    + eapply Forall_impl; [exact H5|]. intros x Hx. simpl in *. lia.
    + apply Forall_singleton. lia.
  - eapply Forall_impl; [exact H7|]. intros x Hx. simpl in *.
    apply elem_of_app. by left.
Qed.

Lemma join_room_keeps_constraints user room_code language_mode db :
  constraints_hold db →
  constraints_hold (ran (join_room user room_code language_mode) db) ∧
  answer (join_room user room_code language_mode) db ≠ Raises "MultipleResultsFound" ∧
  answer (join_room user room_code language_mode) db ≠ Raises "IntegrityError".
Proof.
  intros Hok.
  assert (Hcodes : NoDup (r_room_code <$> rooms db)) by apply Hok.
  assert (Hkeys : NoDup (room_user <$> room_participants db)) by apply Hok.
  destruct (filter_unique r_room_code
              (λ r, r_room_code r = room_code ∧ r_status r = ACTIVE)
              room_code (rooms db) Hcodes) as [Hnone|(room & Hroom & Hin & _)].
  { by intros x [? _]. }
  { unfold ran, answer. rewrite (join_room_no_room _ _ _ _ Hnone). simpl.
    split_and!; [|done|done]. by apply (constraints_hold_ext db). }
  destruct (filter_unique room_user
              (λ rp, rp_room_id rp = r_id room ∧ rp_user_id rp = id user)
              (r_id room, id user) (room_participants db) Hkeys)
    as [Hnew|(rp & Hrp & _)].
  { intros x [Hr Hu]. unfold room_user. by rewrite Hr, Hu. }
  - unfold ran, answer.
    rewrite (join_room_newcomer user _ language_mode room db Hroom Hnew).
    case_decide; [|unfold LanguageMode_of; repeat case_decide]; simpl;
      (split_and!; [|done|done]).
    + by apply (constraints_hold_ext db).
    + eapply (constraints_add_participant db); try done; simpl.
      * by apply no_membership_no_key.
      * by apply list_elem_of_fmap_2.
    + eapply (constraints_add_participant db); try done; simpl.
      * by apply no_membership_no_key.
      * by apply list_elem_of_fmap_2.
    + by apply (constraints_hold_ext db).
  - unfold ran, answer.
    rewrite (join_room_member user _ language_mode room rp db Hroom Hrp).
    unfold LanguageMode_of; repeat case_decide; simpl; (split_and!; [|done|done]).
    + by eapply (constraints_update_participant db).
    + by eapply (constraints_update_participant db).
    + by eapply (constraints_update_participant db).
Qed.

(** ** leave_room *)

Lemma leave_room_no_room user_id room_code db :
  filter (λ r, r_room_code r = room_code) (rooms db) = [] →
  leave_room user_id room_code db = (sent db, Returns false).
Proof. intros Hroom. unfold leave_room. txunfold. by rewrite Hroom. Qed.

Lemma leave_room_stranger user_id room_code room db :
  filter (λ r, r_room_code r = room_code) (rooms db) = [room] →
  membership db (r_id room) user_id = [] →
  leave_room user_id room_code db = (sent (sent db), Returns false).
Proof.
  unfold membership. intros Hroom Hrp. unfold leave_room. txunfold.
  rewrite Hroom. simpl. by rewrite Hrp.
Qed.

Lemma leave_room_member user_id room_code room rp db :
  filter (λ r, r_room_code r = room_code) (rooms db) = [room] →
  membership db (r_id room) user_id = [rp] →
  leave_room user_id room_code db =
    ({| rooms := rooms db;
        room_participants :=
          (λ x, if decide (rp_id x = rp_id rp) then departed x else x)
            <$> room_participants db;
        rooms_id_seq := rooms_id_seq db;
        room_participants_id_seq := room_participants_id_seq db;
        statements := S (S (S (statements db)));
        logged := logged db |},
     Returns true).
Proof.
  unfold membership. intros Hroom Hrp. unfold leave_room. txunfold.
  rewrite Hroom. simpl. by rewrite Hrp.
Qed.

Lemma leave_room_keeps_constraints user_id room_code db :
  constraints_hold db →
  constraints_hold (ran (leave_room user_id room_code) db) ∧
  rooms (ran (leave_room user_id room_code) db) = rooms db ∧
  ∃ left, answer (leave_room user_id room_code) db = Returns left.
Proof.
  intros Hok.
  assert (Hcodes : NoDup (r_room_code <$> rooms db)) by apply Hok.
  assert (Hkeys : NoDup (room_user <$> room_participants db)) by apply Hok.
  destruct (filter_unique r_room_code (λ r, r_room_code r = room_code)
              room_code (rooms db) Hcodes) as [Hnone|(room & Hroom & Hin & _)];
    [done| |].
  { unfold ran, answer. rewrite (leave_room_no_room _ _ _ Hnone). simpl.
    split_and!; [|done|eauto]. by apply (constraints_hold_ext db). }
  destruct (filter_unique room_user
              (λ rp, rp_room_id rp = r_id room ∧ rp_user_id rp = user_id)
              (r_id room, user_id) (room_participants db) Hkeys)
    as [Hnew|(rp & Hrp & _)].
  { intros x [Hr Hu]. unfold room_user. by rewrite Hr, Hu. }
  - unfold ran, answer. rewrite (leave_room_stranger _ _ room _ Hroom Hnew). simpl.
    split_and!; [|done|eauto]. by apply (constraints_hold_ext db).
  - unfold ran, answer. rewrite (leave_room_member _ _ room rp _ Hroom Hrp). simpl.
    split_and!; [|done|eauto]. by eapply (constraints_update_participant db).
Qed.

(** X25. [leave_room] returns [True] exactly for someone who has a
    membership row in a room of that code: the room may have ended, and
    the row may be inactive already.  It writes to that one row, making
    it inactive, and to nothing else; doing it again returns [True] again
    and changes no row.  Without a room of that code or without a row it
    returns [False] and writes nothing. *)
Theorem X25_leave_room user_id room_code db :
  constraints_hold db →
  let db' := ran (leave_room user_id room_code) db in
  rooms db' = rooms db ∧
  (∀ room rp,
     room ∈ rooms db → r_room_code room = room_code →
     rp ∈ room_participants db → rp_room_id rp = r_id room → rp_user_id rp = user_id →
     answer (leave_room user_id room_code) db = Returns true ∧
     (∃ l1 l2, room_participants db = l1 ++ rp :: l2 ∧
               room_participants db' = l1 ++ departed rp :: l2) ∧
     answer (leave_room user_id room_code) db' = Returns true ∧
     room_participants (ran (leave_room user_id room_code) db') = room_participants db') ∧
  ((∀ room, room ∈ rooms db → r_room_code room = room_code →
            membership db (r_id room) user_id = []) →
     answer (leave_room user_id room_code) db = Returns false ∧
     room_participants db' = room_participants db).
Proof.
  intros Hok db'.
  destruct (leave_room_keeps_constraints user_id room_code db Hok)
    as (Hok' & Hrooms & _).
  fold db' in Hok', Hrooms.
  split_and!; [done| |].
  - intros room rp Hroom <- Hrp Hrid <-.
    pose proof (room_found room db Hok Hroom) as Hfound.
    pose proof (membership_found rp db Hok Hrp) as Hmember. rewrite Hrid in Hmember.
    pose proof (leave_room_member _ _ room rp db Hfound Hmember) as Hrun.
    assert (Hids : NoDup (rp_id <$> room_participants db)) by apply Hok.
    destruct (update_unique rp_id departed _ rp Hids Hrp)
      as (l1 & l2 & Hsplit & Hupdate).
    assert (Hrows : room_participants db' = l1 ++ departed rp :: l2).
    { unfold db', ran. rewrite Hrun. simpl. exact Hupdate. }
    assert (Hroom' : room ∈ rooms db') by by rewrite Hrooms.
    assert (Hrp' : departed rp ∈ room_participants db').
    { rewrite Hrows. apply elem_of_app. right. apply list_elem_of_here. }
    pose proof (room_found room db' Hok' Hroom') as Hfound'.
    pose proof (membership_found (departed rp) db' Hok' Hrp') as Hmember'.
    simpl in Hmember'. rewrite Hrid in Hmember'.
    pose proof (leave_room_member _ _ room (departed rp) db' Hfound' Hmember') as Hrun'.
    assert (Hids' : NoDup (rp_id <$> room_participants db')) by apply Hok'.
    destruct (update_unique rp_id departed _ (departed rp) Hids' Hrp')
      as (k1 & k2 & Hsplit' & Hupdate').
    split_and!.
    + unfold answer. by rewrite Hrun.
    + by exists l1, l2.
    + unfold answer. by rewrite Hrun'.
    + unfold ran. rewrite Hrun'. simpl. simpl in Hupdate'. rewrite Hupdate'.
      by rewrite Hsplit'.
  - intros Hnone.
    assert (Hcodes : NoDup (r_room_code <$> rooms db)) by apply Hok.
    destruct (filter_unique r_room_code (λ r, r_room_code r = room_code)
                room_code (rooms db) Hcodes) as [Hno|(room & Hroom & Hin & Hcode)];
      [done| |].
    + unfold db', ran, answer. by rewrite (leave_room_no_room _ _ _ Hno).
    + unfold db', ran, answer.
      by rewrite (leave_room_stranger _ _ room _ Hroom (Hnone room Hin Hcode)).
Qed.

(** X26. Leaving an active room and joining it again in the mode one
    had puts both tables back as they were: the membership row is the
    same row, with the id and the time of joining it had, and no id of
    the sequence is used. *)
Theorem X26_leave_join_round_trip user language_mode room rp db :
  constraints_hold db →
  room ∈ rooms db → r_status room = ACTIVE →
  rp ∈ room_participants db → rp_room_id rp = r_id room → rp_user_id rp = id user →
  rp_is_active rp = true →
  LanguageMode_of language_mode = Returns (rp_language_mode rp) →
  let db1 := ran (leave_room (id user) (r_room_code room)) db in
  let db2 := ran (join_room user (r_room_code room) language_mode) db1 in
  answer (leave_room (id user) (r_room_code room)) db = Returns true ∧
  departed rp ∈ room_participants db1 ∧
  answer (join_room user (r_room_code room) language_mode) db1 = Returns (Some room) ∧
  rooms db2 = rooms db ∧
  room_participants db2 = room_participants db ∧
  room_participants_id_seq db2 = room_participants_id_seq db.
Proof.
  intros Hok Hroom Hactive Hrp Hrid Huid Hisactive Hmode db1 db2.
  pose proof (room_found room db Hok Hroom) as Hfound.
  pose proof (membership_found rp db Hok Hrp) as Hmember.
  rewrite Hrid, Huid in Hmember.
  pose proof (leave_room_member _ _ room rp db Hfound Hmember) as Hleave.
  assert (Hids : NoDup (rp_id <$> room_participants db)) by apply Hok.
  destruct (update_unique rp_id departed _ rp Hids Hrp)
    as (l1 & l2 & Hsplit & Hupdate).
  destruct (leave_room_keeps_constraints (id user) (r_room_code room) db Hok)
    as (Hok1 & Hrooms1 & _).
  fold db1 in Hok1, Hrooms1.
  assert (Hrows1 : room_participants db1 = l1 ++ departed rp :: l2).
  { unfold db1, ran. rewrite Hleave. simpl. exact Hupdate. }
  assert (Hseq1 : room_participants_id_seq db1 = room_participants_id_seq db).
  { unfold db1, ran. by rewrite Hleave. }
  assert (Hroom1 : room ∈ rooms db1) by by rewrite Hrooms1.
  assert (Hrp1 : departed rp ∈ room_participants db1).
  { rewrite Hrows1. apply elem_of_app. right. apply list_elem_of_here. }
  pose proof (active_room_found room db1 Hok1 Hroom1 Hactive) as Hfound1.
  pose proof (membership_found (departed rp) db1 Hok1 Hrp1) as Hmember1.
  simpl in Hmember1. rewrite Hrid, Huid in Hmember1.
  pose proof (join_room_member user _ language_mode room (departed rp) db1
                Hfound1 Hmember1) as Hjoin.
  rewrite Hmode in Hjoin.
  assert (Hids1 : NoDup (rp_id <$> room_participants db1)) by apply Hok1.
  destruct (update_unique rp_id (rejoined (rp_language_mode rp)) _ (departed rp)
              Hids1 Hrp1) as (k1 & k2 & Hsplit1 & Hupdate1).
  assert (Hback : rejoined (rp_language_mode rp) (departed rp) = rp).
  { destruct rp. simpl in *. by subst. }
  split_and!.
  - unfold answer. by rewrite Hleave.
  - done.
  - unfold answer. by rewrite Hjoin.
  - unfold db2, ran. by rewrite Hjoin.
  - unfold db2, ran. rewrite Hjoin. simpl. simpl in Hupdate1.
    rewrite Hupdate1, Hback.
    assert (Hsame : k1 ++ departed rp :: k2 = l1 ++ departed rp :: l2)
      by by rewrite <- Hsplit1, <- Hrows1.
    rewrite Hsplit.
    apply NoDup_fmap_1 in Hids1.
    rewrite Hrows1 in Hids1.
    assert (k1 = l1 ∧ k2 = l2) as [-> ->]; [|done].
    { clear -Hsame Hids1. revert l1 Hsame Hids1.
      induction k1 as [|a k1 IH]; intros [|b l1] Hsame Hnd; simpl in *.
      - by injection Hsame as <-.
      - injection Hsame as <- ->. apply NoDup_cons in Hnd as [Hnd _].
        exfalso. apply Hnd. apply elem_of_app. right. apply list_elem_of_here.
      - injection Hsame as -> <-. exfalso.
        apply NoDup_cons in Hnd as [Hnd _].
        apply Hnd. apply elem_of_app. right. apply list_elem_of_here.
      - injection Hsame as -> Hsame. apply NoDup_cons in Hnd as [_ Hnd].
        by destruct (IH l1 Hsame Hnd) as [-> ->]. }
  - unfold db2, ran. rewrite Hjoin. simpl. exact Hseq1.
Qed.

(** ** end_room *)

Lemma end_room_run room db :
  end_room room db =
    ({| rooms := (λ r, if decide (r_id r = r_id room)
                       then ended (datetime_now (statements db)) r else r) <$> rooms db;
        room_participants := room_participants db;
        rooms_id_seq := rooms_id_seq db;
        room_participants_id_seq := room_participants_id_seq db;
        statements := S (statements db);
        logged := logged db |},
     Returns (ended (datetime_now (statements db)) room)).
Proof. unfold end_room. txunfold. done. Qed.

Lemma end_room_keeps_constraints room db :
  constraints_hold db → constraints_hold (ran (end_room room) db).
Proof.
  intros Hok. unfold ran. rewrite end_room_run. simpl.
  by eapply (constraints_update_room db).
Qed.

Lemma same_code_same_room db r1 r2 :
  constraints_hold db → r1 ∈ rooms db → r2 ∈ rooms db →
  r_room_code r1 = r_room_code r2 → r1 = r2.
Proof.
  intros Hok H1 H2 Hcode.
  pose proof (room_found r2 db Hok H2) as Hfound.
  assert (r1 ∈ filter (λ r, r_room_code r = r_room_code r2) (rooms db)) as Hin
    by by apply list_elem_of_filter.
  rewrite Hfound in Hin. by apply list_elem_of_singleton in Hin.
Qed.

(** X27. [end_room] writes the status ENDED and the time of the call
    to the room's row and to nothing else: the membership rows stay as
    they are, active ones included.  From then on the room is still
    found by its code, nobody can join it, members can still leave it,
    and ending it again sets a new time. *)
Theorem X27_end_room room db :
  constraints_hold db → room ∈ rooms db →
  let now := datetime_now (statements db) in
  let db' := ran (end_room room) db in
  answer (end_room room) db = Returns (ended now room) ∧
  (∃ l1 l2, rooms db = l1 ++ room :: l2 ∧ rooms db' = l1 ++ ended now room :: l2) ∧
  room_participants db' = room_participants db ∧
  answer (get_room_by_code (r_room_code room)) db' = Returns (Some (ended now room)) ∧
  (∀ user language_mode,
     join_room user (r_room_code room) language_mode db' = (sent db', Returns None)) ∧
  (∀ rp, rp ∈ room_participants db → rp_room_id rp = r_id room →
     answer (leave_room (rp_user_id rp) (r_room_code room)) db' = Returns true) ∧
  answer (end_room (ended now room)) db'
    = Returns (ended (datetime_now (S (statements db))) room).
Proof.
  intros Hok Hroom now db'.
  pose proof (end_room_keeps_constraints room db Hok) as Hok'. fold db' in Hok'.
  assert (Hids : NoDup (r_id <$> rooms db)) by apply Hok.
  destruct (update_unique r_id (ended now) _ room Hids Hroom)
    as (l1 & l2 & Hsplit & Hupdate).
  assert (Hrooms : rooms db' = l1 ++ ended now room :: l2).
  { unfold db', ran. rewrite end_room_run. simpl. exact Hupdate. }
  assert (Hrows : room_participants db' = room_participants db).
  { unfold db', ran. by rewrite end_room_run. }
  assert (Hin' : ended now room ∈ rooms db').
  { rewrite Hrooms. apply elem_of_app. right. apply list_elem_of_here. }
  pose proof (room_found (ended now room) db' Hok' Hin') as Hfound'.
  simpl in Hfound'.
  split_and!.
  - unfold answer. by rewrite end_room_run.
  - by exists l1, l2.
  - done.
  - unfold answer, get_room_by_code, select_room. simpl. by rewrite Hfound'.
  - intros user language_mode. apply join_room_no_room.
    apply elem_of_nil_inv. intros r Hr.
    apply list_elem_of_filter in Hr as [[Hc Hs] Hr].
    assert (r = ended now room) as ->
      by (by apply (same_code_same_room db' _ _ Hok' Hr Hin')).
    done.
  - intros rp Hrp Hrid. rewrite <- Hrows in Hrp.
    pose proof (membership_found rp db' Hok' Hrp) as Hmember.
    rewrite Hrid in Hmember.
    unfold answer.
    by rewrite (leave_room_member _ _ (ended now room) rp db' Hfound' Hmember).
  - unfold answer. rewrite end_room_run.
    unfold db', ran. by rewrite end_room_run.
Qed.

(** ** create_room *)

Lemma fresh_room_has_no_rows db user_id :
  constraints_hold db →
  (rooms_id_seq db, user_id) ∉ room_user <$> room_participants db.
Proof.
  intros (_ & _ & _ & _ & Hseq & _ & Hfk) Hin.
  apply list_elem_of_fmap in Hin as (rp & Heq & Hrp). injection Heq as Hr _.
  rewrite Forall_forall in Hfk. specialize (Hfk rp Hrp). simpl in Hfk.
  apply list_elem_of_fmap in Hfk as (r & Hid & Hin).
  rewrite Forall_forall in Hseq. specialize (Hseq r Hin). simpl in Hseq. lia.
Qed.

Lemma create_room_run owner name max_participants db :
  constraints_hold db →
  let code := _generate_room_code (statements db) 8 in
  let room := {| r_id := rooms_id_seq db; r_room_code := code; r_name := name;
                 r_owner_id := id owner; r_status := ACTIVE;
                 r_max_participants := max_participants;
                 r_created_at := datetime_now (statements db); r_ended_at := None |} in
  let row := {| rp_id := room_participants_id_seq db; rp_room_id := rooms_id_seq db;
                rp_user_id := id owner; rp_language_mode := HINDI_TO_ENGLISH;
                rp_joined_at := datetime_now (S (statements db));
                rp_is_active := true |} in
  create_room owner name max_participants db =
    if decide (code ∈ r_room_code <$> rooms db)
    then ({| rooms := rooms db; room_participants := room_participants db;
             rooms_id_seq := (rooms_id_seq db + 1)%Z;
             room_participants_id_seq := room_participants_id_seq db;
             statements := S (statements db); logged := logged db |},
          Raises "IntegrityError")
    else ({| rooms := rooms db ++ [room];
             room_participants := room_participants db ++ [row];
             rooms_id_seq := (rooms_id_seq db + 1)%Z;
             room_participants_id_seq := (room_participants_id_seq db + 1)%Z;
             statements := S (S (statements db));
             logged := logged db ++ ["Room created"] |},
          Returns room).
Proof.
  intros Hok code room row. unfold create_room. txunfold. unfold add_room. simpl.
  fold code. case_decide; [done|]. simpl. unfold add_participant. simpl.
  rewrite decide_False by by apply fresh_room_has_no_rows. done.
Qed.

Lemma create_room_keeps_constraints owner name max_participants db :
  constraints_hold db →
  constraints_hold (ran (create_room owner name max_participants) db).
Proof.
  intros Hok. unfold ran. rewrite create_room_run by done. cbv zeta.
  case_decide as Hcode; simpl.
  - apply (constraints_seq db); simpl; try done; lia.
  - set (db1 := {| rooms := rooms db ++
                     [{| r_id := rooms_id_seq db;
                         r_room_code := _generate_room_code (statements db) 8;
                         r_name := name; r_owner_id := id owner; r_status := ACTIVE;
                         r_max_participants := max_participants;
                         r_created_at := datetime_now (statements db);
                         r_ended_at := None |}];
                   room_participants := room_participants db;
                   rooms_id_seq := (rooms_id_seq db + 1)%Z;
                   room_participants_id_seq := room_participants_id_seq db;
                   statements := S (statements db); logged := logged db |}).
    assert (Hok1 : constraints_hold db1)
      by (by eapply (constraints_add_room db)).
    eapply (constraints_add_participant db1); try done; simpl.
    + by apply fresh_room_has_no_rows.
    + rewrite fmap_app. apply elem_of_app. right. apply list_elem_of_here.
Qed.

(** X20. [create_room] draws one code and does not look whether a room
    has it: when one has, the insert raises IntegrityError and neither
    table gets a row.  Otherwise the room is appended, active, with the
    next id of the sequence, and its owner is appended to the members,
    active and in mode hi_to_en; that row is written without a look at
    [max_participants], so that the new room has one active participant
    even when it is to take none. *)
Theorem X20_create_room owner name max_participants db :
  constraints_hold db →
  let code := _generate_room_code (statements db) 8 in
  let room := {| r_id := rooms_id_seq db; r_room_code := code; r_name := name;
                 r_owner_id := id owner; r_status := ACTIVE;
                 r_max_participants := max_participants;
                 r_created_at := datetime_now (statements db); r_ended_at := None |} in
  let row := {| rp_id := room_participants_id_seq db; rp_room_id := rooms_id_seq db;
                rp_user_id := id owner; rp_language_mode := HINDI_TO_ENGLISH;
                rp_joined_at := datetime_now (S (statements db));
                rp_is_active := true |} in
  let db' := ran (create_room owner name max_participants) db in
  (code ∈ r_room_code <$> rooms db →
     answer (create_room owner name max_participants) db = Raises "IntegrityError" ∧
     rooms db' = rooms db ∧ room_participants db' = room_participants db) ∧
  (code ∉ r_room_code <$> rooms db →
     answer (create_room owner name max_participants) db = Returns room ∧
     rooms db' = rooms db ++ [room] ∧
     room_participants db' = room_participants db ++ [row] ∧
     active_in db' (r_id room) = [row] ∧
     membership db' (r_id room) (id owner) = [row]).
Proof.
  intros Hok code room row db'.
  pose proof (create_room_run owner name max_participants db Hok) as Hrun.
  cbv zeta in Hrun. fold code in Hrun. fold room row in Hrun.
  split.
  - intros Hused. rewrite decide_True in Hrun by done.
    unfold answer, db', ran. by rewrite Hrun.
  - intros Hfree. rewrite decide_False in Hrun by done.
    assert (Hrows : room_participants db' = room_participants db ++ [row])
      by (unfold db', ran; by rewrite Hrun).
    assert (Hnone : ∀ P : RoomParticipant → Prop, ∀ HP : (∀ x, Decision (P x)),
              (∀ x, P x → rp_room_id x = rooms_id_seq db) →
              filter P (room_participants db) = []).
    { intros P HP Himpl. apply elem_of_nil_inv. intros x Hx.
      apply list_elem_of_filter in Hx as [HPx Hx].
      apply (fresh_room_has_no_rows db (rp_user_id x) Hok).
      apply list_elem_of_fmap. exists x. split; [|done].
      unfold room_user. by rewrite (Himpl x HPx). }
    split_and!.
    + unfold answer. by rewrite Hrun.
    + unfold db', ran. by rewrite Hrun.
    + done.
    + unfold active_in. rewrite Hrows, filter_app, Hnone by by intros x [? _].
      by rewrite filter_cons_True.
    + unfold membership. rewrite Hrows, filter_app, Hnone by by intros x [? _].
      by rewrite filter_cons_True.
Qed.

(** X28. The four writing functions keep the database within its
    constraints: room codes and the pair of room and user stay unique,
    ids stay unique and below their sequence, and every membership row
    points to a room.  In such a database [join_room] raises neither
    MultipleResultsFound nor IntegrityError, and [leave_room] always
    returns. *)
Theorem X28_constraints_kept db :
  constraints_hold db →
  (∀ owner name max_participants,
     constraints_hold (ran (create_room owner name max_participants) db)) ∧
  (∀ user room_code language_mode,
     constraints_hold (ran (join_room user room_code language_mode) db) ∧
     answer (join_room user room_code language_mode) db
       ≠ Raises "MultipleResultsFound" ∧
     answer (join_room user room_code language_mode) db ≠ Raises "IntegrityError") ∧
  (∀ user_id room_code,
     constraints_hold (ran (leave_room user_id room_code) db) ∧
     ∃ left, answer (leave_room user_id room_code) db = Returns left) ∧
  (∀ room, constraints_hold (ran (end_room room) db)).
Proof.
  intros Hok. split_and!.
  - intros. by apply create_room_keeps_constraints.
  - intros. by apply join_room_keeps_constraints.
  - intros user_id room_code.
    destruct (leave_room_keeps_constraints user_id room_code db Hok) as (? & _ & ?).
    done.
  - intros. by apply end_room_keeps_constraints.
Qed.

End RoomService.

(** * The further properties at work in the concrete deployment *)

(** X1 when ben connects to the room asha called at, and when asha
    connects to a registry that has no entry yet. *)
Lemma X1_connect_never_registers_witness :
  @ws_accept healthy (length (trace asha_called)) 11 = Returns () ∧
  returned (@connect healthy 11 the_room 2 "ben" "en_to_hi") asha_called
    = Raise (Exception_ "TypeError") ∧
  sessions (exec (@connect healthy 11 the_room 2 "ben" "en_to_hi") asha_called) the_room
    = ∅ ∧
  _rooms empty_world !! the_room = None ∧
  get_room_count (exec (@connect healthy 10 the_room 1 "asha" "hi_to_en") empty_world)
    = 1.
Proof.
  assert (H1 : @ws_accept healthy (length (trace asha_called)) 11 = Returns ())
    by reflexivity.
  assert (H2 : @ws_accept healthy (length (trace empty_world)) 10 = Returns ())
    by reflexivity.
  assert (H3 : _rooms empty_world !! the_room = None) by reflexivity.
  destruct (@X1_connect_never_registers healthy 11 the_room 2 "ben" "en_to_hi"
              asha_called H1) as (Hret & _ & _ & _ & _ & _ & Hsame & _).
  destruct (@X1_connect_never_registers healthy 10 the_room 1 "asha" "hi_to_en"
              empty_world H2) as (_ & _ & _ & _ & _ & Hnew & _).
  destruct (Hnew H3) as (_ & Hcount).
  split_and!; [exact H1|exact Hret| |exact H3|exact Hcount].
  rewrite Hsame. vm_compute. reflexivity.
Defined.

(** X2 for ben's handshake when the transport refuses it, when the query
    for the room raises, and when the query for the membership raises. *)
Lemma X2_handshake_errors_propagate_witness :
  returned (@_authenticate_ws accept_refused "token-ben") asha_called = Ok (Some ben) ∧
  @websocket_meeting accept_refused 11 the_room "token-ben" [utterance] asha_called
    = (after_events asha_called [EAccept 11], Raise (Exception_ "RuntimeError")) ∧
  @websocket_meeting rooms_query_fails 11 the_room "token-ben" [utterance] asha_called
    = (asha_called, Raise (Exception_ "OperationalError")) ∧
  @websocket_meeting membership_query_fails 11 the_room "token-ben" [utterance]
      asha_called
    = (asha_called, Raise (Exception_ "OperationalError")).
Proof.
  assert (H1 : returned (@_authenticate_ws accept_refused "token-ben") asha_called
               = Ok (Some ben)) by (vm_compute; reflexivity).
  assert (H2 : returned (@_authenticate_ws rooms_query_fails "token-ben") asha_called
               = Ok (Some ben)) by (vm_compute; reflexivity).
  assert (H3 : returned (@_authenticate_ws membership_query_fails "token-ben") asha_called
               = Ok (Some ben)) by (vm_compute; reflexivity).
  destruct (@X2_handshake_errors_propagate accept_refused 11 the_room "token-ben"
              [utterance] asha_called ben H1) as (_ & _ & Haccept).
  destruct (@X2_handshake_errors_propagate rooms_query_fails 11 the_room "token-ben"
              [utterance] asha_called ben H2) as (Hroom & _ & _).
  destruct (@X2_handshake_errors_propagate membership_query_fails 11 the_room
              "token-ben" [utterance] asha_called ben H3) as (_ & Hmember & _).
  split_and!; [exact H1| | |].
  - exact (Haccept {| room_id := 7 |} (Some (Some "hi_to_en")) "RuntimeError"
             eq_refl eq_refl eq_refl).
  - exact (Hroom "OperationalError" eq_refl).
  - exact (Hmember {| room_id := 7 |} "OperationalError" eq_refl eq_refl).
Defined.

(** X3 for asha and ben connecting and being removed again. *)
Lemma X3_entries_never_deleted_witness :
  unpopulated empty_world ∧
  get_total_connections
    (@run_ops healthy [OpConnect 10 the_room 1 "asha" "hi_to_en";
                       OpConnect 11 the_room 2 "ben" "en_to_hi";
                       OpDisconnect the_room 1; OpDisconnect the_room 0]
       empty_world) = 0 ∧
  0 ≤ get_room_count
        (@run_ops healthy [OpConnect 10 the_room 1 "asha" "hi_to_en";
                           OpConnect 11 the_room 2 "ben" "en_to_hi";
                           OpDisconnect the_room 1; OpDisconnect the_room 0]
           empty_world).
Proof.
  assert (H1 : unpopulated empty_world) by (intros r; reflexivity).
  destruct (@X3_entries_never_deleted healthy
              [OpConnect 10 the_room 1 "asha" "hi_to_en";
               OpConnect 11 the_room 2 "ben" "en_to_hi";
               OpDisconnect the_room 1; OpDisconnect the_room 0] empty_world)
    as (_ & Hcount & _ & Htotal).
  destruct (Htotal H1) as (_ & Hzero).
  split_and!; [exact H1|exact Hzero|exact Hcount].
Defined.



(** X7 when ben, in mode hi_to_en, asks for en_to_hi. *)
Lemma X7_change_mode_witness :
  @json_loads control change_mode_text
    = Some (JDict {[ "type" := JString "change_mode"; "mode" := JString "en_to_hi" ]}) ∧
  "en_to_hi" ∈ legal_modes ∧
  returned (@handle_message control the_room ben 1 "hi_to_en"
              (text_frame change_mode_text)) both_called = Ok "en_to_hi" ∧
  language_mode
    (objs (exec (@handle_message control the_room ben 1 "hi_to_en"
                   (text_frame change_mode_text)) both_called) !!! 1)
    = "en_to_hi".
Proof.
  set (data := ({[ "type" := JString "change_mode"; "mode" := JString "en_to_hi" ]}
                : gmap string jvalue)).
  assert (H1 : @json_loads control change_mode_text = Some (JDict data))
    by (vm_compute; reflexivity).
  assert (H2 : data !! "type" = Some (JString "change_mode"))
    by (vm_compute; reflexivity).
  assert (H3 : default (JString "hi_to_en") (data !! "mode") = JString "en_to_hi")
    by (vm_compute; reflexivity).
  assert (H4 : "en_to_hi" ∈ legal_modes) by (apply list_elem_of_In; simpl; auto).
  destruct (@X7_change_mode control the_room ben 1 "hi_to_en" change_mode_text data
              "en_to_hi" both_called H1 H2 H3 H4)
    as (ok & warn & Hrun & _).
  split_and!; [exact H1|exact H4| |].
  - unfold returned. rewrite Hrun. reflexivity.
  - unfold exec. rewrite Hrun. vm_compute. reflexivity.
Defined.

(** X8 for a frame with no payload, a text that is not JSON, a message
    of a type the handler does not know, and a change to a mode that does
    not exist. *)
Lemma X8_ignored_frames_witness :
  @handle_message control the_room ben 1 "hi_to_en"
     {| msg_bytes := None; msg_text := None |} both_called
    = (both_called, Ok "hi_to_en") ∧
  @json_loads control garbage_text = None ∧
  @handle_message control the_room ben 1 "hi_to_en" (text_frame garbage_text) both_called
    = (both_called, Ok "hi_to_en") ∧
  @handle_message control the_room ben 1 "hi_to_en" (text_frame typing_text) both_called
    = (both_called, Ok "hi_to_en") ∧
  @handle_message control the_room ben 1 "hi_to_en" (text_frame bad_mode_text) both_called
    = (both_called, Ok "hi_to_en").
Proof.
  destruct (@X8_ignored_frames control the_room ben 1 "hi_to_en" both_called)
    as (Hnone & Hgarbage & Hother & Hmode).
  assert (H1 : @json_loads control garbage_text = None) by (vm_compute; reflexivity).
  set (typing := ({[ "type" := JString "typing" ]} : gmap string jvalue)).
  set (bad := ({[ "type" := JString "change_mode"; "mode" := JString "fr_to_en" ]}
               : gmap string jvalue)).
  assert (H2 : @json_loads control typing_text = Some (JDict typing))
    by (vm_compute; reflexivity).
  assert (H3 : default (JString "") (typing !! "type") ≠ JString "change_mode")
    by (vm_compute; discriminate).
  assert (H4 : default (JString "") (typing !! "type") ≠ JString "ping")
    by (vm_compute; discriminate).
  assert (H5 : @json_loads control bad_mode_text = Some (JDict bad))
    by (vm_compute; reflexivity).
  assert (H6 : bad !! "type" = Some (JString "change_mode"))
    by (vm_compute; reflexivity).
  assert (H7 : ∀ m, default (JString "hi_to_en") (bad !! "mode") = JString m →
                    m ∉ legal_modes).
  { intros m Hm. vm_compute in Hm. injection Hm as <-.
    intros Hin. apply list_elem_of_In in Hin. simpl in Hin.
    destruct Hin as [Hin|[Hin|[]]]; discriminate Hin. }
  split_and!; [exact Hnone|exact H1|exact (Hgarbage _ H1)|exact (Hother _ _ H2 H3 H4)|
               exact (Hmode _ _ H5 H6 H7)].
Defined.

(** X9 for ben's ping. *)
Lemma X9_ping_pong_witness :
  @json_loads control ping_text = Some (JDict {[ "type" := JString "ping" ]}) ∧
  ∃ warn,
    @handle_message control the_room ben 1 "hi_to_en" (text_frame ping_text) both_called
      = (after_events both_called (ESendJson 11 pong true :: warn), Ok "hi_to_en").
Proof.
  set (data := ({[ "type" := JString "ping" ]} : gmap string jvalue)).
  assert (H1 : @json_loads control ping_text = Some (JDict data))
    by (vm_compute; reflexivity).
  assert (H2 : data !! "type" = Some (JString "ping")) by (vm_compute; reflexivity).
  destruct (@X9_ping_pong control the_room ben 1 "hi_to_en" ping_text data both_called
              H1 H2) as (ok & warn & Hrun & _ & Hok).
  split; [exact H1|]. exists warn. rewrite Hrun, Hok. reflexivity.
Defined.

(** X10 for a JSON array sent by ben. *)
Lemma X10_fatal_frames_witness :
  @json_loads control array_text = Some JNotDict ∧
  @handle_message control the_room ben 1 "hi_to_en" (text_frame array_text) both_called
    = (both_called, Raise (Exception_ "AttributeError")) ∧
  @serve control the_room ben 1 [Frame (text_frame array_text); utterance]
      "hi_to_en" both_called
    = (after_events both_called [ELog ERROR "WS error"], Raise (Exception_ "TypeError")).
Proof.
  assert (H1 : @json_loads control array_text = Some JNotDict)
    by (vm_compute; reflexivity).
  destruct (@X10_fatal_frames control the_room ben 1 "hi_to_en" [utterance] both_called)
    as (_ & _ & Harray).
  destruct (Harray array_text H1) as (Hrun & _ & Hserve).
  split_and!; [exact H1|exact Hrun|].
  rewrite Hserve. vm_compute. reflexivity.
Defined.

(** X11 for ben's handshake, whose membership row says en_to_hi. *)
Lemma X11_handshake_ends_in_TypeError_witness :
  returned (@_authenticate_ws control "token-ben") asha_called = Ok (Some ben) ∧
  persisted_mode (Some (Some "en_to_hi")) = "en_to_hi" ∧
  returned (@websocket_meeting control 11 the_room "token-ben" [utterance]) asha_called
    = Raise (Exception_ "TypeError") ∧
  trace (exec (@websocket_meeting control 11 the_room "token-ben" [utterance])
           asha_called)
    = trace asha_called ++ [EAccept 11].
Proof.
  assert (H1 : returned (@_authenticate_ws control "token-ben") asha_called
               = Ok (Some ben)) by (vm_compute; reflexivity).
  assert (H2 : @db_active_room control (length (trace asha_called)) the_room
               = Returns (Some {| room_id := 7 |})) by reflexivity.
  assert (H3 : @db_room_participant control (length (trace asha_called)) (id ben)
                 the_room = Returns (Some (Some "en_to_hi"))) by reflexivity.
  assert (H4 : @ws_accept control (length (trace asha_called)) 11 = Returns ())
    by reflexivity.
  destruct (@X11_handshake_ends_in_TypeError control 11 the_room "token-ben" [utterance]
              asha_called ben _ _ H1 H2 H3 H4) as (Hrun & Htrace & _).
  split_and!; [exact H1|reflexivity| |exact Htrace].
  unfold returned. rewrite Hrun. reflexivity.
Defined.

(** X12 for ben's utterance in the room shared with asha. *)
Lemma X12_saved_as_delivered_witness :
  100 ≤ length speech ∧
  forallb isspace hello = false ∧
  returned (@process_audio healthy the_room ben 1 "hi_to_en" speech) both_called = Ok () ∧
  ∃ translated src tgt url,
    EDbCommit {| ml_room_id := 7; ml_user_id := 2; ml_original_text := hello;
                 ml_translated_text := translated; ml_source_language := src;
                 ml_target_language := tgt; ml_audio_url := url;
                 ml_confidence := (9 # 10)%Q |} true
    ∈ trace (exec (@process_audio healthy the_room ben 1 "hi_to_en" speech) both_called).
Proof.
  assert (H1 : 100 ≤ length speech) by (vm_compute; lia).
  assert (H2 : @transcribe_audio healthy speech both_called
               = (exec (@transcribe_audio healthy speech) both_called,
                  Ok {| tr_text := hello; tr_language := "en";
                        tr_confidence := (9 # 10)%Q |}))
    by (vm_compute; reflexivity).
  assert (H3 : forallb isspace hello = false) by reflexivity.
  assert (H4 : "en" ≠ "auto") by discriminate.
  assert (H5 : ∀ t, @db_room_by_code healthy t the_room
                    = Returns (Some {| room_id := 7 |})) by (intros; reflexivity).
  assert (H6 : ∀ t row, @db_commit healthy t row = Returns ())
    by (intros; reflexivity).
  destruct (@X12_saved_as_delivered healthy the_room ben 1 "hi_to_en" speech
              both_called _ _ H1 H2 H3 H4)
    as (translated & src & tgt & url & pre & att & ok & warn & _ & _ & _ & Hsaved & _).
  destruct (Hsaved _ H5 H6) as (Hret & Htrace).
  split_and!; [exact H1|exact H3|exact Hret|].
  exists translated, src, tgt, url. rewrite Htrace.
  rewrite !elem_of_app. right. right. apply list_elem_of_singleton. reflexivity.
Defined.

(** X14 for ben's utterance when Whisper raises. *)
Lemma X14_transcription_never_raises_witness :
  100 ≤ length speech ∧
  @whisper_transcribe whisper_down (length (trace both_called)) speech
    = Raises "RuntimeError" ∧
  @process_audio whisper_down the_room ben 1 "hi_to_en" speech both_called
    = (after_events both_called [ETranscribe speech; ELog ERROR "Transcription failed"],
       Ok ()).
Proof.
  assert (H1 : 100 ≤ length speech) by (vm_compute; lia).
  assert (H2 : @whisper_transcribe whisper_down (length (trace both_called)) speech
               = Raises "RuntimeError") by reflexivity.
  destruct (@X14_transcription_never_raises whisper_down the_room ben 1 "hi_to_en"
              speech both_called) as (w1 & tr & _ & _ & _ & _ & Hdown).
  destruct (Hdown _ H2) as (_ & -> & Hrun).
  split_and!; [exact H1|exact H2|exact (Hrun H1)].
Defined.

(** X15 when langdetect answers Marathi, when it gives up, and when it
    breaks. *)
Lemma X15_detect_language_witness :
  returned (@detect_language detects_marathi hello) both_called = Ok "hi" ∧
  returned (@detect_language detection_gives_up hello) both_called = Ok "en" ∧
  returned (@detect_language detection_breaks hello) both_called
    = Raise (Exception_ "MemoryError").
Proof.
  destruct (@X15_detect_language detects_marathi hello both_called)
    as (_ & Hanswer & _).
  destruct (@X15_detect_language detection_gives_up hello both_called)
    as (_ & _ & Hgives_up & _).
  destruct (@X15_detect_language detection_breaks hello both_called)
    as (_ & _ & _ & Hbreaks & _).
  split_and!.
  - exact (Hanswer "mr" eq_refl).
  - exact (Hgives_up eq_refl).
  - apply Hbreaks; [discriminate|reflexivity].
Defined.

(** X16 for "hello" from en to en, and for a text of blanks. *)
Lemma X16_translate_text_languages_witness :
  blank hello = false ∧
  (∃ translated,
     returned (@translate_text healthy hello "en" "en") both_called
     = Ok (translated, "en", "hi")) ∧
  blank [32; 10]%N = true ∧
  @translate_text healthy [32; 10]%N "en" "en" both_called
    = (both_called, Ok ([], "en", "en")).
Proof.
  assert (H1 : blank hello = false) by reflexivity.
  assert (H2 : "en" ≠ "auto") by discriminate.
  assert (H3 : blank [32; 10]%N = true) by reflexivity.
  destruct (@X16_translate_text_languages healthy hello "en" "en" both_called)
    as (_ & Htext).
  destruct (Htext H1) as (_ & Hknown & _).
  destruct (@X16_translate_text_languages healthy [32; 10]%N "en" "en" both_called)
    as (Hblank & _).
  split_and!; [exact H1|exact (Hknown H2)|exact H3|exact (Hblank H3)].
Defined.

(** X17 for "hello" in a language without a voice of its own. *)
Lemma X17_synthesize_speech_witness :
  blank hello = false ∧
  ∃ level msg,
    @synthesize_speech healthy hello "fr" both_called
    = (after_events both_called
         [ESynthesize hello "en-US-AriaNeural" "static/audio/0f.mp3"; ELog level msg],
       Ok "/static/audio/0f.mp3").
Proof.
  assert (H1 : blank hello = false) by reflexivity.
  destruct (@X17_synthesize_speech healthy hello "fr" both_called) as (_ & Htext).
  destruct (Htext H1) as (level & msg & Hrun).
  split; [exact H1|]. exists level, msg. exact Hrun.
Defined.

(** X18 for ben, in mode hi_to_en, saying "hello", detected as en with
    confidence 0.3. *)
Lemma X18_low_confidence_follows_mode_witness :
  100 ≤ length speech ∧
  forallb isspace hello = false ∧
  (3 # 10 <= 1 # 2)%Q ∧
  resolve_languages "hi_to_en" "en" (3 # 10)%Q = ("hi", "en") ∧
  ∃ translated url ok,
    ESendJson (ws_of both_called 1)
              (translation_result 2 "ben" hello translated "hi" "en" url (3 # 10)%Q) ok
    ∈ trace (exec (@process_audio whisper_unsure the_room ben 1 "hi_to_en" speech)
                  both_called).
Proof.
  assert (H1 : 100 ≤ length speech) by (vm_compute; lia).
  assert (H2 : @transcribe_audio whisper_unsure speech both_called
               = (exec (@transcribe_audio whisper_unsure speech) both_called,
                  Ok {| tr_text := hello; tr_language := "en";
                        tr_confidence := (3 # 10)%Q |}))
    by (vm_compute; reflexivity).
  assert (H3 : forallb isspace hello = false) by reflexivity.
  assert (H4 : (3 # 10 <= 1 # 2)%Q) by (vm_compute; discriminate).
  destruct (@X18_low_confidence_follows_mode whisper_unsure the_room ben 1 "hi_to_en"
              speech both_called _ _ H1 H2 H3 H4)
    as (Hres & w2 & url & pre & att & ok & rest & _ & Htrace & _).
  split_and!; [exact H1|exact H3|exact H4|exact Hres|].
  eexists _, url, ok. cbn [tr_text tr_confidence] in Htrace. rewrite Htrace.
  rewrite !elem_of_app. right. right. right. left.
Defined.

(** * The properties of the room service in the database of the deployment *)

Section RoomServiceAtWork.
Import room_service.

(** The random source of the deployment draws from the sequence it is
    given. *)
Lemma wall_clock_draws t i : @secrets_choice wall_clock t i chars ∈ chars.
Proof.
  change (default (Ascii.ascii_of_nat 65) (chars !! ((t + i) mod length chars)) ∈ chars).
  destruct (chars !! ((t + i) mod length chars)) as [c|] eqn:Hc.
  - by eapply list_elem_of_lookup_2.
  - apply lookup_ge_None in Hc.
    pose proof (Nat.mod_upper_bound (t + i) (length chars)) as Hlt.
    assert (length chars ≠ 0) as Hne by (vm_compute; discriminate).
    specialize (Hlt Hne). lia.
Qed.

(** X19 for the code [create_room] draws at time 0. *)
Lemma X19_room_code_format_witness :
  @_generate_room_code wall_clock 0 8 = "ABCD-EFGH" ∧
  length (String.list_ascii_of_string (@_generate_room_code wall_clock 0 8)) = 9 ∧
  ∀ i c, String.list_ascii_of_string (@_generate_room_code wall_clock 0 8) !! i = Some c →
         i ≠ 4 → c ∈ chars.
Proof.
  destruct (@X19_room_code_format wall_clock 0 8) as (_ & _ & _ & Hchars & Hnine & _).
  split_and!; [vm_compute; reflexivity|exact (Hnine eq_refl)|].
  exact (Hchars (wall_clock_draws 0)).
Defined.

Lemma two_rows_ok : constraints_hold two_rows.
Proof. apply (bool_decide_unpack _). vm_compute. reflexivity. Qed.

Lemma three_rows_ok : constraints_hold three_rows.
Proof. apply (bool_decide_unpack _). vm_compute. reflexivity. Qed.

(** X20 when asha creates a second room. *)
Lemma X20_create_room_witness :
  constraints_hold two_rows ∧
  ("ABCD-EFGH" ∉ r_room_code <$> rooms two_rows) ∧
  ∃ room,
    answer (@create_room wall_clock asha "retro" 0) two_rows = Returns room ∧
    r_room_code room = "ABCD-EFGH" ∧ r_id room = 8%Z ∧
    length (active_in (ran (@create_room wall_clock asha "retro" 0) two_rows)
                      (r_id room)) = 1.
Proof.
  assert (H1 : constraints_hold two_rows) by exact two_rows_ok.
  assert (H2 : @_generate_room_code wall_clock (statements two_rows) 8
               ∉ r_room_code <$> rooms two_rows).
  { apply (bool_decide_unpack _). vm_compute. reflexivity. }
  destruct (@X20_create_room wall_clock asha "retro" 0 two_rows H1) as (_ & Hfree).
  destruct (Hfree H2) as (Hret & _ & _ & Hactive & _).
  split_and!; [exact H1|exact H2|].
  eexists. split_and!; [exact Hret|vm_compute; reflexivity|reflexivity|].
  rewrite Hactive. reflexivity.
Defined.

(** X21 when chen joins the room of asha, and when a fourth user asks to
    join the room once it is full. *)
Lemma X21_newcomer_capacity_witness :
  membership two_rows 7 3 = [] ∧
  answer (@join_room wall_clock chen "ABCD-1234" "en_to_hi") two_rows
    = Returns (Some the_room_row) ∧
  length (active_in (ran (@join_room wall_clock chen "ABCD-1234" "en_to_hi") two_rows) 7)
    = 2 ∧
  membership three_rows 7 4 = [] ∧
  answer (@join_room wall_clock {| id := 4; name := "dev" |} "ABCD-1234" "en_to_hi")
         three_rows = Returns None.
Proof.
  assert (H1 : the_room_row ∈ rooms two_rows) by apply list_elem_of_here.
  assert (H2 : r_status the_room_row = ACTIVE) by reflexivity.
  assert (H3 : membership two_rows (r_id the_room_row) (id chen) = [])
    by (vm_compute; reflexivity).
  assert (H4 : the_room_row ∈ rooms three_rows) by apply list_elem_of_here.
  assert (H5 : membership three_rows (r_id the_room_row) 4 = [])
    by (vm_compute; reflexivity).
  destruct (@X21_newcomer_capacity wall_clock chen "en_to_hi" the_room_row two_rows
              two_rows_ok H1 H2 H3) as (_ & _ & Hfree).
  destruct (Hfree ltac:(vm_compute; reflexivity)) as (Hjoin & _).
  destruct (Hjoin ENGLISH_TO_HINDI eq_refl) as (Hret & _ & Hcount & _).
  destruct (@X21_newcomer_capacity wall_clock {| id := 4; name := "dev" |} "en_to_hi"
              the_room_row three_rows three_rows_ok H4 H2 H5) as (_ & Hfull & _).
  destruct (Hfull ltac:(vm_compute; discriminate)) as (Hnone & _).
  split_and!; [exact H3|exact Hret| |exact H5|exact Hnone].
  apply Nat2Z.inj. etrans; [exact Hcount|]. vm_compute. reflexivity.
Defined.

(** X22 when ben, who had left, joins the full room again. *)
Lemma X22_rejoin_skips_capacity_witness :
  length (active_in three_rows 7) = 2 ∧
  r_max_participants the_room_row = 2%Z ∧
  answer (@join_room wall_clock ben "ABCD-1234" "hi_to_en") three_rows
    = Returns (Some the_room_row) ∧
  length (active_in (ran (@join_room wall_clock ben "ABCD-1234" "hi_to_en") three_rows) 7)
    = 3.
Proof.
  assert (H1 : the_room_row ∈ rooms three_rows) by apply list_elem_of_here.
  assert (H2 : r_status the_room_row = ACTIVE) by reflexivity.
  assert (H3 : member_row 2 2 ENGLISH_TO_HINDI false ∈ room_participants three_rows)
    by (apply list_elem_of_further, list_elem_of_here).
  destruct (@X22_rejoin_skips_capacity wall_clock ben "hi_to_en" HINDI_TO_ENGLISH
              the_room_row _ three_rows three_rows_ok H1 H2 H3 eq_refl eq_refl eq_refl)
    as (Hret & _ & _ & Hcount & _).
  split_and!; [reflexivity|reflexivity|exact Hret|exact Hcount].
Defined.

(** X23 for a code no room has. *)
Lemma X23_join_needs_active_room_witness :
  @join_room wall_clock chen "WXYZ-0000" "en_to_hi" two_rows
    = (sent two_rows, Returns None).
Proof.
  apply (@X23_join_needs_active_room wall_clock).
  intros room Hin Hcode. apply list_elem_of_singleton in Hin. subst room.
  discriminate Hcode.
Defined.

(** X24 when ben, who has left, asks to join again in a mode that does
    not exist: the session is left holding ben's row as active. *)
Lemma X24_illegal_mode_witness :
  ("fr_to_en" ∉ legal_modes) ∧
  membership three_rows 7 2 = [member_row 2 2 ENGLISH_TO_HINDI false] ∧
  answer (@join_room wall_clock ben "ABCD-1234" "fr_to_en") three_rows
    = Raises "ValueError" ∧
  member_row 2 2 ENGLISH_TO_HINDI true
    ∈ room_participants (ran (@join_room wall_clock ben "ABCD-1234" "fr_to_en")
                           three_rows).
Proof.
  assert (H1 : the_room_row ∈ rooms three_rows) by apply list_elem_of_here.
  assert (H2 : r_status the_room_row = ACTIVE) by reflexivity.
  assert (H3 : "fr_to_en" ∉ legal_modes).
  { intros Hin. apply list_elem_of_In in Hin. simpl in Hin.
    destruct Hin as [Hin|[Hin|[]]]; discriminate Hin. }
  assert (H4 : membership three_rows 7 2 = [member_row 2 2 ENGLISH_TO_HINDI false])
    by (vm_compute; reflexivity).
  destruct (@X24_illegal_mode wall_clock ben "fr_to_en" the_room_row three_rows
              three_rows_ok H1 H2 H3) as (_ & _ & Hmember & _).
  destruct (Hmember _ H4) as (Hraise & _ & l1 & l2 & _ & Hrows).
  split_and!; [exact H3|exact H4|exact Hraise|].
  change (r_room_code the_room_row) with "ABCD-1234" in Hrows.
  rewrite Hrows. apply elem_of_app. right. apply list_elem_of_here.
Defined.

(** X25 when ben, who has left already, leaves. *)
Lemma X25_leave_room_witness :
  constraints_hold two_rows ∧
  answer (@leave_room 2 "ABCD-1234") two_rows = Returns true ∧
  room_participants (ran (@leave_room 2 "ABCD-1234") two_rows)
    = room_participants two_rows ∧
  answer (@leave_room 3 "ABCD-1234") two_rows = Returns false.
Proof.
  assert (H1 : the_room_row ∈ rooms two_rows) by apply list_elem_of_here.
  assert (H2 : member_row 2 2 ENGLISH_TO_HINDI false ∈ room_participants two_rows)
    by (apply list_elem_of_further, list_elem_of_here).
  destruct (@X25_leave_room 2 "ABCD-1234" two_rows two_rows_ok) as (_ & Hmember & _).
  destruct (Hmember the_room_row _ H1 eq_refl H2 eq_refl eq_refl)
    as (Hret & (l1 & l2 & Hsplit & Hrows) & _).
  destruct (@X25_leave_room 3 "ABCD-1234" two_rows two_rows_ok) as (_ & _ & Hstranger).
  split_and!; [exact two_rows_ok|exact Hret| |].
  - rewrite Hrows, Hsplit. reflexivity.
  - apply Hstranger. intros room Hin Hcode.
    apply list_elem_of_singleton in Hin. subst room. vm_compute. reflexivity.
Defined.

(** X26 when asha leaves the room and joins it again. *)
Lemma X26_leave_join_round_trip_witness :
  constraints_hold two_rows ∧
  room_participants
    (ran (@join_room wall_clock asha "ABCD-1234" "hi_to_en")
         (ran (@leave_room 1 "ABCD-1234") two_rows))
    = room_participants two_rows.
Proof.
  assert (H1 : the_room_row ∈ rooms two_rows) by apply list_elem_of_here.
  assert (H2 : r_status the_room_row = ACTIVE) by reflexivity.
  assert (H3 : member_row 1 1 HINDI_TO_ENGLISH true ∈ room_participants two_rows)
    by apply list_elem_of_here.
  destruct (@X26_leave_join_round_trip wall_clock asha "hi_to_en" the_room_row _
              two_rows two_rows_ok H1 H2 H3 eq_refl eq_refl eq_refl eq_refl)
    as (_ & _ & _ & _ & Hrows & _).
  split; [exact two_rows_ok|exact Hrows].
Defined.

(** X27 when the room of the deployment is ended with its three rows. *)
Lemma X27_end_room_witness :
  constraints_hold three_rows ∧
  r_status <$> rooms (ran (@end_room wall_clock the_room_row) three_rows) = [ENDED] ∧
  active_in (ran (@end_room wall_clock the_room_row) three_rows) 7
    = active_in three_rows 7 ∧
  @join_room wall_clock ben "ABCD-1234" "hi_to_en"
      (ran (@end_room wall_clock the_room_row) three_rows)
    = (sent (ran (@end_room wall_clock the_room_row) three_rows), Returns None).
Proof.
  assert (H1 : the_room_row ∈ rooms three_rows) by apply list_elem_of_here.
  destruct (@X27_end_room wall_clock the_room_row three_rows three_rows_ok H1)
    as (_ & _ & Hrows & _ & Hjoin & _).
  split_and!; [exact three_rows_ok|reflexivity| |exact (Hjoin ben "hi_to_en")].
  unfold active_in. rewrite Hrows. reflexivity.
Defined.

(** X28 for the database of the deployment. *)
Lemma X28_constraints_kept_witness :
  constraints_hold two_rows ∧
  constraints_hold (ran (@join_room wall_clock chen "ABCD-1234" "en_to_hi") two_rows) ∧
  constraints_hold (ran (@create_room wall_clock asha "retro" 10) two_rows).
Proof.
  destruct (@X28_constraints_kept wall_clock two_rows two_rows_ok)
    as (Hcreate & Hjoin & _).
  split_and!; [exact two_rows_ok| |exact (Hcreate asha "retro" 10%Z)].
  exact (proj1 (Hjoin chen "ABCD-1234" "en_to_hi")).
Defined.

End RoomServiceAtWork.
